(** * AgeGenderDetector: the training, evaluation and prediction driver

    A shallow embedding of [full/models/train_full.py]: the batch predictor
    [predict_age_gender], the checkpoint policy of [train] and the metric
    aggregation of [test], with the properties the specification states
    about them.

    Conventions.
    - A float32 tensor entry is a [spec_float] operated on at precision 24
      and maximal exponent 128 (IEEE 754 binary32, round to nearest even).
    - A tensor of shape (B, 2) is a list of B rows, a row being the pair
      (column 0, column 1).
    - A Python exception is a [Raise] result; statements are sequenced in
      the order of the source, so the first exception wins.
    - Code of other modules and libraries (the network, torch.sigmoid, the
      image loader, the loss functions, numpy's mean, ...) is taken as the
      fields of an interface class. *)

From Stdlib Require Import ZArith String Ascii Bool Lia List.
From Stdlib Require Import Floats.SpecFloat DecimalString DecimalZ DecimalPos.
Import ListNotations.

Local Open Scope string_scope.
Local Open Scope list_scope.
Local Open Scope Z_scope.

(** ** Exceptions and results *)

Inductive exn : Type :=
| ValueError (msg : string)
| KeyError (key : string)
| TypeError
| ZeroDivisionError
| RuntimeError (msg : string)
| OSError (path : string)
| Exception (msg : string).

Inductive result (A : Type) : Type :=
| Ok (a : A)
| Raise (e : exn).

Arguments Ok {A} a.
Arguments Raise {A} e.

Definition bind {A B : Type} (r : result A) (k : A -> result B) : result B :=
  match r with
  | Ok a => k a
  | Raise e => Raise e
  end.

Declare Scope py_scope.
Delimit Scope py_scope with py.
Notation "x <- c ;; k" := (bind c (fun x => k))
  (at level 100, c at next level, right associativity) : py_scope.
Local Open Scope py_scope.

(** A [for] loop that collects one value per iteration and stops at the
    first exception. *)
Fixpoint for_each {A B : Type} (f : A -> result B) (l : list A) : result (list B) :=
  match l with
  | [] => Ok []
  | a :: l' =>
      b <- f a ;;
      bs <- for_each f l' ;;
      Ok (b :: bs)
  end.

(** ** float32 *)

Module F32.
Definition prec : Z := 24.
Definition emax : Z := 128.

Definition t : Type := spec_float.

Definition zero : t := S754_zero false.
Definition one : t := S754_finite false 8388608 (-23).
Definition half : t := S754_finite false 8388608 (-24).
Definition nan : t := S754_nan.

Definition add (x y : t) : t := SFadd prec emax x y.
Definition mul (x y : t) : t := SFmul prec emax x y.
Definition sqrt (x : t) : t := SFsqrt prec emax x.
(** [Tensor.square]: the entry multiplied by itself. *)
Definition square (x : t) : t := mul x x.

(** The order of two numbers by their values, as IEEE 754 compares them:
    two finite numbers are brought to their smaller exponent first, so the
    outcome does not depend on the exponents under which they are
    written; no order with NaN, and the two zeros are equal. *)
Definition compare (x y : t) : option comparison :=
  match x, y with
  | S754_finite s1 m1 e1, S754_finite s2 m2 e2 =>
      let e := Z.min e1 e2 in
      Some (Z.compare ((if s1 then Z.neg m1 else Z.pos m1) * 2 ^ (e1 - e))
                      ((if s2 then Z.neg m2 else Z.pos m2) * 2 ^ (e2 - e)))
  | _, _ => SFcompare x y
  end.

Definition leb (x y : t) : bool :=
  match compare x y with
  | Some Lt | Some Eq => true
  | _ => false
  end.
Definition ltb (x y : t) : bool :=
  match compare x y with
  | Some Lt => true
  | _ => false
  end.
Definition geb (x y : t) : bool := leb y x.
Definition gtb (x y : t) : bool := ltb y x.

Definition is_nan (x : t) : bool :=
  match x with
  | S754_nan => true
  | _ => false
  end.

(** [Tensor.float()] on a boolean entry. *)
Definition of_bool (b : bool) : t := if b then one else zero.

(** Membership in the closed interval [0, 1]. *)
Definition in_unit (x : t) : bool := leb zero x && leb x one.
End F32.

(** A number that is a zero, a finite number or an infinity with the sign
    bit [s]; never NaN. *)
Definition has_sign (s : bool) (x : spec_float) : Prop :=
  match x with
  | S754_zero s' | S754_infinity s' | S754_finite s' _ _ => s' = s
  | S754_nan => False
  end.

(** ** Python builtins used by the driver *)

(** Values stored in a configuration record.  [PFloat] is a float32
    number as NumPy holds it ([numpy.float32]: what [np.mean] of the
    losses gives and what the loops store); [PFloat64] is a Python
    [float], a binary64 number, such as the learning rate the caller
    passes. *)
#[warnings="-register-all"]
Inductive pyval : Type :=
| PNone
| PBool (b : bool)
| PInt (n : Z)
| PFloat (x : spec_float)
| PFloat64 (x : spec_float)
| PStr (s : string)
| PList (l : list pyval).

(** A [dict]: insertion ordered, one entry per key. *)
Definition dict : Type := list (string * pyval).

Fixpoint dict_lookup (d : dict) (k : string) : option pyval :=
  match d with
  | [] => None
  | (k', v) :: d' => if String.eqb k k' then Some v else dict_lookup d' k
  end.

(** [d[k]] *)
Definition dict_getitem (d : dict) (k : string) : result pyval :=
  match dict_lookup d k with
  | Some v => Ok v
  | None => Raise (KeyError k)
  end.

(** [d.get(k, None)] *)
Definition dict_get (d : dict) (k : string) : pyval :=
  match dict_lookup d k with
  | Some v => v
  | None => PNone
  end.

(** [d[k] = v]: an existing key keeps its position, a new key goes last. *)
Fixpoint dict_set (d : dict) (k : string) (v : pyval) : dict :=
  match d with
  | [] => [(k, v)]
  | (k', v') :: d' =>
      if String.eqb k k' then (k', v) :: d' else (k', v') :: dict_set d' k v
  end.

(** [d.update(other)] *)
Definition dict_update (d other : dict) : dict :=
  fold_left (fun acc kv => dict_set acc (fst kv) (snd kv)) other d.

(** [list(d.values())] *)
Definition dict_values (d : dict) : list pyval := map snd d.

(** The number of elements of [range(lo, hi, step)] for a non-zero step. *)
Definition range_length (lo hi step : Z) : Z :=
  if 0 <? step
  then (if lo <? hi then (hi - lo - 1) / step + 1 else 0)
  else (if hi <? lo then (lo - hi - 1) / (- step) + 1 else 0).

(** [range(lo, hi, step)] *)
Definition py_range (lo hi step : Z) : result (list Z) :=
  if step =? 0 then Raise (ValueError "range() arg 3 must not be zero")
  else Ok (map (fun i => lo + Z.of_nat i * step)
               (seq 0 (Z.to_nat (range_length lo hi step)))).

(** A slice bound brought into [0, len]; negative bounds count from the end. *)
Definition clamp_index (len i : Z) : Z :=
  if i <? 0 then Z.max 0 (i + len) else Z.min i len.

(** [l[lo:hi]] *)
Definition py_slice {A : Type} (l : list A) (lo hi : Z) : list A :=
  let len := Z.of_nat (length l) in
  let lo' := clamp_index len lo in
  let hi' := clamp_index len hi in
  firstn (Z.to_nat (hi' - lo')) (skipn (Z.to_nat lo') l).

(** ** Tensors of shape (B, 2) *)

Definition row : Type := (F32.t * F32.t)%type.
Definition tensor2 : Type := list row.

(** [t[:, 0] = f(t[:, 0])], entry by entry. *)
Definition map_col0 (f : F32.t -> F32.t) (t : tensor2) : tensor2 :=
  map (fun r => (f (fst r), snd r)) t.

(** [t[:, 1] = f(t[:, 1])], entry by entry. *)
Definition map_col1 (f : F32.t -> F32.t) (t : tensor2) : tensor2 :=
  map (fun r => (fst r, f (snd r))) t.

Definition col0 (t : tensor2) : list F32.t := map fst t.
Definition col1 (t : tensor2) : list F32.t := map snd t.

(** [torch.cat(ts, dim=0)]: refuses an empty list of tensors. *)
Definition torch_cat (ts : list tensor2) : result tensor2 :=
  match ts with
  | [] => Raise (RuntimeError "torch.cat(): expected a non-empty list of Tensors")
  | _ => Ok (concat ts)
  end.

(** [torch.stack(ts, dim=0)]: refuses an empty list of tensors. *)
Definition torch_stack {A : Type} (ts : list A) : result (list A) :=
  match ts with
  | [] => Raise (RuntimeError "stack expects a non-empty TensorList")
  | _ => Ok ts
  end.

(** ** The batch predictor *)

(** What [predict_age_gender] calls outside this file. *)
Class Inference : Type := {
  Image : Type;
  ImgTensor : Type;
  Net : Type;
  (** [PIL.Image.open] *)
  image_open : string -> result Image;
  (** [utils.get_image_transform((h, w))] applied to an image *)
  get_image_transform : Z * Z -> Image -> ImgTensor;
  (** the network in evaluation mode, on a stacked batch *)
  forward : Net -> list ImgTensor -> tensor2;
  (** [torch.sigmoid] on one entry *)
  sigmoid : F32.t -> F32.t;
  (** [int(v)] *)
  py_int : pyval -> result Z
}.

Section Predict.
Context {I : Inference}.

(** "batch size cannot higher than length of images" *)
Definition effective_batch_size (n batch_size : Z) : Z :=
  if n <? batch_size then n else batch_size.

(** "force positive ages" *)
Definition force_positive (x : F32.t) : F32.t := F32.sqrt (F32.square x).

(** The label of a probability: [(p > threshold).float()]. *)
Definition to_label (threshold p : F32.t) : F32.t :=
  F32.of_bool (F32.gtb p threshold).

(** The body of the batch loop, for the batch starting at index [k]. *)
Definition predict_batch (model : Net) (img_size : Z) (list_imgs : list string)
    (return_pr : bool) (threshold : F32.t) (batch_size k : Z) : result tensor2 :=
  let images := py_slice list_imgs k (k + batch_size) in
  img_tensor <- for_each
      (fun p => im <- image_open p ;;
                Ok (get_image_transform (img_size, img_size) im)) images ;;
  img_tensor <- torch_stack img_tensor ;;
  let pred := forward model img_tensor in
  let pred := map_col0 sigmoid pred in
  let pred := if negb return_pr then map_col0 (to_label threshold) pred else pred in
  Ok pred.

(** [predict_age_gender]; the choice of device, [model.to(device)] and
    [model.eval()] change no value and are left out ([forward] is the
    network in evaluation mode). *)
Definition predict_age_gender (model : Net) (model_dict : dict)
    (list_imgs : list string) (return_pr : bool) (batch_size : Z)
    : result tensor2 :=
  let threshold := F32.half in
  let n := Z.of_nat (length list_imgs) in
  let batch_size := effective_batch_size n batch_size in
  v <- dict_getitem model_dict "train_suffix" ;;
  img_size <- py_int v ;;
  ks <- py_range 0 (n - batch_size + 1) batch_size ;;
  predictions <- for_each
      (predict_batch model img_size list_imgs return_pr threshold batch_size) ks ;;
  res <- torch_cat predictions ;;
  Ok (map_col1 force_positive res).

(** Column 0 of a row after the loop body, from the raw logit. *)
Definition gender_out (return_pr : bool) (logit : F32.t) : F32.t :=
  if return_pr then sigmoid logit else to_label F32.half (sigmoid logit).

(** A row comes from the network: some batch of image tensors makes the
    network answer the raw row (logit, age). *)
Definition raw_row (model : Net) (logit age : F32.t) : Prop :=
  exists imgs, In (logit, age) (forward model imgs).
End Predict.

(** ** Strings: what the run and checkpoint names are made of *)

(** [s.replace(c, r)] for a one-character pattern [c]. *)
Fixpoint replace_char (c : ascii) (r : string) (s : string) : string :=
  match s with
  | EmptyString => EmptyString
  | String a s' =>
      if Ascii.eqb a c then r ++ replace_char c r s'
      else String a (replace_char c r s')
  end%string.

(** [s[1:-1]] *)
Definition strip_ends (s : string) : string :=
  string_of_list_ascii (py_slice (list_ascii_of_string s) 1 (-1)).

(** [str(n)] for an [int]. *)
Definition str_of_int (n : Z) : string :=
  DecimalString.NilZero.string_of_int (Z.to_int n).

(** [os.path.join(a, b)] on POSIX paths. *)
Definition path_join (a b : string) : string :=
  match b with
  | String "/" _ => b
  | _ =>
      match a with
      | EmptyString => b
      | _ =>
          if String.eqb (substring (String.length a - 1) 1 a) "/"
          then (a ++ b)%string
          else (a ++ "/" ++ b)%string
      end
  end.

(** The run name: the text of the naming record without its braces, with
    [,] turned into [/] and [:] into [=], quotes and blanks removed. *)
Definition name_model_of (str_name_dict : string) : string :=
  replace_char ":" "="
    (replace_char " " ""
       (replace_char "'" ""
          (replace_char "," "/" (strip_ends str_name_dict)))).

(** The canonical checkpoint name: the text of the list of the naming
    record's values without its brackets, with [,] turned into [_], quotes
    and blanks removed. *)
Definition name_path_of (str_values : string) : string :=
  replace_char " " ""
    (replace_char "'" ""
       (replace_char "," "_" (strip_ends str_values))).

(** The name of a checkpoint saved at the end of epoch index [epoch]:
    "if periodic save, then include epoch". *)
Definition checkpoint_name (name_path : string) (is_better : bool) (epoch : Z) : string :=
  if negb is_better then (name_path ++ "_" ++ str_of_int (epoch + 1))%string
  else name_path.

(** ** Numbers in the training loop *)

(** A Python [float] operand entering a float32 computation. *)
Definition f32_of_float (x : spec_float) : F32.t :=
  match x with
  | S754_finite s m e => binary_round F32.prec F32.emax s m e
  | _ => x
  end.

(** A Python [int] operand entering a float32 computation. *)
Definition f32_of_int (n : Z) : F32.t :=
  binary_normalize F32.prec F32.emax n 0 false.

(** The other operand of a comparison with a float32 metric, for a stored
    scalar: a float32 number as it is, and a Python [float], [int] or
    [bool] converted to float32, the type of the NumPy operand (from
    NumPy 2 on, a Python scalar takes the type of the NumPy scalar it
    meets); a string is not comparable. *)
Definition as_number (v : pyval) : result F32.t :=
  match v with
  | PFloat x => Ok x
  | PFloat64 x => Ok (f32_of_float x)
  | PInt n => Ok (f32_of_int n)
  | PBool b => Ok (f32_of_int (if b then 1 else 0))
  | _ => Raise TypeError
  end.

(** [a % b] on [int]: the sign of the divisor, an exception on zero. *)
Definition py_mod (a b : Z) : result Z :=
  if b =? 0 then Raise ZeroDivisionError else Ok (a mod b).

(** [(t[:, 0] > 0).float()]: the predicted gender of each row. *)
Definition predicted_gender (pred : tensor2) : list F32.t :=
  map (fun x => F32.of_bool (F32.gtb x F32.zero)) (col0 pred).

(** ** The training loop *)

(** What [train] and [test] call outside this file. *)
Class Torch : Type := {
  Imgs : Type;
  TNet : Type;
  Loader : Type;
  Optimizer : Type;
  Scheduler : Type;
  CM : Type;
  (** [model(img)]; the flag tells training mode from evaluation mode *)
  net_forward : TNet -> bool -> Imgs -> tensor2;
  (** one pass over a data loader: its batches (image tensor, ages,
      genders) and the loader afterwards *)
  loader_iter : Loader -> list (Imgs * list F32.t * list F32.t) * Loader;
  (** [utils.load_data]: the train, validation and test loaders *)
  load_data : string -> Z -> Z -> bool -> Loader * Loader * Loader;
  (** [torch.nn.BCEWithLogitsLoss()] and [torch.nn.MSELoss()] *)
  bce_with_logits : list F32.t -> list F32.t -> F32.t;
  mse_loss : list F32.t -> list F32.t -> F32.t;
  (** [torch.optim.SGD], [Adam], [AdamW] at a learning rate *)
  new_sgd : TNet -> spec_float -> Optimizer;
  new_adam : TNet -> spec_float -> Optimizer;
  new_adamw : TNet -> spec_float -> Optimizer;
  (** [optimizer.zero_grad(); loss_val.backward(); optimizer.step()] for
      the loss of one batch *)
  optimizer_update :
    Optimizer -> TNet -> Imgs * list F32.t * list F32.t -> F32.t -> Optimizer * TNet;
  optimizer_lr : Optimizer -> F32.t;
  (** [ReduceLROnPlateau(optimizer, mode, patience)] and its [step] *)
  new_scheduler : Optimizer -> string -> Z -> Scheduler;
  scheduler_step : Scheduler -> Optimizer -> F32.t -> Scheduler * Optimizer;
  (** [utils.ConfusionMatrix] *)
  cm_new : Z -> string -> CM;
  cm_add : CM -> list F32.t -> list F32.t -> CM;
  global_accuracy : CM -> F32.t;
  average_accuracy : CM -> F32.t;
  matthews_corrcoef : CM -> F32.t;
  class_accuracy : CM -> list F32.t;
  (** [numpy.mean] of a list of scalars *)
  np_mean : list F32.t -> F32.t;
  (** [numpy.ndarray] of [bool], and the comparisons [met <= l] and
      [met >= l] of a float32 scalar with a list, which NumPy makes
      element by element *)
  BoolArray : Type;
  np_less_equal : F32.t -> list pyval -> result BoolArray;
  np_greater_equal : F32.t -> list pyval -> result BoolArray;
  (** [bool(a)] for such an array *)
  array_bool : BoolArray -> result bool;
  (** [str] of a record and of a list of values *)
  str_of_dict : dict -> string;
  str_of_list : list pyval -> string
}.

Definition batch `{Torch} : Type := (Imgs * list F32.t * list F32.t)%type.

(** The arguments of [train] besides the model and its record.  The
    device arguments ([device], [use_cpu]) and the two transforms, which
    [train] only passes on, are left out. *)
Record train_args : Type := {
  log_dir : string;
  data_path : string;
  save_path : string;
  lr : spec_float;
  optimizer_name : string;
  n_epochs : Z;
  batch_size : Z;
  num_workers : Z;
  scheduler_mode : string;
  debug_mode : bool;
  steps_save : Z;
  loss_age_weight : spec_float;
  scheduler_patience : Z;
  suffix : string;
  use_cache : bool
}.

Section Train.
Context {T : Torch}.

(** Calls that leave the process: the log writer, the data source and
    the checkpoint store. *)
Inductive event : Type :=
| SummaryWriter (logdir : string)
| LoadData (data_path : string) (num_workers batch_size : Z) (use_cache : bool)
| Backward (loss_val : F32.t)
| AddScalar (tag : string) (value : F32.t) (global_step : Z)
| SaveModel (weights : TNet) (save_path name_path : string) (param_dicts : dict).

(** The objects [train] shares with its caller and the calls made so
    far: [dict_model] and the network are mutated in place. *)
Record world : Type := {
  w_dict : dict;
  w_net : TNet;
  w_trace : list event
}.

(** Computations that read and write the world and may raise. *)
Definition M (A : Type) : Type := world -> result A * world.

Definition ret {A : Type} (a : A) : M A := fun w => (Ok a, w).
Definition raise {A : Type} (e : exn) : M A := fun w => (Raise e, w).
Definition mbind {A B : Type} (c : M A) (k : A -> M B) : M B :=
  fun w => match c w with
           | (Ok a, w') => k a w'
           | (Raise e, w') => (Raise e, w')
           end.
Definition lift {A : Type} (r : result A) : M A := fun w => (r, w).
Definition emit (ev : event) : M unit :=
  fun w => (Ok tt, {| w_dict := w_dict w; w_net := w_net w;
                      w_trace := w_trace w ++ [ev] |}).
Definition get_dict : M dict := fun w => (Ok (w_dict w), w).
Definition put_dict (d : dict) : M unit :=
  fun w => (Ok tt, {| w_dict := d; w_net := w_net w; w_trace := w_trace w |}).
Definition get_net : M TNet := fun w => (Ok (w_net w), w).
Definition put_net (n : TNet) : M unit :=
  fun w => (Ok tt, {| w_dict := w_dict w; w_net := n; w_trace := w_trace w |}).

Notation "x <~ c ;; k" := (mbind c (fun x => k))
  (at level 100, c at next level, right associativity).
Notation "c ;;; k" := (mbind c (fun _ => k))
  (at level 100, right associativity).

(** A [for] loop threading an accumulator. *)
Fixpoint for_fold {A B : Type} (f : B -> A -> M B) (l : list A) (acc : B) : M B :=
  match l with
  | [] => ret acc
  | a :: l' => acc' <~ f acc a ;; for_fold f l' acc'
  end.

(** [dict_param]: the training parameters that enter the record, in the
    order of the function's parameter list. *)
Definition dict_param (a : train_args) : dict :=
  [ ("train_lr", PFloat64 (lr a));
    ("train_optimizer_name", PStr (optimizer_name a));
    ("train_batch_size", PInt (batch_size a));
    ("train_scheduler_mode", PStr (scheduler_mode a));
    ("train_loss_age_weight", PFloat64 (loss_age_weight a));
    ("train_suffix", PStr (suffix a)) ].

(** What one pass over the training data accumulates. *)
Record train_acc : Type := {
  a_optimizer : Optimizer;
  a_loss : list F32.t;
  a_loss_gender : list F32.t;
  a_loss_age : list F32.t;
  a_cm : CM
}.

(** The body of the loop over the training batches. *)
Definition train_batch (a : train_args) (acc : train_acc) (b : batch) : M train_acc :=
  let '(img, age, gender) := b in
  model <~ get_net ;;
  let pred := net_forward model true img in
  let loss_val_gender := bce_with_logits (col0 pred) gender in
  let loss_val_age := mse_loss (col1 pred) age in
  let loss_val :=
    F32.add loss_val_gender (F32.mul (f32_of_float (loss_age_weight a)) loss_val_age) in
  emit (Backward loss_val) ;;;
  let '(optimizer, model') := optimizer_update (a_optimizer acc) model b loss_val in
  put_net model' ;;;
  ret {| a_optimizer := optimizer;
         a_loss := a_loss acc ++ [loss_val];
         a_loss_gender := a_loss_gender acc ++ [loss_val_gender];
         a_loss_age := a_loss_age acc ++ [loss_val_age];
         a_cm := cm_add (a_cm acc) (predicted_gender pred) gender |}.

(** The body of the loop over the validation batches. *)
Definition valid_batch (model : TNet) (acc : CM * list F32.t) (b : batch)
    : CM * list F32.t :=
  let '(img, age, gender) := b in
  let pred := net_forward model false img in
  (cm_add (fst acc) (predicted_gender pred) gender,
   snd acc ++ [mse_loss (col1 pred) age]).

(** What [is_better] holds: [False], the outcome of a comparison of two
    scalars, or the array of a comparison with a list. *)
Inductive truth : Type :=
| Truth (b : bool)
| Elementwise (arr : BoolArray).

(** [met <= best_met] and [met >= best_met] for a float32 metric and a
    stored value that is not [None]. *)
Definition py_le (met : F32.t) (best_met : pyval) : result truth :=
  match best_met with
  | PList l => arr <- np_less_equal met l ;; Ok (Elementwise arr)
  | _ => b <- as_number best_met ;; Ok (Truth (F32.leb met b))
  end.

Definition py_ge (met : F32.t) (best_met : pyval) : result truth :=
  match best_met with
  | PList l => arr <- np_greater_equal met l ;; Ok (Elementwise arr)
  | _ => b <- as_number best_met ;; Ok (Truth (F32.geb met b))
  end.

(** The truth value Python takes of [is_better]. *)
Definition py_bool (t : truth) : result bool :=
  match t with
  | Truth b => Ok b
  | Elementwise arr => array_bool arr
  end.

(** "Step the scheduler to change the learning rate": the metric the
    scheduler mode selects, and [is_better]. *)
Definition select_metric (mode : string) (dict_model : dict)
    (train_loss val_mse_age : F32.t) (train_cm val_cm : CM)
    : result (option F32.t * truth) :=
  let is_better := Truth false in
  if String.eqb mode "min_loss" then
    let met := train_loss in
    match dict_get dict_model "train_loss" with
    | PNone => Ok (Some met, is_better)
    | best_met => is_better <- py_le met best_met ;; Ok (Some met, is_better)
    end
  else if String.eqb mode "min_mse" then
    let met := val_mse_age in
    match dict_get dict_model "val_mse_age" with
    | PNone => Ok (Some met, is_better)
    | best_met => is_better <- py_le met best_met ;; Ok (Some met, is_better)
    end
  else if String.eqb mode "max_acc" then
    let met := global_accuracy train_cm in
    match dict_get dict_model "train_acc" with
    | PNone => Ok (Some met, is_better)
    | best_met => is_better <- py_ge met best_met ;; Ok (Some met, is_better)
    end
  else if String.eqb mode "max_val_acc" then
    let met := global_accuracy val_cm in
    match dict_get dict_model "val_acc" with
    | PNone => Ok (Some met, is_better)
    | best_met => is_better <- py_ge met best_met ;; Ok (Some met, is_better)
    end
  else if String.eqb mode "max_val_mcc" then
    let met := matthews_corrcoef val_cm in
    match dict_get dict_model "val_mcc" with
    | PNone => Ok (Some met, is_better)
    | best_met => is_better <- py_ge met best_met ;; Ok (Some met, is_better)
    end
  else Ok (None, is_better).

(** [log_confussion_matrix] *)
Definition log_confussion_matrix (confussion_matrix : CM) (global_step : Z)
    (suffix : string) : M unit :=
  emit (AddScalar ("acc_global_" ++ suffix)%string
                  (global_accuracy confussion_matrix) global_step) ;;;
  emit (AddScalar ("acc_avg_" ++ suffix)%string
                  (average_accuracy confussion_matrix) global_step) ;;;
  emit (AddScalar ("mcc_" ++ suffix)%string
                  (matthews_corrcoef confussion_matrix) global_step) ;;;
  for_fold
    (fun idx k =>
       emit (AddScalar ("acc_class_" ++ str_of_int idx ++ "_" ++ suffix)%string
                       k global_step) ;;;
       ret (idx + 1))
    (class_accuracy confussion_matrix) 0 ;;;
  ret tt.

(** The record entries a checkpoint carries: the epoch and the metrics. *)
Definition with_metrics (d : dict) (epoch : Z) (train_loss val_mse_age : F32.t)
    (train_cm val_cm : CM) : dict :=
  let d := dict_set d "epoch" (PInt (epoch + 1)) in
  let d := dict_set d "train_loss" (PFloat train_loss) in
  let d := dict_set d "val_mse_age" (PFloat val_mse_age) in
  let d := dict_set d "train_acc" (PFloat (global_accuracy train_cm)) in
  let d := dict_set d "val_acc" (PFloat (global_accuracy val_cm)) in
  dict_set d "val_mcc" (PFloat (matthews_corrcoef val_cm)).

(** "Save the model": [d] is [dict_model] itself when the epoch improved
    the metric and a copy of it otherwise. *)
Definition save_checkpoint (a : train_args) (name_dict : dict) (epoch : Z)
    (is_better : bool) (train_loss val_mse_age : F32.t) (train_cm val_cm : CM)
    : M unit :=
  r <~ lift (py_mod epoch (steps_save a)) ;;
  if (r =? steps_save a - 1) || is_better then
    dict_model <~ get_dict ;;
    let d := with_metrics dict_model epoch train_loss val_mse_age train_cm val_cm in
    (if is_better then put_dict d else ret tt) ;;;
    let name_path := name_path_of (str_of_list (dict_values name_dict)) in
    let name_path := checkpoint_name name_path is_better epoch in
    model <~ get_net ;;
    emit (SaveModel model (save_path a) name_path d)
  else ret tt.

(** The "Save the model" block on whatever the comparison gave.  Python
    takes the remainder first and then the truth value of [is_better]: in
    the condition when the remainder does not decide, in the choice of
    [d] when it does; either way before anything is written. *)
Definition save_model_block (a : train_args) (name_dict : dict) (epoch : Z)
    (is_better : truth) (train_loss val_mse_age : F32.t) (train_cm val_cm : CM)
    : M unit :=
  lift (py_mod epoch (steps_save a)) ;;;
  b <~ lift (py_bool is_better) ;;
  save_checkpoint a name_dict epoch b train_loss val_mse_age train_cm val_cm.

(** The local objects of [train] that live across epochs. *)
Record loop_state : Type := {
  l_optimizer : Optimizer;
  l_scheduler : Scheduler;
  l_loader_train : Loader;
  l_loader_valid : Loader;
  l_global_step : Z
}.

(** The body of the loop over the epochs. *)
Definition train_epoch (a : train_args) (name_dict : dict) (st : loop_state)
    (epoch : Z) : M loop_state :=
  let '(batches, loader_train) := loader_iter (l_loader_train st) in
  acc <~ for_fold (train_batch a) batches
           {| a_optimizer := l_optimizer st; a_loss := []; a_loss_gender := [];
              a_loss_age := []; a_cm := cm_new 2 "train" |} ;;
  let train_cm := a_cm acc in
  model <~ get_net ;;
  let '(vbatches, loader_valid) := loader_iter (l_loader_valid st) in
  let '(val_cm, val_mse_age) :=
    fold_left (valid_batch model) vbatches (cm_new 2 "val", []) in
  let train_loss := np_mean (a_loss acc) in
  let train_loss_gender := np_mean (a_loss_gender acc) in
  let train_loss_age := np_mean (a_loss_age acc) in
  let val_mse_age := np_mean val_mse_age in
  dict_model <~ get_dict ;;
  sel <~ lift (select_metric (scheduler_mode a) dict_model
                 train_loss val_mse_age train_cm val_cm) ;;
  let '(met, is_better) := sel in
  let '(scheduler, optimizer) :=
    match met with
    | Some m => scheduler_step (l_scheduler st) (a_optimizer acc) m
    | None => (l_scheduler st, a_optimizer acc)
    end in
  let global_step := l_global_step st + 1 in
  emit (AddScalar "loss_train" train_loss global_step) ;;;
  emit (AddScalar "loss_age_train" train_loss_age global_step) ;;;
  emit (AddScalar "loss_gender_train" train_loss_gender global_step) ;;;
  log_confussion_matrix train_cm global_step "train" ;;;
  emit (AddScalar "mse_age_val" val_mse_age global_step) ;;;
  log_confussion_matrix val_cm global_step "val" ;;;
  emit (AddScalar "lr" (optimizer_lr optimizer) global_step) ;;;
  save_model_block a name_dict epoch is_better
                   train_loss val_mse_age train_cm val_cm ;;;
  ret {| l_optimizer := optimizer; l_scheduler := scheduler;
         l_loader_train := loader_train; l_loader_valid := loader_valid;
         l_global_step := global_step |}.

(** [train]; the progress bar and the placement on a device are left
    out. *)
Definition train (a : train_args) : M unit :=
  let num_workers := if debug_mode a then 0 else num_workers a in
  let global_step := 0 in
  let dict_param := dict_param a in
  dict_model <~ get_dict ;;
  let name_dict := dict_update dict_model dict_param in
  let name_model := name_model_of (str_of_dict name_dict) in
  emit (SummaryWriter (path_join (log_dir a) name_model)) ;;;
  put_dict (dict_update dict_model dict_param) ;;;
  emit (LoadData (data_path a) num_workers (batch_size a) (use_cache a)) ;;;
  let '(loader_train, loader_valid, _) :=
    load_data (data_path a) num_workers (batch_size a) (use_cache a) in
  model <~ get_net ;;
  optimizer <~
    (if String.eqb (optimizer_name a) "sgd" then ret (new_sgd model (lr a))
     else if String.eqb (optimizer_name a) "adam" then ret (new_adam model (lr a))
     else if String.eqb (optimizer_name a) "adamw" then ret (new_adamw model (lr a))
     else raise (Exception "Optimizer not configured")) ;;
  scheduler <~
    (if existsb (String.eqb (scheduler_mode a)) ["min_loss"; "min_mse"]
     then ret (new_scheduler optimizer "min" (scheduler_patience a))
     else if existsb (String.eqb (scheduler_mode a))
                     ["max_acc"; "max_val_acc"; "max_val_mcc"]
     then ret (new_scheduler optimizer "max" (scheduler_patience a))
     else raise (Exception "Optimizer not configured")) ;;
  epochs <~ lift (py_range 0 (n_epochs a) 1) ;;
  for_fold (train_epoch a name_dict) epochs
    {| l_optimizer := optimizer; l_scheduler := scheduler;
       l_loader_train := loader_train; l_loader_valid := loader_valid;
       l_global_step := global_step |} ;;;
  ret tt.
End Train.

(** ** The evaluation loop *)

(** What only [test] calls outside this file. *)
Class Evaluation `{Torch} : Type := {
  (** [list(Path(save_path).glob('*'))] *)
  glob_all : string -> list string;
  (** [Path.name] *)
  path_name : string -> string;
  (** [models.load_model]: the network and its record *)
  load_model : string -> result (TNet * dict);
  (** [sklearn.metrics]: arguments [y_true], [y_pred] *)
  mean_squared_error : list F32.t -> list F32.t -> F32.t;
  mean_absolute_error : list F32.t -> list F32.t -> F32.t
}.

Section Test.
Context {T : Torch} {E : Evaluation}.

(** One entry of the list [test] returns. *)
Record bundle : Type := {
  b_dict : dict;
  b_train_cm : list CM;
  b_val_cm : list CM;
  b_test_cm : list CM
}.

(** [utils.save_dict(d, file)] as it was called. *)
Inductive saved : Type :=
| SaveDict (d : dict) (file : string).

(** One pass over one split in one run: the per-batch errors and the
    confusion matrix of the run. *)
Definition eval_pass (model : TNet) (name : string) (batches : list batch)
    : list F32.t * list F32.t * CM :=
  fold_left
    (fun acc (b : batch) =>
       let '(run_mse, run_mae, run_cm) := acc in
       let '(img, age, gender) := b in
       let pred := net_forward model false img in
       (run_mse ++ [mean_squared_error age (col1 pred)],
        run_mae ++ [mean_absolute_error age (col1 pred)],
        cm_add run_cm (predicted_gender pred) gender))
    batches ([], [], cm_new 2 name).

(** The lists one checkpoint accumulates over its runs. *)
Record split_runs : Type := {
  r_mse : list F32.t;
  r_mae : list F32.t;
  r_cm : list CM
}.

Definition no_runs : split_runs := {| r_mse := []; r_mae := []; r_cm := [] |}.

Definition add_run (s : split_runs) (p : list F32.t * list F32.t * CM) : split_runs :=
  let '(run_mse, run_mae, run_cm) := p in
  {| r_mse := r_mse s ++ [np_mean run_mse];
     r_mae := r_mae s ++ [np_mean run_mae];
     r_cm := r_cm s ++ [run_cm] |}.

(** The state of the loop over the runs: the three loaders and the three
    groups of lists. *)
Record runs_state : Type := {
  s_loaders : Loader * Loader * Loader;
  s_train : split_runs;
  s_val : split_runs;
  s_test : split_runs
}.

(** The body of the loop over the runs. *)
Definition test_run (model : TNet) (st : runs_state) (k : Z) : runs_state :=
  let '(loader_train, loader_valid, loader_test) := s_loaders st in
  let '(bt, loader_train) := loader_iter loader_train in
  let train_run := eval_pass model "train" bt in
  let '(bv, loader_valid) := loader_iter loader_valid in
  let val_run := eval_pass model "val" bv in
  let '(bs, loader_test) := loader_iter loader_test in
  let test_run := eval_pass model "test" bs in
  {| s_loaders := (loader_train, loader_valid, loader_test);
     s_train := add_run (s_train st) train_run;
     s_val := add_run (s_val st) val_run;
     s_test := add_run (s_test st) test_run |}.

(** [dict_result] *)
Definition dict_result (st : runs_state) : dict :=
  [ ("train_mae", PFloat (np_mean (r_mae (s_train st))));
    ("val_mae", PFloat (np_mean (r_mae (s_val st))));
    ("test_mae", PFloat (np_mean (r_mae (s_test st))));
    ("train_mse", PFloat (np_mean (r_mse (s_train st))));
    ("val_mse", PFloat (np_mean (r_mse (s_val st))));
    ("test_mse", PFloat (np_mean (r_mse (s_test st))));
    ("train_mcc", PFloat (np_mean (map matthews_corrcoef (r_cm (s_train st)))));
    ("val_mcc", PFloat (np_mean (map matthews_corrcoef (r_cm (s_val st)))));
    ("test_mcc", PFloat (np_mean (map matthews_corrcoef (r_cm (s_test st)))));
    ("train_acc", PFloat (np_mean (map global_accuracy (r_cm (s_train st)))));
    ("val_acc", PFloat (np_mean (map global_accuracy (r_cm (s_val st)))));
    ("test_acc", PFloat (np_mean (map global_accuracy (r_cm (s_test st))))) ].

(** The body of the loop over the checkpoint folders. *)
Definition test_checkpoint (data_path : string) (n_runs batch_size num_workers : Z)
    (save use_cache : bool) (acc : list bundle * list saved) (folder_path : string)
    : result (list bundle * list saved) :=
  md <- load_model folder_path ;;
  let '(model, dict_model) := md in
  let loaders := load_data data_path num_workers batch_size use_cache in
  ks <- py_range 0 n_runs 1 ;;
  let st := fold_left (test_run model) ks
              {| s_loaders := loaders; s_train := no_runs;
                 s_val := no_runs; s_test := no_runs |} in
  let dict_model := dict_update dict_model (dict_result st) in
  let files :=
    if save
    then snd acc ++ [SaveDict dict_model
                       (folder_path ++ "/" ++ path_name folder_path ++ ".dict")%string]
    else snd acc in
  Ok (fst acc ++ [{| b_dict := dict_model; b_train_cm := r_cm (s_train st);
                     b_val_cm := r_cm (s_val st); b_test_cm := r_cm (s_test st) |}],
      files).

(** A [for] loop threading an accumulator through a body that may raise. *)
Fixpoint for_fold_result {A B : Type} (f : B -> A -> result B) (l : list A) (acc : B)
    : result B :=
  match l with
  | [] => Ok acc
  | a :: l' => acc' <- f acc a ;; for_fold_result f l' acc'
  end.

(** [test]: the list it returns and the record files it wrote; printing
    and the placement on a device are left out. *)
Definition test (data_path save_path : string) (n_runs batch_size num_workers : Z)
    (debug_mode save use_cache : bool) : result (list bundle * list saved) :=
  let num_workers := if debug_mode then 0 else num_workers in
  let paths := glob_all save_path in
  for_fold_result
    (test_checkpoint data_path n_runs batch_size num_workers save use_cache)
    paths ([], []).
End Test.

(** ** The training loop in the words of its description *)

Section TrainSpec.
Context {T : Torch}.

(** The table of scheduler modes: the record key of the best value so
    far, whether the metric is minimized, and the metric of the epoch
    (training loss, validation age MSE, training accuracy, validation
    accuracy, validation Matthews correlation). *)
Definition metric_of_mode (mode : string) (train_loss val_mse_age : F32.t)
    (train_cm val_cm : CM) : option (string * bool * F32.t) :=
  if String.eqb mode "min_loss" then Some ("train_loss", true, train_loss)
  else if String.eqb mode "min_mse" then Some ("val_mse_age", true, val_mse_age)
  else if String.eqb mode "max_acc" then Some ("train_acc", false, global_accuracy train_cm)
  else if String.eqb mode "max_val_acc" then Some ("val_acc", false, global_accuracy val_cm)
  else if String.eqb mode "max_val_mcc" then Some ("val_mcc", false, matthews_corrcoef val_cm)
  else None.





(** The optimizer names and scheduler modes [train] recognizes. *)
Definition known_optimizer (name : string) : bool :=
  existsb (String.eqb name) ["sgd"; "adam"; "adamw"].

Definition known_mode (mode : string) : bool :=
  existsb (String.eqb mode)
          ["min_loss"; "min_mse"; "max_acc"; "max_val_acc"; "max_val_mcc"].

(** The checkpoints written by a sequence of calls: name and record. *)
Fixpoint saved_checkpoints (t : list event) : list (string * dict) :=
  match t with
  | [] => []
  | SaveModel _ _ name_path d :: t' => (name_path, d) :: saved_checkpoints t'
  | _ :: t' => saved_checkpoints t'
  end.

(** The losses handed to [backward] by a sequence of calls. *)
Fixpoint backward_losses (t : list event) : list F32.t :=
  match t with
  | [] => []
  | Backward loss_val :: t' => loss_val :: backward_losses t'
  | _ :: t' => backward_losses t'
  end.

(** The record keys a checkpoint writes. *)
Definition metric_keys : list string :=
  ["epoch"; "train_loss"; "val_mse_age"; "train_acc"; "val_acc"; "val_mcc"].

(** A record carries the epoch number and the five metric values. *)
Definition carries_metrics (d : dict) (epoch : Z) (train_loss val_mse_age : F32.t)
    (train_cm val_cm : CM) : Prop :=
  dict_lookup d "epoch" = Some (PInt (epoch + 1)) /\
  dict_lookup d "train_loss" = Some (PFloat train_loss) /\
  dict_lookup d "val_mse_age" = Some (PFloat val_mse_age) /\
  dict_lookup d "train_acc" = Some (PFloat (global_accuracy train_cm)) /\
  dict_lookup d "val_acc" = Some (PFloat (global_accuracy val_cm)) /\
  dict_lookup d "val_mcc" = Some (PFloat (matthews_corrcoef val_cm)).

(** Two records agree on every key a checkpoint does not write. *)
Definition same_elsewhere (d d0 : dict) : Prop :=
  forall k, ~ In k metric_keys -> dict_lookup d k = dict_lookup d0 k.

(** The record keys under which [train] looks for a best value. *)
Definition best_keys : list string :=
  ["train_loss"; "val_mse_age"; "train_acc"; "val_acc"; "val_mcc"].

(** The record stores no best value: each of these keys is absent or
    holds [None]. *)
Definition no_best (d : dict) : Prop :=
  Forall (fun k => dict_get d k = PNone) best_keys.

(** A call that is not a checkpoint save under the name [canonical]. *)
Definition not_saved_as (canonical : string) (ev : event) : Prop :=
  match ev with
  | SaveModel _ _ name_path _ => name_path <> canonical
  | _ => True
  end.

(** A computation that, started on a record without a best value, leaves
    the record as it is, makes only calls that satisfy [ok], and returns
    a value that satisfies [R]. *)
Definition safe {A : Type} (ok : event -> Prop) (R : A -> Prop) (c : M A) : Prop :=
  forall w, no_best (w_dict w) ->
  forall r w', c w = (r, w') ->
    w_dict w' = w_dict w /\
    (exists t, w_trace w' = w_trace w ++ t /\ Forall ok t) /\
    (forall x, r = Ok x -> R x).


(** The condition under which the end of an epoch saves. *)
Definition save_due (a : train_args) (epoch : Z) (is_better : bool) : bool :=
  (epoch mod steps_save a =? steps_save a - 1) || is_better.
End TrainSpec.

(** ** The evaluation loop in the words of its description *)

Section TestSpec.
Context {T : Torch} {E : Evaluation}.

(** The batches a loader hands out in [n] passes, one after the other. *)
Fixpoint loader_passes (loader : Loader) (n : nat) : list (list batch) :=
  match n with
  | O => []
  | S n' =>
      let '(batches, loader') := loader_iter loader in
      batches :: loader_passes loader' n'
  end.

(** The MSE of one run over a split: the mean, over the batches, of the
    mean squared error between the ages and the age predictions (column
    1) of the network in evaluation mode. *)
Definition run_mse (model : TNet) (batches : list batch) : F32.t :=
  np_mean (map (fun b : batch =>
                  let '(img, age, gender) := b in
                  mean_squared_error age (col1 (net_forward model false img)))
               batches).

(** The MAE of one run over a split, with the mean absolute error. *)
Definition run_mae (model : TNet) (batches : list batch) : F32.t :=
  np_mean (map (fun b : batch =>
                  let '(img, age, gender) := b in
                  mean_absolute_error age (col1 (net_forward model false img)))
               batches).

(** The confusion matrix of one run over a split: a new matrix for two
    classes under the name of the split, to which each batch adds the
    predictions [logit > 0] (column 0) against the gender labels. *)
Definition run_cm (model : TNet) (split : string) (batches : list batch) : CM :=
  fold_left
    (fun cm (b : batch) =>
       let '(img, age, gender) := b in
       cm_add cm
         (map (fun logit => F32.of_bool (F32.gtb logit F32.zero))
              (col0 (net_forward model false img)))
         gender)
    batches (cm_new 2 split).

(** What a bundle holds for one split whose loader hands out [passes],
    one pass per run: the confusion matrices of the runs, and in the
    record, under the name of the split followed by [_mae], [_mse], [_acc]
    and [_mcc], the mean over the runs of the MAE, of the MSE, of the
    global accuracy and of the Matthews correlation of the run. *)
Definition split_aggregated (d : dict) (cms : list CM) (model : TNet)
    (split : string) (passes : list (list batch)) : Prop :=
  cms = map (run_cm model split) passes /\
  dict_lookup d (split ++ "_mae")
    = Some (PFloat (np_mean (map (run_mae model) passes))) /\
  dict_lookup d (split ++ "_mse")
    = Some (PFloat (np_mean (map (run_mse model) passes))) /\
  dict_lookup d (split ++ "_acc")
    = Some (PFloat (np_mean (map global_accuracy (map (run_cm model split) passes)))) /\
  dict_lookup d (split ++ "_mcc")
    = Some (PFloat (np_mean (map matthews_corrcoef
                                 (map (run_cm model split) passes)))).

(** The runs of one checkpoint: the loop over [range(n_runs)] from empty
    lists. *)
Definition runs_of (model : TNet) (loaders : Loader * Loader * Loader) (n_runs : Z)
    : runs_state :=
  fold_left (test_run model)
            (map Z.of_nat (seq 0 (Z.to_nat n_runs)))
            {| s_loaders := loaders; s_train := no_runs;
               s_val := no_runs; s_test := no_runs |}.
End TestSpec.

(** ** Stand-in collaborators

    Small total implementations of the interfaces, used to run the driver
    on concrete inputs. *)

Module Stub.

(** A coarse sigmoid: 0 below zero, 1/2 at zero, 1 above, and NaN on NaN
    as every float32 operation answers. *)
Definition step_sigmoid (x : F32.t) : F32.t :=
  match x with
  | S754_nan => S754_nan
  | _ => if F32.gtb x F32.zero then F32.one
         else if F32.gtb F32.zero x then F32.zero else F32.half
  end.

(** [int] of an integer or of a decimal literal. *)
Definition int_of (v : pyval) : result Z :=
  match v with
  | PInt n => Ok n
  | PBool b => Ok (if b then 1 else 0)
  | PStr s =>
      match NilZero.int_of_string s with
      | Some i => Ok (Z.of_int i)
      | None => Raise (ValueError "invalid literal for int() with base 10")
      end
  | _ => Raise TypeError
  end.

(** A network that answers every image with the same row. *)
Definition constant_model : Inference := {|
  Image := string;
  ImgTensor := string;
  Net := row;
  image_open := fun p => Ok p;
  get_image_transform := fun _ im => im;
  forward := fun net imgs => map (fun _ => net) imgs;
  sigmoid := step_sigmoid;
  py_int := int_of
|}.

(** The same network behind a file system on which the file
    [missing.jpg] cannot be opened. *)
Definition picky_model : Inference := {|
  Image := string;
  ImgTensor := string;
  Net := row;
  image_open := fun p => if String.eqb p "missing.jpg" then Raise (OSError p) else Ok p;
  get_image_transform := fun _ im => im;
  forward := fun net imgs => map (fun _ => net) imgs;
  sigmoid := step_sigmoid;
  py_int := int_of
|}.

(** The float32 values -3 and 3. *)
Definition minus_three : F32.t := S754_finite true 12582912 (-22).
Definition three : F32.t := S754_finite false 12582912 (-22).

(** The Python floats 3.0, 0.75 and 0.1, and the float32 number nearest
    to 0.1. *)
Definition three_py : spec_float := S754_finite false 6755399441055744 (-51).
Definition three_quarters_py : spec_float := S754_finite false 6755399441055744 (-53).
Definition tenth_py : spec_float := S754_finite false 7205759403792794 (-56).
Definition tenth : F32.t := S754_finite false 13421773 (-27).

(** A record as [train] leaves it for [predict_age_gender]. *)
Definition record_400 : dict := [("in_channels", PInt 3); ("train_suffix", PStr "400")].

(** [numpy.mean] in float32: the sum from left to right over the length. *)
Definition mean (l : list F32.t) : F32.t :=
  SFdiv F32.prec F32.emax (fold_left F32.add l F32.zero)
        (f32_of_int (Z.of_nat (length l))).

(** A confusion matrix kept as the list of (prediction, label) pairs. *)
Definition accuracy (cm : list (F32.t * F32.t)) : F32.t :=
  SFdiv F32.prec F32.emax
        (f32_of_int (Z.of_nat (length (filter (fun p => SFeqb (fst p) (snd p)) cm))))
        (f32_of_int (Z.of_nat (length cm))).

(** A trainer whose network is one constant row, whose batches are
    numbers of images with their labels, and whose optimizer leaves the
    network alone. *)
Definition frozen_trainer : Torch := {|
  Imgs := nat;
  TNet := row;
  Loader := list (nat * list F32.t * list F32.t);
  Optimizer := unit;
  Scheduler := unit;
  CM := list (F32.t * F32.t);
  net_forward := fun net _ n => repeat net n;
  loader_iter := fun l => (l, l);
  load_data := fun _ _ _ _ =>
    ([(2%nat, [three; three], [F32.one; F32.zero])],
     [(1%nat, [three], [F32.one])],
     [(1%nat, [three], [F32.zero])]);
  bce_with_logits := fun x y => mean (map (fun p => F32.mul (fst p) (snd p)) (combine x y));
  mse_loss := fun x y =>
    mean (map (fun p => F32.square (SFsub F32.prec F32.emax (fst p) (snd p))) (combine x y));
  new_sgd := fun _ _ => tt;
  new_adam := fun _ _ => tt;
  new_adamw := fun _ _ => tt;
  optimizer_update := fun o net _ _ => (o, net);
  optimizer_lr := fun _ => F32.half;
  new_scheduler := fun _ _ _ => tt;
  scheduler_step := fun s o _ => (s, o);
  cm_new := fun _ _ => [];
  cm_add := fun cm preds labels => cm ++ combine preds labels;
  global_accuracy := accuracy;
  average_accuracy := accuracy;
  matthews_corrcoef := fun _ => F32.zero;
  class_accuracy := fun cm => [accuracy cm; accuracy cm];
  np_mean := mean;
  BoolArray := list bool;
  np_less_equal := fun met l =>
    for_each (fun v => b <- as_number v ;; Ok (F32.leb met b)) l;
  np_greater_equal := fun met l =>
    for_each (fun v => b <- as_number v ;; Ok (F32.geb met b)) l;
  array_bool := fun arr =>
    match arr with
    | [b] => Ok b
    | _ => Raise (ValueError "The truth value of an array is ambiguous")
    end;
  str_of_dict := fun d => "{'k': 1}";
  str_of_list := fun l => "[3, 'adamw', '1']"
|}.

(** Two checkpoint folders, each loading the constant network. *)
Definition two_checkpoints : @Evaluation frozen_trainer := {|
  glob_all := fun _ => ["saved/a"; "saved/b"];
  path_name := fun p => substring 6 1 p;
  load_model := fun p =>
    @Ok (@TNet frozen_trainer * dict) ((minus_three, three), [("in_channels", PInt 3)]);
  mean_squared_error := fun y_true y_pred =>
    mean (map (fun p => F32.square (SFsub F32.prec F32.emax (fst p) (snd p)))
              (combine y_true y_pred));
  mean_absolute_error := fun y_true y_pred =>
    mean (map (fun p => SFabs (SFsub F32.prec F32.emax (fst p) (snd p)))
              (combine y_true y_pred))
|}.

(** Three checkpoint folders, the second of which does not load. *)
Definition broken_checkpoint : @Evaluation frozen_trainer := {|
  glob_all := fun _ => ["saved/a"; "saved/b"; "saved/c"];
  path_name := fun p => substring 6 1 p;
  load_model := fun p =>
    if String.eqb p "saved/b"
    then @Raise (@TNet frozen_trainer * dict) (OSError p)
    else @Ok (@TNet frozen_trainer * dict)
             ((minus_three, three), [("in_channels", PInt 3)]);
  mean_squared_error := fun y_true y_pred =>
    mean (map (fun p => F32.square (SFsub F32.prec F32.emax (fst p) (snd p)))
              (combine y_true y_pred));
  mean_absolute_error := fun y_true y_pred =>
    mean (map (fun p => SFabs (SFsub F32.prec F32.emax (fst p) (snd p)))
              (combine y_true y_pred))
|}.

(** The arguments of the script's own call of [train], for three epochs. *)
Definition script_args : train_args := {|
  log_dir := "./logs_full";
  data_path := "./data_full";
  save_path := "./models/saved_full";
  lr := S754_finite false 5764607523034235 (-59);
  optimizer_name := "adamw";
  n_epochs := 3;
  batch_size := 16;
  num_workers := 2;
  scheduler_mode := "min_mse";
  debug_mode := false;
  steps_save := 1;
  loss_age_weight := S754_finite false 5764607523034235 (-59);
  scheduler_patience := 10;
  suffix := "1";
  use_cache := true
|}.

(** The same call with an optimizer name [train] does not know. *)
Definition rmsprop_args : train_args := {|
  log_dir := "./logs_full";
  data_path := "./data_full";
  save_path := "./models/saved_full";
  lr := S754_finite false 5764607523034235 (-59);
  optimizer_name := "rmsprop";
  n_epochs := 3;
  batch_size := 16;
  num_workers := 2;
  scheduler_mode := "min_mse";
  debug_mode := false;
  steps_save := 1;
  loss_age_weight := S754_finite false 5764607523034235 (-59);
  scheduler_patience := 10;
  suffix := "1";
  use_cache := true
|}.

(** The same call with a save period of zero. *)
Definition zero_period_args : train_args := {|
  log_dir := "./logs_full";
  data_path := "./data_full";
  save_path := "./models/saved_full";
  lr := S754_finite false 5764607523034235 (-59);
  optimizer_name := "adamw";
  n_epochs := 3;
  batch_size := 16;
  num_workers := 2;
  scheduler_mode := "min_mse";
  debug_mode := false;
  steps_save := 0;
  loss_age_weight := S754_finite false 5764607523034235 (-59);
  scheduler_patience := 10;
  suffix := "1";
  use_cache := true
|}.

(** The world [train] starts in: the caller's record and network, and no
    call made yet. *)
Definition fresh_world (d : dict) : @world frozen_trainer :=
  @Build_world frozen_trainer d (minus_three, three) [].

End Stub.

(** ** More words for the properties of a whole run *)

(** The character [c] occurs in [s]. *)
Fixpoint occurs (c : ascii) (s : string) : bool :=
  match s with
  | EmptyString => false
  | String a s' => Ascii.eqb a c || occurs c s'
  end.

(** The keys [test] writes into a record. *)
Definition result_keys : list string :=
  ["train_mae"; "val_mae"; "test_mae"; "train_mse"; "val_mse"; "test_mse";
   "train_mcc"; "val_mcc"; "test_mcc"; "train_acc"; "val_acc"; "test_acc"].

Section RunSpec.
Context {T : Torch}.

(** A call that is not a checkpoint save. *)
Definition no_save (ev : event) : Prop :=
  match ev with
  | SaveModel _ _ _ _ => False
  | _ => True
  end.

(** A checkpoint save of a run of [n] epochs under the name [canonical]:
    the record carries an epoch number [k] between 1 and [n], and the
    name is the canonical one or the canonical one followed by [_k]. *)
Definition well_formed_save (canonical : string) (n : Z) (ev : event) : Prop :=
  match ev with
  | SaveModel _ _ name_path d =>
      exists k, 1 <= k <= n /\
                dict_lookup d "epoch" = Some (PInt k) /\
                (name_path = canonical \/
                 name_path = (canonical ++ "_" ++ str_of_int k)%string)
  | _ => True
  end.

(** A computation that changes the record only by [D], makes only calls
    that satisfy [ok] and never takes back a call that was made. *)
Definition framed {A : Type} (D : dict -> dict -> Prop) (ok : event -> Prop)
    (c : M A) : Prop :=
  forall w r w', c w = (r, w') ->
    D (w_dict w) (w_dict w') /\
    exists t, w_trace w' = w_trace w ++ t /\ Forall ok t.

(** The names of the checkpoints written by a sequence of calls. *)
Definition saved_names (t : list event) : list string :=
  map fst (saved_checkpoints t).

(** A computation that, started on a record without a best value,
    returns a value that satisfies [R], leaves the record as it is and
    saves checkpoints under exactly the names [names], in this order. *)
Definition runs {A : Type} (names : list string) (R : A -> Prop) (c : M A) : Prop :=
  forall w, no_best (w_dict w) ->
  exists x w',
    c w = (Ok x, w') /\
    w_dict w' = w_dict w /\
    saved_names (w_trace w') = saved_names (w_trace w) ++ names /\
    R x.

(** A computation that, started on a record without a best value, raises
    [e], leaves the record as it is and saves no checkpoint. *)
Definition raises {A : Type} (e : exn) (c : M A) : Prop :=
  forall w, no_best (w_dict w) ->
  exists w',
    c w = (Raise e, w') /\
    w_dict w' = w_dict w /\
    saved_names (w_trace w') = saved_names (w_trace w).

(** The name of the periodic checkpoint of epoch index [epoch], when one
    is due. *)
Definition periodic_names (a : train_args) (canonical : string) (epoch : Z)
    : list string :=
  if epoch mod steps_save a =? steps_save a - 1
  then [(canonical ++ "_" ++ str_of_int (epoch + 1))%string]
  else [].

(** The epoch indices of a run of [n] epochs: 0, 1, ..., n - 1. *)
Definition epochs_of (n : Z) : list Z := map Z.of_nat (seq 0 (Z.to_nat n)).

(** The scalars [log_confussion_matrix] writes for the classes from index
    [idx] on. *)
Fixpoint class_scalars (suffix : string) (global_step idx : Z) (accs : list F32.t)
    : list event :=
  match accs with
  | [] => []
  | k :: accs' =>
      AddScalar ("acc_class_" ++ str_of_int idx ++ "_" ++ suffix)%string k global_step
      :: class_scalars suffix global_step (idx + 1) accs'
  end.
End RunSpec.

(** ** What an evaluation leaves behind *)

Section EvalSpec.
Context {T : Torch} {E : Evaluation}.

(** The bundle of one checkpoint folder: the loaded record updated with
    the means, and the confusion matrices of the runs; none when the
    folder does not load. *)
Definition checkpoint_bundle (data_path : string) (n_runs batch_size num_workers : Z)
    (use_cache : bool) (folder_path : string) : option bundle :=
  match load_model folder_path with
  | Ok (model, d0) =>
      let st := runs_of model
                  (load_data data_path num_workers batch_size use_cache) n_runs in
      Some {| b_dict := dict_update d0 (dict_result st);
              b_train_cm := r_cm (s_train st);
              b_val_cm := r_cm (s_val st);
              b_test_cm := r_cm (s_test st) |}
  | Raise _ => None
  end.

(** The lists of a split after [passes] more runs. *)
Definition after_passes (model : TNet) (split : string) (s : split_runs)
    (passes : list (list batch)) : split_runs :=
  {| r_mse := r_mse s ++ map (run_mse model) passes;
     r_mae := r_mae s ++ map (run_mae model) passes;
     r_cm := r_cm s ++ map (run_cm model split) passes |}.

(** What the bundle of one checkpoint holds. *)
Definition bundle_aggregated (data_path : string) (n_runs batch_size num_workers : Z)
    (use_cache : bool) (p : string) (b : bundle) : Prop :=
  exists model d0 loader_train loader_valid loader_test,
    load_model p = Ok (model, d0) /\
    load_data data_path num_workers batch_size use_cache
      = (loader_train, loader_valid, loader_test) /\
    split_aggregated (b_dict b) (b_train_cm b) model "train"
                     (loader_passes loader_train (Z.to_nat n_runs)) /\
    split_aggregated (b_dict b) (b_val_cm b) model "val"
                     (loader_passes loader_valid (Z.to_nat n_runs)) /\
    split_aggregated (b_dict b) (b_test_cm b) model "test"
                     (loader_passes loader_test (Z.to_nat n_runs)) /\
    (length (b_train_cm b) = Z.to_nat n_runs /\
     length (b_val_cm b) = Z.to_nat n_runs /\
     length (b_test_cm b) = Z.to_nat n_runs) /\
    (forall k, ~ In k result_keys -> dict_lookup (b_dict b) k = dict_lookup d0 k).

(** The record file of a checkpoint folder: the folder's own name with
    the extension [.dict], inside the folder. *)
Definition record_file (folder_path : string) : string :=
  (folder_path ++ "/" ++ path_name folder_path ++ ".dict")%string.

(** One record file per folder, holding the record of the folder's
    bundle. *)
Definition record_files (paths : list string) (bundles : list bundle) : list saved :=
  map (fun pb => SaveDict (b_dict (snd pb)) (record_file (fst pb)))
      (combine paths bundles).
End EvalSpec.

(** * Properties *)

(** ** float32: rounding keeps the sign *)

Section RoundingFacts.
Variables prec emax : Z.

Lemma shr_1_nonneg (mrs : shr_record) :
  0 <= shr_m mrs -> 0 <= shr_m (shr_1 mrs).
Proof.
  destruct mrs as [m r s]; simpl.
  destruct m as [|p|p]; [reflexivity | | lia].
  destruct p; simpl; lia.
Qed.

Lemma iter_shr_1_nonneg (p : positive) :
  forall mrs, 0 <= shr_m mrs -> 0 <= shr_m (iter_pos shr_1 p mrs).
Proof.
  induction p as [p IH | p IH |]; intros mrs H; simpl.
  - apply IH, IH, shr_1_nonneg, H.
  - apply IH, IH, H.
  - apply shr_1_nonneg, H.
Qed.

Lemma shr_nonneg (mrs : shr_record) (e n : Z) :
  0 <= shr_m mrs -> 0 <= shr_m (fst (shr mrs e n)).
Proof.
  intros H. destruct n as [|p|p]; simpl; trivial.
  apply iter_shr_1_nonneg, H.
Qed.

Lemma shr_fexp_nonneg (m e : Z) (l : location) :
  0 <= m -> 0 <= shr_m (fst (shr_fexp prec emax m e l)).
Proof.
  intros H. unfold shr_fexp. apply shr_nonneg.
  destruct l as [|[| |]]; exact H.
Qed.

Lemma round_nearest_even_nonneg (m : Z) (l : location) :
  0 <= m -> 0 <= round_nearest_even m l.
Proof.
  intros H. destruct l as [|[| |]]; simpl; try lia.
  destruct (Z.even m); lia.
Qed.

(** The result of rounding a non-negative mantissa is a zero, a finite
    number or an infinity, with the sign that was asked for. *)
Lemma binary_round_aux_sign (s : bool) (m e : Z) (l : location) :
  0 <= m -> has_sign s (binary_round_aux prec emax s m e l).
Proof.
  intros H. unfold binary_round_aux.
  pose proof (shr_fexp_nonneg m e l H) as H1.
  destruct (shr_fexp prec emax m e l) as [mrs' e']. simpl in H1.
  pose proof (shr_fexp_nonneg _ e' loc_Exact
                (round_nearest_even_nonneg _ (loc_of_shr_record mrs') H1)) as H2.
  destruct (shr_fexp prec emax _ e' loc_Exact) as [mrs'' e'']. simpl in H2.
  destruct (shr_m mrs'') as [|p|p]; simpl; trivial; [|lia].
  destruct (e'' <=? emax - prec); reflexivity.
Qed.

Lemma sqrt_core_nonneg (m : positive) (e : Z) :
  0 <= fst (fst (SFsqrt_core_binary prec emax (Z.pos m) e)).
Proof.
  unfold SFsqrt_core_binary.
  set (m' := match e - 2 * _ with Z.pos _ => _ | Z0 => _ | Z.neg _ => _ end).
  pose proof (Z.sqrtrem_sqrt m') as Hq.
  destruct (Z.sqrtrem m') as [q r]. simpl in *.
  rewrite Hq. apply Z.sqrt_nonneg.
Qed.

(** The square root of a number that carries no minus sign carries none. *)
Lemma SFsqrt_sign (x : spec_float) :
  has_sign false x -> has_sign false (SFsqrt prec emax x).
Proof.
  destruct x as [s|s| |s m e]; simpl; intros H; try subst s; simpl; trivial.
  pose proof (sqrt_core_nonneg m e) as Hq.
  destruct (SFsqrt_core_binary prec emax (Z.pos m) e) as [[mz ez] lz].
  apply binary_round_aux_sign. exact Hq.
Qed.

(** A product of a number with itself carries no minus sign, and is NaN
    only for NaN. *)
Lemma SFmul_self_sign (x : spec_float) :
  x <> S754_nan -> has_sign false (SFmul prec emax x x).
Proof.
  destruct x as [s|s| |s m e]; simpl; intros H.
  - apply xorb_nilpotent.
  - apply xorb_nilpotent.
  - congruence.
  - rewrite xorb_nilpotent. apply binary_round_aux_sign. lia.
Qed.

Lemma has_sign_false_nonneg (x : spec_float) :
  has_sign false x -> F32.leb (S754_zero false) x = true.
Proof.
  destruct x as [s|s| |s m e]; simpl; intros H; subst; trivial; contradiction.
Qed.

Lemma has_sign_not_nan (s : bool) (x : spec_float) :
  has_sign s x -> x <> S754_nan.
Proof. destruct x; simpl; intros H; congruence || contradiction. Qed.
End RoundingFacts.

(** ** Loops that may raise *)

Lemma for_each_Forall {A B : Type} (f : A -> result B) (P : B -> Prop) (l : list A) :
  forall bs, for_each f l = Ok bs ->
  (forall a b, In a l -> f a = Ok b -> P b) -> Forall P bs.
Proof.
  induction l as [|a l IH]; simpl; intros bs Hbs HP.
  - injection Hbs as <-. constructor.
  - destruct (f a) as [b|e] eqn:Hfa; simpl in Hbs; [|discriminate].
    destruct (for_each f l) as [bs'|e] eqn:Hl; simpl in Hbs; [|discriminate].
    injection Hbs as <-. constructor.
    + apply (HP a); [left; reflexivity | exact Hfa].
    + apply IH; [reflexivity|]. intros a' b' Hin. apply HP. right; exact Hin.
Qed.

Lemma for_each_length {A B : Type} (f : A -> result B) (l : list A) :
  forall bs, for_each f l = Ok bs -> length bs = length l.
Proof.
  induction l as [|a l IH]; simpl; intros bs Hbs.
  - injection Hbs as <-. reflexivity.
  - destruct (f a) as [b|e]; simpl in Hbs; [|discriminate].
    destruct (for_each f l) as [bs'|e]; simpl in Hbs; [|discriminate].
    injection Hbs as <-. simpl. f_equal. apply IH. reflexivity.
Qed.

Lemma for_each_total {A B : Type} (f : A -> result B) (l : list A) :
  (forall a, In a l -> exists b, f a = Ok b) -> exists bs, for_each f l = Ok bs.
Proof.
  induction l as [|a l IH]; intros H; simpl; [eexists; reflexivity|].
  destruct (H a) as [b Hb]; [left; reflexivity|]. rewrite Hb. simpl.
  destruct IH as [bs Hbs]; [intros; apply H; right; assumption|].
  rewrite Hbs. simpl. eexists; reflexivity.
Qed.

Lemma length_concat_const {A : Type} (n : nat) (ls : list (list A)) :
  Forall (fun l => length l = n) ls -> length (concat ls) = (length ls * n)%nat.
Proof.
  induction 1 as [|l ls Hl _ IH]; simpl; [reflexivity|].
  rewrite length_app, Hl, IH. reflexivity.
Qed.

(** ** Slices and ranges *)

Lemma py_slice_incl {A : Type} (l : list A) (lo hi : Z) (x : A) :
  In x (py_slice l lo hi) -> In x l.
Proof.
  unfold py_slice. intros H.
  rewrite <- (firstn_skipn (Z.to_nat (clamp_index (Z.of_nat (length l)) lo)) l).
  apply in_or_app. right.
  set (t := skipn _ l) in *.
  rewrite <- (firstn_skipn (Z.to_nat (clamp_index (Z.of_nat (length l)) hi
                                       - clamp_index (Z.of_nat (length l)) lo)) t).
  apply in_or_app. left. exact H.
Qed.

Lemma py_slice_length {A : Type} (l : list A) (k b : Z) :
  0 <= k -> 0 <= b -> k + b <= Z.of_nat (length l) ->
  length (py_slice l k (k + b)) = Z.to_nat b.
Proof.
  intros Hk Hb Hle. unfold py_slice, clamp_index.
  destruct (Z.ltb_spec k 0); [lia|].
  destruct (Z.ltb_spec (k + b) 0); [lia|].
  rewrite length_firstn, length_skipn. lia.
Qed.

Lemma range_length_batches (n b : Z) :
  1 <= b <= n -> range_length 0 (n - b + 1) b = n / b.
Proof.
  intros H. unfold range_length.
  destruct (Z.ltb_spec 0 b); [|lia].
  destruct (Z.ltb_spec 0 (n - b + 1)); [|lia].
  replace (n - b + 1 - 0 - 1) with (n - b) by lia.
  replace n with ((n - b) + 1 * b) at 2 by lia.
  rewrite Z.div_add by lia. reflexivity.
Qed.

Lemma py_range_backwards (hi step : Z) :
  step < 0 -> 0 <= hi -> py_range 0 hi step = Ok [].
Proof.
  intros Hs Hh. unfold py_range, range_length.
  destruct (Z.eqb_spec step 0); [lia|].
  destruct (Z.ltb_spec 0 step); [lia|].
  destruct (Z.ltb_spec hi 0); [lia|]. reflexivity.
Qed.

Lemma effective_batch_size_bounds (n batch_size : Z) :
  1 <= n -> 1 <= batch_size ->
  1 <= effective_batch_size n batch_size <= n.
Proof.
  intros Hn Hb. unfold effective_batch_size.
  destruct (Z.ltb_spec n batch_size); lia.
Qed.

(** ** The batch predictor: what a returned row is made of *)

Section PredictFacts.
Context {I : Inference}.

Lemma force_positive_nan : force_positive F32.nan = F32.nan.
Proof. reflexivity. Qed.

Lemma force_positive_nonneg (x : F32.t) :
  F32.is_nan x = false ->
  F32.is_nan (force_positive x) = false /\
  F32.leb F32.zero (force_positive x) = true.
Proof.
  intros Hx.
  assert (Hs : has_sign false (force_positive x)).
  { apply SFsqrt_sign, SFmul_self_sign. destruct x; simpl in Hx; congruence. }
  split.
  - pose proof (has_sign_not_nan _ _ Hs) as Hn.
    destruct (force_positive x); simpl; congruence.
  - apply has_sign_false_nonneg, Hs.
Qed.

Lemma force_positive_is_nan (x : F32.t) :
  F32.is_nan (force_positive x) = F32.is_nan x.
Proof.
  destruct (F32.is_nan x) eqn:Hx.
  - destruct x; simpl in Hx; try discriminate. reflexivity.
  - apply force_positive_nonneg, Hx.
Qed.

(** The float32 value -3 goes to 3; -1e20 (rounded) overflows to plus
    infinity; -2^-100 underflows to zero. *)
Example force_positive_minus_three :
  force_positive Stub.minus_three = Stub.three.
Proof. vm_compute. reflexivity. Qed.

Example force_positive_overflows :
  force_positive (S754_finite true 11368684 43) = S754_infinity false.
Proof. vm_compute. reflexivity. Qed.

Example force_positive_underflows :
  force_positive (S754_finite true 8388608 (-123)) = S754_zero false.
Proof. vm_compute. reflexivity. Qed.

Lemma to_label_cases (threshold p : F32.t) :
  to_label threshold p = F32.zero \/ to_label threshold p = F32.one.
Proof. unfold to_label. destruct (F32.gtb p threshold); simpl; auto. Qed.

Lemma predict_batch_rows model img_size list_imgs return_pr batch_size k pred :
  predict_batch model img_size list_imgs return_pr F32.half batch_size k = Ok pred ->
  Forall (fun r => exists logit age,
            raw_row model logit age /\ r = (gender_out return_pr logit, age)) pred.
Proof.
  unfold predict_batch. intros H.
  destruct (for_each _ _) as [ts|e]; simpl in H; [|discriminate].
  destruct (torch_stack ts) as [ts'|e]; simpl in H; [|discriminate].
  injection H as <-.
  apply Forall_forall. intros r Hr.
  assert (Hraw : exists logit age,
             In (logit, age) (forward model ts') /\
             r = (gender_out return_pr logit, age)).
  { unfold gender_out. destruct return_pr; simpl in Hr; unfold map_col0 in Hr.
    - apply in_map_iff in Hr as [[g a] [<- Hin]]. exists g, a. split; trivial.
    - apply in_map_iff in Hr as [[g' a] [<- Hin]].
      apply in_map_iff in Hin as [[g a'] [Heq Hin]].
      injection Heq as <- <-. exists g, a'. split; trivial. }
  destruct Hraw as (logit & age & Hin & ->).
  exists logit, age. split; [exists ts'; exact Hin | reflexivity].
Qed.

(** Every returned row is the network's raw row with [gender_out] on the
    logit and [force_positive] on the age. *)
Lemma predict_rows model model_dict list_imgs return_pr batch_size res :
  predict_age_gender model model_dict list_imgs return_pr batch_size = Ok res ->
  Forall (fun r => exists logit age,
            raw_row model logit age /\
            r = (gender_out return_pr logit, force_positive age)) res.
Proof.
  unfold predict_age_gender. intros H.
  destruct (dict_getitem _ _) as [v|e]; simpl in H; [|discriminate].
  destruct (py_int v) as [img_size|e]; simpl in H; [|discriminate].
  destruct (py_range _ _ _) as [ks|e]; simpl in H; [|discriminate].
  destruct (for_each _ ks) as [predictions|e] eqn:Hp; simpl in H; [|discriminate].
  destruct (torch_cat predictions) as [cat|e] eqn:Hc; simpl in H; [|discriminate].
  injection H as <-.
  assert (Hcat : cat = concat predictions).
  { destruct predictions; simpl in Hc; [discriminate|]. injection Hc as <-. reflexivity. }
  subst cat. unfold map_col1. apply Forall_map.
  apply Forall_concat.
  eapply Forall_impl; [|eapply for_each_Forall; [exact Hp|]].
  2:{ intros k pred _ Hk. apply (predict_batch_rows _ _ _ _ _ _ _ Hk). }
  intros pred Hpred. eapply Forall_impl; [|exact Hpred].
  intros r (logit & age & Hraw & ->). exists logit, age. split; trivial.
Qed.
End PredictFacts.

(** ** The batch predictor: how many rows come back *)

Section PredictShape.
Context {I : Inference}.

Lemma predict_batch_full model img_size list_imgs return_pr b k :
  (forall imgs, length (forward model imgs) = length imgs) ->
  (forall p, In p list_imgs -> exists im, image_open p = Ok im) ->
  1 <= b -> 0 <= k -> k + b <= Z.of_nat (length list_imgs) ->
  exists pred,
    predict_batch model img_size list_imgs return_pr F32.half b k = Ok pred /\
    length pred = Z.to_nat b.
Proof.
  intros Hfwd Hopen Hb Hk Hle. unfold predict_batch.
  destruct (for_each_total
              (fun p => im <- image_open p ;;
                        Ok (get_image_transform (img_size, img_size) im))
              (py_slice list_imgs k (k + b))) as [ts Hts].
  { intros p Hp. apply py_slice_incl in Hp.
    destruct (Hopen p Hp) as [im Him]. rewrite Him.
    simpl. eexists; reflexivity. }
  rewrite Hts. simpl.
  assert (Hlen : length ts = Z.to_nat b).
  { rewrite (for_each_length _ _ _ Hts). apply py_slice_length; lia. }
  destruct ts as [|t ts]; [simpl in Hlen; lia|]. simpl torch_stack. simpl bind.
  eexists. split; [reflexivity|].
  destruct return_pr; simpl negb; cbv iota; unfold map_col0;
    rewrite ?length_map, Hfwd; exact Hlen.
Qed.

(** With a network that answers one row per image, images that all open
    and a record that gives the image size, the call returns, and the
    number of rows is the effective batch size times the number of full
    batches. *)
Lemma predict_row_count model model_dict list_imgs return_pr batch_size v img_size :
  (forall imgs, length (forward model imgs) = length imgs) ->
  (forall p, In p list_imgs -> exists im, image_open p = Ok im) ->
  dict_getitem model_dict "train_suffix" = Ok v ->
  py_int v = Ok img_size ->
  list_imgs <> [] ->
  1 <= batch_size ->
  exists res,
    predict_age_gender model model_dict list_imgs return_pr batch_size = Ok res /\
    Z.of_nat (length res) =
      effective_batch_size (Z.of_nat (length list_imgs)) batch_size
      * (Z.of_nat (length list_imgs)
         / effective_batch_size (Z.of_nat (length list_imgs)) batch_size).
Proof.
  intros Hfwd Hopen Hv Hsize Hne Hbs.
  assert (Hn : 1 <= Z.of_nat (length list_imgs)).
  { destruct list_imgs; [congruence | simpl; lia]. }
  pose proof (effective_batch_size_bounds _ _ Hn Hbs) as Hb.
  unfold predict_age_gender. rewrite Hv. simpl. rewrite Hsize. simpl.
  set (n := Z.of_nat (length list_imgs)) in *.
  set (b := effective_batch_size n batch_size) in *.
  unfold py_range. destruct (Z.eqb_spec b 0); [lia|].
  rewrite range_length_batches by lia. simpl bind.
  assert (Hq : 1 <= n / b).
  { apply Z.div_le_lower_bound; lia. }
  set (ks := map _ (seq 0 (Z.to_nat (n / b)))).
  assert (Hks : forall k, In k ks -> 0 <= k /\ k + b <= n).
  { intros k Hin. subst ks. apply in_map_iff in Hin as [i [<- Hi]].
    apply in_seq in Hi.
    assert (Z.of_nat i + 1 <= n / b) by lia.
    assert (b * (n / b) <= n) by (apply Z.mul_div_le; lia).
    nia. }
  destruct (for_each_total
              (predict_batch model img_size list_imgs return_pr F32.half b) ks)
    as [predictions Hp].
  { intros k Hin. destruct (Hks k Hin) as [H0 H1].
    destruct (predict_batch_full model img_size list_imgs return_pr b k)
      as [pred [Hpred _]]; try assumption; try lia.
    exists pred. exact Hpred. }
  rewrite Hp. simpl bind.
  assert (Hall : Forall (fun pred => length pred = Z.to_nat b) predictions).
  { eapply for_each_Forall; [exact Hp|]. intros k pred Hin Hk.
    destruct (Hks k Hin) as [H0 H1].
    destruct (predict_batch_full model img_size list_imgs return_pr b k)
      as [pred' [Hpred Hlen]]; try assumption; try lia.
    congruence. }
  assert (Hcount : length predictions = Z.to_nat (n / b)).
  { rewrite (for_each_length _ _ _ Hp). subst ks.
    rewrite length_map, length_seq. reflexivity. }
  assert (Hcat : torch_cat predictions = Ok (concat predictions)).
  { destruct predictions; [simpl in Hcount; lia | reflexivity]. }
  rewrite Hcat. simpl bind.
  eexists. split; [reflexivity|].
  unfold map_col1. rewrite length_map.
  pose proof (length_concat_const _ _ Hall) as Hc.
  unfold tensor2, row in *. rewrite Hcount in Hc. rewrite Hc.
  rewrite Nat2Z.inj_mul, !Z2Nat.id by lia. lia.
Qed.

(** X1: With fewer images than the requested batch size (and at least
    one), the effective batch size is the number of images and the call
    returns one row per image. *)
Lemma predict_small_input model model_dict list_imgs return_pr batch_size v img_size :
  (forall imgs, length (forward model imgs) = length imgs) ->
  (forall p, In p list_imgs -> exists im, image_open p = Ok im) ->
  dict_getitem model_dict "train_suffix" = Ok v ->
  py_int v = Ok img_size ->
  list_imgs <> [] ->
  Z.of_nat (length list_imgs) < batch_size ->
  effective_batch_size (Z.of_nat (length list_imgs)) batch_size
    = Z.of_nat (length list_imgs) /\
  exists res,
    predict_age_gender model model_dict list_imgs return_pr batch_size = Ok res /\
    length res = length list_imgs.
Proof.
  intros Hfwd Hopen Hv Hsize Hne Hlt.
  assert (Hn : 1 <= Z.of_nat (length list_imgs)).
  { destruct list_imgs; [congruence | simpl; lia]. }
  assert (Heff : effective_batch_size (Z.of_nat (length list_imgs)) batch_size
                 = Z.of_nat (length list_imgs)).
  { unfold effective_batch_size. destruct (Z.ltb_spec (Z.of_nat (length list_imgs)) batch_size); lia. }
  split; [exact Heff|].
  destruct (predict_row_count model model_dict list_imgs return_pr batch_size v img_size)
    as [res [Hres Hlen]]; try assumption; try lia.
  exists res. split; [exact Hres|].
  rewrite Heff, Z.div_same, Z.mul_1_r in Hlen by lia. lia.
Qed.

(** X2: With more images than the batch size and a number of images that
    is not a multiple of it, the call returns rows for the full batches
    only: the images after the last full batch are left out. *)
Lemma predict_drops_remainder model model_dict list_imgs return_pr batch_size v img_size :
  (forall imgs, length (forward model imgs) = length imgs) ->
  (forall p, In p list_imgs -> exists im, image_open p = Ok im) ->
  dict_getitem model_dict "train_suffix" = Ok v ->
  py_int v = Ok img_size ->
  1 <= batch_size ->
  Z.of_nat (length list_imgs) mod batch_size <> 0 ->
  batch_size < Z.of_nat (length list_imgs) ->
  exists res,
    predict_age_gender model model_dict list_imgs return_pr batch_size = Ok res /\
    Z.of_nat (length res) =
      Z.of_nat (length list_imgs) - Z.of_nat (length list_imgs) mod batch_size /\
    (length res < length list_imgs)%nat.
Proof.
  intros Hfwd Hopen Hv Hsize Hbs Hmod Hlt.
  assert (Hne : list_imgs <> []).
  { destruct list_imgs; [simpl in Hlt; lia | congruence]. }
  assert (Heff : effective_batch_size (Z.of_nat (length list_imgs)) batch_size
                 = batch_size).
  { unfold effective_batch_size. destruct (Z.ltb_spec (Z.of_nat (length list_imgs)) batch_size); lia. }
  destruct (predict_row_count model model_dict list_imgs return_pr batch_size v img_size)
    as [res [Hres Hlen]]; try assumption.
  exists res. split; [exact Hres|].
  rewrite Heff in Hlen.
  pose proof (Z.div_mod (Z.of_nat (length list_imgs)) batch_size ltac:(lia)) as Hdm.
  pose proof (Z.mod_pos_bound (Z.of_nat (length list_imgs)) batch_size ltac:(lia)).
  split; lia.
Qed.
End PredictShape.

(** ** The batch predictor: the claims *)

Section PredictClaims.
Context {I : Inference}.

(** C10: Called with an empty list of image paths, [predict_age_gender]
    never returns a result: whatever the network, the record and the
    requested batch size, the call raises.  For a requested batch size
    that is not negative, the effective batch size is zero and, once the
    record has given the image size, the exception is the one [range]
    raises for a zero stride. *)
Theorem predict_empty_raises model model_dict return_pr batch_size :
  (exists e, predict_age_gender model model_dict [] return_pr batch_size = Raise e) /\
  (0 <= batch_size ->
   effective_batch_size 0 batch_size = 0 /\
   forall v img_size,
     dict_getitem model_dict "train_suffix" = Ok v ->
     py_int v = Ok img_size ->
     predict_age_gender model model_dict [] return_pr batch_size
       = Raise (ValueError "range() arg 3 must not be zero")).
Proof.
  assert (Heff : 0 <= batch_size -> effective_batch_size 0 batch_size = 0).
  { intros H. unfold effective_batch_size. destruct (Z.ltb_spec 0 batch_size); lia. }
  split.
  - unfold predict_age_gender.
    destruct (dict_getitem model_dict "train_suffix") as [v|e]; simpl bind;
      [|eexists; reflexivity].
    destruct (py_int v) as [img_size|e]; simpl bind; [|eexists; reflexivity].
    change (Z.of_nat (length (@nil string))) with 0.
    destruct (Z_le_gt_dec 0 batch_size) as [Hb|Hb].
    + rewrite (Heff Hb). simpl. eexists; reflexivity.
    + assert (Hneg : effective_batch_size 0 batch_size = batch_size).
      { unfold effective_batch_size. destruct (Z.ltb_spec 0 batch_size); lia. }
      rewrite Hneg, py_range_backwards by lia. eexists; reflexivity.
  - intros Hb. split; [exact (Heff Hb)|].
    intros v img_size Hv Hsize. unfold predict_age_gender.
    rewrite Hv. simpl bind. rewrite Hsize. simpl bind.
    change (Z.of_nat (length (@nil string))) with 0.
    rewrite (Heff Hb). reflexivity.
Qed.

(** C5 (as amended): Every value in the age column of the tensor returned
    by [predict_age_gender] is [sqrt (x * x)] computed in float32 on the
    raw age [x] of a row the network answered; it is NaN exactly when [x]
    is NaN, and otherwise it is non-negative, also for a negative [x]. *)
Theorem predicted_age_nonneg_unless_nan model model_dict list_imgs return_pr batch_size res :
  predict_age_gender model model_dict list_imgs return_pr batch_size = Ok res ->
  Forall (fun r => exists logit age,
            raw_row model logit age /\
            snd r = force_positive age /\
            F32.is_nan (snd r) = F32.is_nan age /\
            (F32.is_nan age = false -> F32.leb F32.zero (snd r) = true)) res.
Proof.
  intros H. eapply Forall_impl; [|exact (predict_rows _ _ _ _ _ _ H)].
  intros r (logit & age & Hraw & ->). exists logit, age. simpl.
  repeat split; trivial.
  - apply force_positive_is_nan.
  - intros Hx. apply force_positive_nonneg, Hx.
Qed.

(** C6 (as amended): In the tensor returned by [predict_age_gender], every
    value in the gender column is the sigmoid of the raw logit of a row
    the network answered when [return_pr] is true, so it lies in [0, 1]
    for every logit that is not NaN, given that [torch.sigmoid] maps such
    a logit into [0, 1]; when [return_pr] is false it is 0.0 or 1.0, the
    sigmoid output compared with 0.5, for every logit. *)
Theorem predicted_gender_range model model_dict list_imgs return_pr batch_size res :
  (forall x, F32.is_nan x = false -> F32.in_unit (sigmoid x) = true) ->
  predict_age_gender model model_dict list_imgs return_pr batch_size = Ok res ->
  Forall (fun r => exists logit age,
            raw_row model logit age /\
            (return_pr = true ->
             fst r = sigmoid logit /\
             (F32.is_nan logit = false -> F32.in_unit (fst r) = true)) /\
            (return_pr = false ->
             fst r = F32.of_bool (F32.gtb (sigmoid logit) F32.half) /\
             (fst r = F32.zero \/ fst r = F32.one))) res.
Proof.
  intros Hsig H. eapply Forall_impl; [|exact (predict_rows _ _ _ _ _ _ H)].
  intros r (logit & age & Hraw & ->). exists logit, age. simpl.
  split; [exact Hraw|]. unfold gender_out. split; intros ->.
  - split; [reflexivity|]. apply Hsig.
  - split; [reflexivity|]. apply to_label_cases.
Qed.
End PredictClaims.

(** The stand-in network answers one row per image and opens every path. *)
Lemma constant_model_rows (net : row) (imgs : list string) :
  length (@forward Stub.constant_model net imgs) = length imgs.
Proof. simpl. apply length_map. Qed.

Lemma constant_model_opens (p : string) :
  exists im, @image_open Stub.constant_model p = Ok im.
Proof. exists p. reflexivity. Qed.

Lemma step_sigmoid_in_unit (x : F32.t) :
  F32.is_nan x = false -> F32.in_unit (Stub.step_sigmoid x) = true.
Proof.
  intros Hx. unfold Stub.step_sigmoid.
  destruct x as [s|s| |s m e]; try discriminate;
    try (destruct s; reflexivity).
Qed.

(** C1 (the code departs from it): five image paths and a batch size of
    two make [predict_age_gender] return four rows, not five; the fifth
    image is in no batch. *)
Theorem predict_five_images_batch_two :
  exists res,
    @predict_age_gender Stub.constant_model (Stub.minus_three, Stub.minus_three)
      Stub.record_400 ["1.jpg"; "2.jpg"; "3.jpg"; "4.jpg"; "5.jpg"] true 2 = Ok res /\
    length res = 4%nat.
Proof. eexists. split; [vm_compute; reflexivity | reflexivity]. Qed.

(** Three images and the default batch size of 32: three rows. *)
Lemma predict_three_images_default_batch :
  effective_batch_size 3 32 = 3 /\
  exists res,
    @predict_age_gender Stub.constant_model (Stub.minus_three, Stub.minus_three)
      Stub.record_400 ["1.jpg"; "2.jpg"; "3.jpg"] true 32 = Ok res /\
    length res = 3%nat.
Proof.
  apply (@predict_small_input Stub.constant_model
           (Stub.minus_three, Stub.minus_three) Stub.record_400
           ["1.jpg"; "2.jpg"; "3.jpg"] true 32 (PStr "400") 400).
  - apply constant_model_rows.
  - intros p _. apply constant_model_opens.
  - reflexivity.
  - reflexivity.
  - discriminate.
  - simpl. lia.
Defined.

Lemma predict_empty_raises_witness :
  @predict_age_gender Stub.constant_model (Stub.minus_three, Stub.minus_three)
    Stub.record_400 [] true 32
  = Raise (ValueError "range() arg 3 must not be zero").
Proof.
  refine (proj2 (proj2 (@predict_empty_raises Stub.constant_model
                          (Stub.minus_three, Stub.minus_three) Stub.record_400 true 32)
                       _) (PStr "400") 400 _ _).
  - lia.
  - reflexivity.
  - reflexivity.
Defined.

Lemma predicted_age_nonneg_unless_nan_witness :
  Forall (fun r => exists logit age,
            @raw_row Stub.constant_model (Stub.minus_three, Stub.minus_three) logit age /\
            snd r = force_positive age /\
            F32.is_nan (snd r) = F32.is_nan age /\
            (F32.is_nan age = false -> F32.leb F32.zero (snd r) = true))
         [(F32.zero, Stub.three); (F32.zero, Stub.three)].
Proof.
  apply (@predicted_age_nonneg_unless_nan Stub.constant_model
           (Stub.minus_three, Stub.minus_three) Stub.record_400
           ["1.jpg"; "2.jpg"] true 32).
  vm_compute. reflexivity.
Defined.

(** C5 (as stated) fails: a network whose raw age is NaN makes the age
    column hold NaN, which is not greater than or equal to zero. *)
Lemma predicted_age_nan_counterexample :
  exists res,
    @predict_age_gender Stub.constant_model (Stub.minus_three, F32.nan)
      Stub.record_400 ["1.jpg"] true 32 = Ok res /\
    ~ Forall (fun r => F32.leb F32.zero (snd r) = true) res.
Proof.
  eexists. split; [vm_compute; reflexivity|].
  intros H. inversion H as [|r l Hr Hl]; subst. discriminate Hr.
Qed.

Lemma predicted_gender_range_witness :
  Forall (fun r => exists logit age,
            @raw_row Stub.constant_model (Stub.three, Stub.minus_three) logit age /\
            (false = true ->
             fst r = Stub.step_sigmoid logit /\
             (F32.is_nan logit = false -> F32.in_unit (fst r) = true)) /\
            (false = false ->
             fst r = F32.of_bool (F32.gtb (Stub.step_sigmoid logit) F32.half) /\
             (fst r = F32.zero \/ fst r = F32.one)))
         [(F32.one, Stub.three)].
Proof.
  apply (@predicted_gender_range Stub.constant_model
           (Stub.three, Stub.minus_three) Stub.record_400 ["1.jpg"] false 32).
  - apply step_sigmoid_in_unit.
  - vm_compute. reflexivity.
Defined.

(** C6 (as stated) fails: a NaN logit has a NaN sigmoid, so with
    [return_pr] true the gender column holds a value outside [0, 1]. *)
Lemma predicted_gender_nan_counterexample :
  exists res,
    @predict_age_gender Stub.constant_model (F32.nan, Stub.three)
      Stub.record_400 ["1.jpg"] true 32 = Ok res /\
    ~ Forall (fun r => F32.in_unit (fst r) = true) res.
Proof.
  eexists. split; [vm_compute; reflexivity|].
  intros H. inversion H as [|r l Hr Hl]; subst. discriminate Hr.
Qed.

(** ** Records *)

Lemma dict_lookup_set_same (d : dict) (k : string) (v : pyval) :
  dict_lookup (dict_set d k v) k = Some v.
Proof.
  induction d as [|[k' v'] d IH]; simpl.
  - rewrite String.eqb_refl. reflexivity.
  - destruct (String.eqb k k') eqn:Hk; simpl; rewrite Hk; [reflexivity | exact IH].
Qed.

Lemma dict_lookup_set_other (d : dict) (k k' : string) (v : pyval) :
  k' <> k -> dict_lookup (dict_set d k v) k' = dict_lookup d k'.
Proof.
  intros Hne. induction d as [|[k0 v0] d IH]; simpl.
  - apply String.eqb_neq in Hne. rewrite Hne. reflexivity.
  - destruct (String.eqb k k0) eqn:Hk; simpl.
    + apply String.eqb_eq in Hk. subst k0.
      apply String.eqb_neq in Hne. rewrite Hne. reflexivity.
    + destruct (String.eqb k' k0); [reflexivity | exact IH].
Qed.

Lemma dict_get_absent (d : dict) (k : string) :
  dict_lookup d k = None -> dict_get d k = PNone.
Proof. unfold dict_get. intros ->. reflexivity. Qed.

Lemma dict_get_present (d : dict) (k : string) (v : pyval) :
  dict_lookup d k = Some v -> dict_get d k = v.
Proof. unfold dict_get. intros ->. reflexivity. Qed.

(** [d.update(other)] reads as [other] where [other] has the key (its
    last entry for it) and as [d] elsewhere. *)
Lemma dict_lookup_update (other d : dict) (k : string) :
  dict_lookup (dict_update d other) k =
  match dict_lookup (rev other) k with
  | Some v => Some v
  | None => dict_lookup d k
  end.
Proof.
  unfold dict_update. revert d.
  induction other as [|[k0 v0] other IH] using rev_ind; intros d; simpl.
  - reflexivity.
  - rewrite fold_left_app, rev_app_distr. simpl.
    destruct (String.eqb k k0) eqn:Hk.
    + apply String.eqb_eq in Hk. subst k0. apply dict_lookup_set_same.
    + rewrite dict_lookup_set_other by (apply String.eqb_neq; exact Hk).
      apply IH.
Qed.

Lemma dict_lookup_absent (l : dict) (k : string) :
  ~ In k (map fst l) -> dict_lookup l k = None.
Proof.
  induction l as [|[k' v] l IH]; simpl; intros H; [reflexivity|].
  destruct (String.eqb k k') eqn:Hk.
  - apply String.eqb_eq in Hk. subst. exfalso. apply H. left. reflexivity.
  - apply IH. intros Hin. apply H. right. exact Hin.
Qed.

Lemma dict_lookup_update_other (d u : dict) (k : string) :
  ~ In k (map fst u) -> dict_lookup (dict_update d u) k = dict_lookup d k.
Proof.
  intros Hk. rewrite dict_lookup_update, dict_lookup_absent; [reflexivity|].
  rewrite map_rev. intros Hin. apply Hk, in_rev, Hin.
Qed.

(** ** The end of an epoch *)

Section TrainFacts.
Context {T : Torch}.

Lemma with_metrics_carries d epoch train_loss val_mse_age train_cm val_cm :
  carries_metrics (with_metrics d epoch train_loss val_mse_age train_cm val_cm)
                  epoch train_loss val_mse_age train_cm val_cm.
Proof.
  unfold carries_metrics, with_metrics.
  repeat split;
    repeat (first [ apply dict_lookup_set_same
                  | rewrite dict_lookup_set_other by discriminate ]).
Qed.

Lemma with_metrics_elsewhere d epoch train_loss val_mse_age train_cm val_cm :
  same_elsewhere (with_metrics d epoch train_loss val_mse_age train_cm val_cm) d.
Proof.
  intros k Hk. unfold with_metrics, metric_keys in *. simpl in Hk.
  rewrite !dict_lookup_set_other; [reflexivity | | | | | |];
    intros ->; apply Hk; tauto.
Qed.

Lemma saved_checkpoints_app (t1 t2 : list event) :
  saved_checkpoints (t1 ++ t2) = saved_checkpoints t1 ++ saved_checkpoints t2.
Proof.
  induction t1 as [|ev t1 IH]; simpl; [reflexivity|].
  destruct ev; simpl; rewrite IH; reflexivity.
Qed.

Lemma backward_losses_app (t1 t2 : list event) :
  backward_losses (t1 ++ t2) = backward_losses t1 ++ backward_losses t2.
Proof.
  induction t1 as [|ev t1 IH]; simpl; [reflexivity|].
  destruct ev; simpl; rewrite IH; reflexivity.
Qed.

Lemma string_length_append (s1 s2 : string) :
  String.length (s1 ++ s2) = (String.length s1 + String.length s2)%nat.
Proof. induction s1 as [|c s1 IH]; simpl; [reflexivity | rewrite IH; reflexivity]. Qed.

Lemma periodic_name_differs (name_path : string) (epoch : Z) :
  checkpoint_name name_path false epoch <> name_path.
Proof.
  unfold checkpoint_name. simpl negb. cbv iota. intros H.
  apply (f_equal String.length) in H.
  rewrite string_length_append in H. simpl in H. lia.
Qed.

(** What the "Save the model" block does, once the remainder is defined. *)
Lemma save_checkpoint_runs a name_dict epoch is_better train_loss val_mse_age train_cm val_cm w :
  steps_save a <> 0 ->
  save_checkpoint a name_dict epoch is_better train_loss val_mse_age train_cm val_cm w =
  if save_due a epoch is_better then
    let d := with_metrics (w_dict w) epoch train_loss val_mse_age train_cm val_cm in
    (Ok tt,
     {| w_dict := if is_better then d else w_dict w;
        w_net := w_net w;
        w_trace := w_trace w ++
          [SaveModel (w_net w) (save_path a)
             (checkpoint_name (name_path_of (str_of_list (dict_values name_dict)))
                              is_better epoch) d] |})
  else (Ok tt, w).
Proof.
  intros Hs. unfold save_checkpoint, save_due, py_mod, lift, mbind.
  destruct (Z.eqb_spec (steps_save a) 0); [contradiction|].
  destruct ((epoch mod steps_save a =? steps_save a - 1) || is_better);
    [|reflexivity].
  destruct w as [d0 net tr]. destruct is_better; reflexivity.
Qed.
End TrainFacts.

(** ** The training loop: the claims *)

Section TrainClaims.
Context {T : Torch}.

(** The table selects a metric exactly for the recognized modes. *)
Lemma metric_of_mode_known mode train_loss val_mse_age train_cm val_cm :
  known_mode mode = true <->
  exists key minimized met,
    metric_of_mode mode train_loss val_mse_age train_cm val_cm
      = Some (key, minimized, met).
Proof.
  unfold known_mode, metric_of_mode. cbn [existsb].
  repeat match goal with
         | |- context [String.eqb mode ?m] => destruct (String.eqb mode m)
         end;
    cbn [orb]; split; intros H;
    try reflexivity; try discriminate;
    try (do 3 eexists; reflexivity);
    destruct H as (? & ? & ? & H); discriminate H.
Qed.





(** C4 (as amended): Called with an optimizer name outside sgd, adam,
    adamw or a scheduler mode outside the five recognized ones, [train]
    raises before any training batch is processed and without saving a
    checkpoint; by then it has created the log writer, merged the
    training parameters into the caller's record and built the data
    loaders. *)
Theorem train_rejects_unknown_names a w :
  known_optimizer (optimizer_name a) && known_mode (scheduler_mode a) = false ->
  exists w',
    train a w = (Raise (Exception "Optimizer not configured"), w') /\
    backward_losses (w_trace w') = backward_losses (w_trace w) /\
    saved_checkpoints (w_trace w') = saved_checkpoints (w_trace w) /\
    w_net w' = w_net w /\
    w_dict w' = dict_update (w_dict w) (dict_param a) /\
    w_trace w' =
      w_trace w ++
      [SummaryWriter
         (path_join (log_dir a)
            (name_model_of (str_of_dict (dict_update (w_dict w) (dict_param a)))));
       LoadData (data_path a) (if debug_mode a then 0 else num_workers a)
                (batch_size a) (use_cache a)].
Proof.
  intros Hbad.
  set (w1 := {| w_dict := dict_update (w_dict w) (dict_param a);
                w_net := w_net w;
                w_trace := (w_trace w ++
                  [SummaryWriter
                     (path_join (log_dir a)
                        (name_model_of
                           (str_of_dict (dict_update (w_dict w) (dict_param a)))))])
                  ++ [LoadData (data_path a) (if debug_mode a then 0 else num_workers a)
                               (batch_size a) (use_cache a)] |}).
  exists w1.
  assert (Hrun : train a w = (Raise (Exception "Optimizer not configured"), w1)).
  { unfold train, mbind, get_dict, emit, put_dict, get_net, ret, raise.
    cbn [w_dict w_net w_trace].
    destruct (load_data _ _ _ _) as [[loader_train loader_valid] loader_test].
    cbn [w_dict w_net w_trace].
    unfold known_optimizer, known_mode in Hbad. cbn [existsb] in Hbad.
    rewrite !orb_false_r in Hbad.
    destruct (String.eqb (optimizer_name a) "sgd");
      [|destruct (String.eqb (optimizer_name a) "adam");
        [|destruct (String.eqb (optimizer_name a) "adamw")]];
      cbn [orb andb] in Hbad; try reflexivity;
      cbn [existsb]; rewrite !orb_false_r;
      (destruct (String.eqb (scheduler_mode a) "min_loss");
        [discriminate|];
       destruct (String.eqb (scheduler_mode a) "min_mse");
        [discriminate|];
       destruct (String.eqb (scheduler_mode a) "max_acc");
        [discriminate|];
       destruct (String.eqb (scheduler_mode a) "max_val_acc");
        [discriminate|];
       destruct (String.eqb (scheduler_mode a) "max_val_mcc");
        [discriminate|]; reflexivity). }
  split; [exact Hrun|]. subst w1. cbn [w_dict w_net w_trace].
  rewrite !backward_losses_app, !saved_checkpoints_app. simpl.
  rewrite !app_nil_r, <- app_assoc. repeat split; reflexivity.
Qed.
End TrainClaims.


(** Numbers are compared by their values: 0.5 is at most the Python
    float 3.0 and not at least the Python float 0.75, and it is both at
    most and at least 0.5 written with another exponent. *)
Example compared_by_value :
  F32.leb F32.half Stub.three_py = true /\
  F32.geb F32.half Stub.three_quarters_py = false /\
  F32.leb F32.half (S754_finite false 1 (-1)) = true /\
  F32.geb F32.half (S754_finite false 1 (-1)) = true.
Proof. repeat split; vm_compute; reflexivity. Qed.

(** Without a stored value the first comparison is lost, whatever the
    metric. *)
Example first_comparison_is_not_better :
  (sel <- @select_metric Stub.frozen_trainer "max_val_acc"
            [("in_channels", PInt 3)] F32.one F32.half [] [(F32.one, F32.one)] ;;
   b <- py_bool (snd sel) ;; Ok (fst sel, b))
  = Ok (Some F32.one, false).
Proof. vm_compute. reflexivity. Qed.

(** A stored Python float is compared by its value: an accuracy of 0.5
    does not reach a stored 0.75. *)
Example accuracy_below_stored_best :
  (sel <- @select_metric Stub.frozen_trainer "max_acc"
            [("train_acc", PFloat64 Stub.three_quarters_py)] F32.one F32.half
            [(F32.one, F32.one); (F32.one, F32.zero)] [] ;;
   b <- py_bool (snd sel) ;; Ok (fst sel, b))
  = Ok (Some F32.half, false).
Proof. vm_compute. reflexivity. Qed.

(** The Python float 0.1 is below the float32 number nearest to 0.1, and
    still a metric of that value counts as reaching it: the stored operand
    is converted to float32 before the comparison. *)
Example stored_float_is_rounded :
  as_number (PFloat64 Stub.tenth_py) = Ok Stub.tenth /\
  (sel <- @select_metric Stub.frozen_trainer "min_loss"
            [("train_loss", PFloat64 Stub.tenth_py)] Stub.tenth F32.half [] [] ;;
   b <- py_bool (snd sel) ;; Ok (fst sel, b))
  = Ok (Some Stub.tenth, true).
Proof. split; vm_compute; reflexivity. Qed.

(** A stored list is compared element by element; the truth value of the
    array is taken by the save block. *)
Example stored_list_is_compared_elementwise :
  (sel <- @select_metric Stub.frozen_trainer "min_mse"
            [("val_mse_age", PList [PFloat64 Stub.three_py])] F32.one F32.half [] [] ;;
   b <- py_bool (snd sel) ;; Ok (fst sel, b))
  = Ok (Some F32.half, true) /\
  (sel <- @select_metric Stub.frozen_trainer "min_mse"
            [("val_mse_age", PList [PFloat64 Stub.three_py; PInt 0])]
            F32.one F32.half [] [] ;;
   Ok (fst sel))
  = Ok (Some F32.half).
Proof. split; vm_compute; reflexivity. Qed.



Lemma train_rejects_unknown_names_witness :
  exists w',
    @train Stub.frozen_trainer Stub.rmsprop_args
      (Stub.fresh_world [("in_channels", PInt 3)])
      = (Raise (Exception "Optimizer not configured"), w') /\
    backward_losses (w_trace w') = [] /\
    saved_checkpoints (w_trace w') = [] /\
    w_net w' = (Stub.minus_three, Stub.three) /\
    w_dict w' = dict_update [("in_channels", PInt 3)] (dict_param Stub.rmsprop_args) /\
    w_trace w' =
      [SummaryWriter "./logs_full/k=1"; LoadData "./data_full" 2 16 true].
Proof.
  refine (@train_rejects_unknown_names Stub.frozen_trainer Stub.rmsprop_args
            (Stub.fresh_world [("in_channels", PInt 3)]) _).
  reflexivity.
Defined.

(** C4 (as stated) fails: the call with the unknown optimizer name
    "rmsprop" raises, and by then the caller's record, which had one
    entry, has seven, and two calls have left the process (the log writer
    and the data source). *)
Lemma train_rejects_after_side_effects :
  fst (@train Stub.frozen_trainer Stub.rmsprop_args
         (Stub.fresh_world [("in_channels", PInt 3)]))
    = Raise (Exception "Optimizer not configured") /\
  w_dict (snd (@train Stub.frozen_trainer Stub.rmsprop_args
                 (Stub.fresh_world [("in_channels", PInt 3)])))
    <> w_dict (Stub.fresh_world [("in_channels", PInt 3)]) /\
  length (w_dict (snd (@train Stub.frozen_trainer Stub.rmsprop_args
                         (Stub.fresh_world [("in_channels", PInt 3)])))) = 7%nat /\
  length (w_trace (Stub.fresh_world [("in_channels", PInt 3)])) = 0%nat /\
  length (w_trace (snd (@train Stub.frozen_trainer Stub.rmsprop_args
                          (Stub.fresh_world [("in_channels", PInt 3)])))) = 2%nat.
Proof.
  split; [vm_compute; reflexivity|].
  split; [intros H; vm_compute in H; discriminate H|].
  repeat split; vm_compute; reflexivity.
Qed.

(** ** The evaluation loop: the claim *)

Lemma py_range_count (n : Z) :
  exists ks, py_range 0 n 1 = Ok ks /\ length ks = Z.to_nat n.
Proof.
  unfold py_range, range_length. simpl. eexists. split; [reflexivity|].
  rewrite length_map, length_seq.
  destruct (Z.ltb_spec 0 n).
  - rewrite Z.sub_0_r, Z.div_1_r. lia.
  - lia.
Qed.

Section TestClaims.
Context {T : Torch} {E : Evaluation}.

Lemma runs_ignore_index (model : TNet) (ks ks' : list Z) :
  length ks = length ks' ->
  forall st, fold_left (test_run model) ks st = fold_left (test_run model) ks' st.
Proof.
  revert ks'. induction ks as [|k ks IH]; intros [|k' ks'] Hlen st;
    try discriminate; simpl; [reflexivity|].
  injection Hlen as Hlen. rewrite (IH ks' Hlen). reflexivity.
Qed.

(** What the body of the loop over the checkpoint folders appends. *)
Lemma test_checkpoint_runs data_path n_runs batch_size num_workers save use_cache
    acc folder_path model d0 :
  load_model folder_path = Ok (model, d0) ->
  let st := runs_of model (load_data data_path num_workers batch_size use_cache) n_runs in
  exists files,
    test_checkpoint data_path n_runs batch_size num_workers save use_cache acc folder_path
    = Ok (fst acc ++ [{| b_dict := dict_update d0 (dict_result st);
                         b_train_cm := r_cm (s_train st);
                         b_val_cm := r_cm (s_val st);
                         b_test_cm := r_cm (s_test st) |}],
          files).
Proof.
  intros Hload st. unfold test_checkpoint. rewrite Hload. cbn [bind].
  destruct (py_range_count n_runs) as [ks [Hks Hlen]]. rewrite Hks. cbn [bind].
  assert (Hst : fold_left (test_run model) ks
                  {| s_loaders := load_data data_path num_workers batch_size use_cache;
                     s_train := no_runs; s_val := no_runs; s_test := no_runs |} = st).
  { apply runs_ignore_index. rewrite Hlen, length_map, length_seq. reflexivity. }
  rewrite Hst. eexists. reflexivity.
Qed.

Lemma loader_passes_length (loader : Loader) (n : nat) :
  length (loader_passes loader n) = n.
Proof.
  revert loader. induction n as [|n IH]; intros loader; simpl; [reflexivity|].
  destruct (loader_iter loader) as [batches loader']. simpl. rewrite IH. reflexivity.
Qed.

(** One pass over a split, from lists and a matrix already begun. *)
Lemma eval_pass_from (model : TNet) (batches : list batch) :
  forall (mse mae : list F32.t) (cm : CM),
    fold_left
      (fun acc (b : batch) =>
         let '(run_mse, run_mae, run_cm) := acc in
         let '(img, age, gender) := b in
         let pred := net_forward model false img in
         (run_mse ++ [mean_squared_error age (col1 pred)],
          run_mae ++ [mean_absolute_error age (col1 pred)],
          cm_add run_cm (predicted_gender pred) gender))
      batches (mse, mae, cm)
    = (mse ++ map (fun b : batch =>
                     let '(img, age, gender) := b in
                     mean_squared_error age (col1 (net_forward model false img)))
                  batches,
       mae ++ map (fun b : batch =>
                     let '(img, age, gender) := b in
                     mean_absolute_error age (col1 (net_forward model false img)))
                  batches,
       fold_left
         (fun cm (b : batch) =>
            let '(img, age, gender) := b in
            cm_add cm
              (map (fun logit => F32.of_bool (F32.gtb logit F32.zero))
                   (col0 (net_forward model false img)))
              gender)
         batches cm).
Proof.
  induction batches as [|[[img age] gender] batches IH]; intros mse mae cm; simpl.
  - rewrite !app_nil_r. reflexivity.
  - rewrite IH, <- !app_assoc. reflexivity.
Qed.

(** What one run adds to the lists of a split. *)
Lemma add_run_eval_pass (model : TNet) (split : string) (s : split_runs)
    (batches : list batch) :
  add_run s (eval_pass model split batches)
  = {| r_mse := r_mse s ++ [run_mse model batches];
       r_mae := r_mae s ++ [run_mae model batches];
       r_cm := r_cm s ++ [run_cm model split batches] |}.
Proof.
  unfold eval_pass. rewrite eval_pass_from. reflexivity.
Qed.

Lemma after_passes_cons model split s batches passes :
  after_passes model split
    {| r_mse := r_mse s ++ [run_mse model batches];
       r_mae := r_mae s ++ [run_mae model batches];
       r_cm := r_cm s ++ [run_cm model split batches] |} passes
  = after_passes model split s (batches :: passes).
Proof. unfold after_passes. simpl. rewrite <- !app_assoc. reflexivity. Qed.

(** The loop over the runs: each split goes through the passes of its
    own loader. *)
Lemma runs_fold (model : TNet) (ks : list Z) :
  forall st loader_train loader_valid loader_test,
    s_loaders st = (loader_train, loader_valid, loader_test) ->
    s_train (fold_left (test_run model) ks st)
      = after_passes model "train" (s_train st)
                     (loader_passes loader_train (length ks)) /\
    s_val (fold_left (test_run model) ks st)
      = after_passes model "val" (s_val st)
                     (loader_passes loader_valid (length ks)) /\
    s_test (fold_left (test_run model) ks st)
      = after_passes model "test" (s_test st)
                     (loader_passes loader_test (length ks)).
Proof.
  induction ks as [|k ks IH]; intros st lt lv ls Hst.
  - unfold after_passes. simpl. rewrite !app_nil_r.
    destruct (s_train st), (s_val st), (s_test st). repeat split.
  - cbn [fold_left length loader_passes].
    destruct (loader_iter lt) as [bt lt'] eqn:Et.
    destruct (loader_iter lv) as [bv lv'] eqn:Ev.
    destruct (loader_iter ls) as [bs ls'] eqn:Es.
    assert (Hrun : test_run model st k
                   = {| s_loaders := (lt', lv', ls');
                        s_train := add_run (s_train st) (eval_pass model "train" bt);
                        s_val := add_run (s_val st) (eval_pass model "val" bv);
                        s_test := add_run (s_test st) (eval_pass model "test" bs) |}).
    { unfold test_run. rewrite Hst, Et, Ev, Es. reflexivity. }
    rewrite !add_run_eval_pass in Hrun. rewrite Hrun.
    match goal with
    | |- context [fold_left _ ks ?st1] =>
        destruct (IH st1 lt' lv' ls' eq_refl) as (Ht & Hv & Hs)
    end.
    cbn [s_train s_val s_test] in Ht, Hv, Hs.
    rewrite after_passes_cons in Ht.
    rewrite after_passes_cons in Hv.
    rewrite after_passes_cons in Hs.
    repeat split; assumption.
Qed.

Lemma runs_of_passes (model : TNet) (loader_train loader_valid loader_test : Loader)
    (n_runs : Z) :
  let st := runs_of model (loader_train, loader_valid, loader_test) n_runs in
  let n := Z.to_nat n_runs in
  s_train st = after_passes model "train" no_runs (loader_passes loader_train n) /\
  s_val st = after_passes model "val" no_runs (loader_passes loader_valid n) /\
  s_test st = after_passes model "test" no_runs (loader_passes loader_test n).
Proof.
  intros st n. subst st. unfold runs_of.
  pose proof (runs_fold model (map Z.of_nat (seq 0 (Z.to_nat n_runs)))
                {| s_loaders := (loader_train, loader_valid, loader_test);
                   s_train := no_runs; s_val := no_runs; s_test := no_runs |}
                loader_train loader_valid loader_test eq_refl) as H.
  rewrite length_map, length_seq in H. exact H.
Qed.

Lemma checkpoint_aggregated data_path n_runs batch_size num_workers use_cache
    p model d0 :
  load_model p = Ok (model, d0) ->
  let st := runs_of model (load_data data_path num_workers batch_size use_cache) n_runs in
  bundle_aggregated data_path n_runs batch_size num_workers use_cache p
    {| b_dict := dict_update d0 (dict_result st);
       b_train_cm := r_cm (s_train st);
       b_val_cm := r_cm (s_val st);
       b_test_cm := r_cm (s_test st) |}.
Proof.
  intros Hp st. subst st.
  destruct (load_data data_path num_workers batch_size use_cache)
    as [[loader_train loader_valid] loader_test] eqn:El.
  destruct (runs_of_passes model loader_train loader_valid loader_test n_runs)
    as (Ht & Hv & Hs).
  exists model, d0, loader_train, loader_valid, loader_test.
  split; [exact Hp|]. split; [exact El|].
  cbn [b_dict b_train_cm b_val_cm b_test_cm].
  unfold split_aggregated, dict_result. rewrite Ht, Hv, Hs.
  unfold after_passes. cbn [r_mse r_mae r_cm no_runs app].
  repeat split;
    try (rewrite dict_lookup_update; reflexivity);
    try (rewrite length_map; apply loader_passes_length).
  intros k Hk. apply dict_lookup_update_other. exact Hk.
Qed.

(** C9: For every checkpoint folder, [test] takes each of MAE, MSE,
    accuracy and MCC for each of the train, validation and test splits as
    the mean over the [n_runs] runs of the value of the run, where the
    MAE and the MSE of a run are the means over the batches of the split
    of the errors of the age predictions, and the accuracy and the MCC
    are those of the confusion matrix of the run, built from the
    predictions [logit > 0] over the batches of the split; and the list
    [test] returns holds one bundle per checkpoint: the loaded record
    updated with these twelve means and otherwise as loaded, together
    with the confusion matrices of the runs, [n_runs] of them for each of
    the three splits. *)
Theorem test_aggregates data_path save_path n_runs batch_size num_workers
    debug_mode save use_cache :
  (forall p, In p (glob_all save_path) -> exists md, load_model p = Ok md) ->
  exists bundles files,
    test data_path save_path n_runs batch_size num_workers debug_mode save use_cache
      = Ok (bundles, files) /\
    Forall2
      (fun p b =>
         exists model d0 loader_train loader_valid loader_test,
           load_model p = Ok (model, d0) /\
           load_data data_path (if debug_mode then 0 else num_workers)
                     batch_size use_cache
             = (loader_train, loader_valid, loader_test) /\
           split_aggregated (b_dict b) (b_train_cm b) model "train"
                            (loader_passes loader_train (Z.to_nat n_runs)) /\
           split_aggregated (b_dict b) (b_val_cm b) model "val"
                            (loader_passes loader_valid (Z.to_nat n_runs)) /\
           split_aggregated (b_dict b) (b_test_cm b) model "test"
                            (loader_passes loader_test (Z.to_nat n_runs)) /\
           (length (b_train_cm b) = Z.to_nat n_runs /\
            length (b_val_cm b) = Z.to_nat n_runs /\
            length (b_test_cm b) = Z.to_nat n_runs) /\
           (forall k, ~ In k result_keys ->
                      dict_lookup (b_dict b) k = dict_lookup d0 k))
      (glob_all save_path) bundles.
Proof.
  unfold test. generalize (glob_all save_path) as paths.
  set (nw := if debug_mode then 0 else num_workers).
  change (forall paths,
             (forall p, In p paths -> exists md, load_model p = Ok md) ->
             exists bundles files,
               for_fold_result
                 (test_checkpoint data_path n_runs batch_size nw save use_cache)
                 paths ([], []) = Ok (bundles, files) /\
               Forall2 (bundle_aggregated data_path n_runs batch_size nw use_cache)
                       paths bundles).
  assert (Hgen : forall paths acc,
             (forall p, In p paths -> exists md, load_model p = Ok md) ->
             exists new files,
               for_fold_result
                 (test_checkpoint data_path n_runs batch_size nw save use_cache)
                 paths acc = Ok (fst acc ++ new, files) /\
               Forall2 (bundle_aggregated data_path n_runs batch_size nw use_cache)
                       paths new).
  { induction paths as [|p paths IH]; intros acc Hload.
    - exists [], (snd acc). simpl. rewrite app_nil_r.
      destruct acc; split; [reflexivity | constructor].
    - destruct (Hload p (or_introl eq_refl)) as [[model d0] Hp].
      destruct (test_checkpoint_runs data_path n_runs batch_size nw save use_cache
                  acc p model d0 Hp) as [files1 Hstep].
      cbv zeta in Hstep. cbn [for_fold_result]. rewrite Hstep. cbn [bind].
      match type of Hstep with
      | _ = Ok (?acc1, _) =>
          destruct (IH (acc1, files1)) as (new & files & Hrun & Hall)
      end.
      { intros q Hq. apply Hload. right. exact Hq. }
      cbn [fst] in Hrun. rewrite <- app_assoc in Hrun.
      eexists. exists files. split; [exact Hrun|].
      constructor; [|exact Hall].
      apply checkpoint_aggregated. exact Hp. }
  intros paths Hload.
  destruct (Hgen paths ([], []) Hload) as (new & files & Hrun & Hall).
  exists new, files. split; [exact Hrun | exact Hall].
Qed.
End TestClaims.

Lemma test_aggregates_witness :
  exists bundles files,
    @test Stub.frozen_trainer Stub.two_checkpoints "data" "saved" 2 8 0 false true false
      = Ok (bundles, files) /\
    Forall2
      (fun p b =>
         exists model d0 loader_train loader_valid loader_test,
           @load_model _ Stub.two_checkpoints p = Ok (model, d0) /\
           @load_data Stub.frozen_trainer "data" 0 8 false
             = (loader_train, loader_valid, loader_test) /\
           @split_aggregated _ Stub.two_checkpoints (b_dict b) (b_train_cm b) model "train"
                            (loader_passes loader_train 2) /\
           @split_aggregated _ Stub.two_checkpoints (b_dict b) (b_val_cm b) model "val"
                            (loader_passes loader_valid 2) /\
           @split_aggregated _ Stub.two_checkpoints (b_dict b) (b_test_cm b) model "test"
                            (loader_passes loader_test 2) /\
           (length (b_train_cm b) = 2%nat /\
            length (b_val_cm b) = 2%nat /\
            length (b_test_cm b) = 2%nat) /\
           (forall k, ~ In k result_keys ->
                      dict_lookup (b_dict b) k = dict_lookup d0 k))
      ["saved/a"; "saved/b"] bundles.
Proof.
  refine (@test_aggregates Stub.frozen_trainer Stub.two_checkpoints
            "data" "saved" 2 8 0 false true false _).
  intros p _. eexists. reflexivity.
Defined.

(** ** A record without a best value never gets one *)

Section SafeRules.
Context {T : Torch}.
Variable ok : event -> Prop.

Lemma safe_ret {A : Type} (R : A -> Prop) (x : A) : R x -> safe ok R (ret x).
Proof.
  intros HR w _ r w' H. injection H as <- <-.
  split; [reflexivity|]. split.
  - exists []. rewrite app_nil_r. split; [reflexivity | constructor].
  - intros y Hy. injection Hy as <-. exact HR.
Qed.

Lemma safe_lift {A : Type} (R : A -> Prop) (r : result A) :
  (forall x, r = Ok x -> R x) -> safe ok R (lift r).
Proof.
  intros HR w _ r' w' H. injection H as <- <-.
  split; [reflexivity|]. split; [|exact HR].
  exists []. rewrite app_nil_r. split; [reflexivity | constructor].
Qed.

Lemma safe_get_dict : safe ok no_best get_dict.
Proof.
  intros w Hw r w' H. injection H as <- <-.
  split; [reflexivity|]. split.
  - exists []. rewrite app_nil_r. split; [reflexivity | constructor].
  - intros d Hd. injection Hd as <-. exact Hw.
Qed.

Lemma safe_get_net : safe ok (fun _ => True) get_net.
Proof.
  intros w Hw r w' H. injection H as <- <-.
  split; [reflexivity|]. split; [|trivial].
  exists []. rewrite app_nil_r. split; [reflexivity | constructor].
Qed.

Lemma safe_put_net (n : TNet) : safe ok (fun _ => True) (put_net n).
Proof.
  intros w Hw r w' H. injection H as <- <-.
  split; [reflexivity|]. split; [|trivial].
  exists []. simpl. rewrite app_nil_r. split; [reflexivity | constructor].
Qed.

Lemma safe_emit (ev : event) : ok ev -> safe ok (fun _ => True) (emit ev).
Proof.
  intros Hev w Hw r w' H. injection H as <- <-.
  split; [reflexivity|]. split; [|trivial].
  exists [ev]. split; [reflexivity | repeat constructor; exact Hev].
Qed.

Lemma safe_bind {A B : Type} (R : A -> Prop) (R' : B -> Prop) (c : M A) (k : A -> M B) :
  safe ok R c -> (forall x, R x -> safe ok R' (k x)) -> safe ok R' (mbind c k).
Proof.
  intros Hc Hk w Hw r w' H. unfold mbind in H.
  destruct (c w) as [[x|e] w1] eqn:Hcw.
  - destruct (Hc w Hw _ _ Hcw) as (Hd & (t1 & Ht1 & Hok1) & HR).
    assert (Hw1 : no_best (w_dict w1)) by (rewrite Hd; exact Hw).
    destruct (Hk x (HR x eq_refl) w1 Hw1 _ _ H) as (Hd' & (t2 & Ht2 & Hok2) & HR').
    split; [congruence|]. split; [|exact HR'].
    exists (t1 ++ t2). split.
    + rewrite Ht2, Ht1, app_assoc. reflexivity.
    + apply Forall_app. split; assumption.
  - injection H as <- <-.
    destruct (Hc w Hw _ _ Hcw) as (Hd & Ht & _).
    split; [exact Hd|]. split; [exact Ht|]. intros y Hy. discriminate Hy.
Qed.

Lemma safe_for_fold {A B : Type} (f : B -> A -> M B) (l : list A) :
  (forall acc x, safe ok (fun _ => True) (f acc x)) ->
  forall acc, safe ok (fun _ => True) (for_fold f l acc).
Proof.
  intros Hf. induction l as [|x l IH]; intros acc; simpl.
  - apply safe_ret. trivial.
  - eapply safe_bind; [apply Hf|]. intros acc' _. apply IH.
Qed.

Lemma safe_raise {A : Type} (R : A -> Prop) (e : exn) : safe ok R (raise e).
Proof.
  intros w _ r w' H. injection H as <- <-.
  split; [reflexivity|]. split.
  - exists []. rewrite app_nil_r. split; [reflexivity | constructor].
  - intros y Hy. discriminate Hy.
Qed.

(** What a sequence does: its first part returns and the rest runs from
    there, or its first part raises. *)
Lemma mbind_run {A B : Type} (c : M A) (k : A -> M B) (w w' : world) (r : result B) :
  mbind c k w = (r, w') ->
  (exists x w1, c w = (Ok x, w1) /\ k x w1 = (r, w')) \/
  (exists e, c w = (Raise e, w') /\ r = Raise e).
Proof.
  unfold mbind. destruct (c w) as [[x|e] w1]; intros H.
  - left. exists x, w1. split; [reflexivity | exact H].
  - right. injection H as <- <-. exists e. split; reflexivity.
Qed.
End SafeRules.

(** One step of a proof that a computation is [safe]. *)
Ltac safe_step :=
  lazymatch goal with
  | |- safe _ _ (mbind _ _) => eapply safe_bind; [|intros ? ?; cbv beta in *]
  | |- safe _ _ (ret _) => first [exact (safe_ret _ (fun _ => True) _ I) | apply safe_ret; trivial]
  | |- safe _ _ get_dict => apply safe_get_dict
  | |- safe _ _ get_net => apply safe_get_net
  | |- safe _ _ (put_net _) => apply safe_put_net
  | |- safe _ _ (emit _) => apply safe_emit; simpl; trivial
  | |- safe _ _ (for_fold _ _ _) => apply safe_for_fold; intros ? ?
  | |- safe _ _ (raise _) => apply safe_raise
  | |- safe _ _ (lift _) => apply (safe_lift _ (fun _ => True)); trivial
  | |- safe _ _ (if ?c then _ else _) => destruct c
  end.

Section TrainInvariant.
Context {T : Torch}.
Variable ok : event -> Prop.

Lemma safe_train_batch a acc b :
  (forall loss_val, ok (Backward loss_val)) ->
  safe ok (fun _ => True) (train_batch a acc b).
Proof.
  intros Hok. destruct b as [[img age] gender]. unfold train_batch.
  safe_step; [safe_step|]. safe_step; [safe_step; apply Hok|].
  destruct (optimizer_update _ _ _ _) as [optimizer model'].
  safe_step; [safe_step|]. safe_step.
Qed.

Lemma safe_log_confussion_matrix cm global_step suffix :
  (forall tag value step, ok (AddScalar tag value step)) ->
  safe ok (fun _ => True) (log_confussion_matrix cm global_step suffix).
Proof.
  intros Hok. unfold log_confussion_matrix.
  repeat (safe_step; [safe_step; apply Hok|]).
  safe_step; [|safe_step].
  safe_step. safe_step; [safe_step; apply Hok|]. safe_step.
Qed.

(** Without a best value in the record no scheduler mode is better. *)
Lemma select_metric_fresh mode d train_loss val_mse_age train_cm val_cm sel :
  no_best d ->
  select_metric mode d train_loss val_mse_age train_cm val_cm = Ok sel ->
  snd sel = Truth false.
Proof.
  unfold no_best, best_keys. intros Hd.
  inversion Hd as [|? ? H1 Hd1]; subst. inversion Hd1 as [|? ? H2 Hd2]; subst.
  inversion Hd2 as [|? ? H3 Hd3]; subst. inversion Hd3 as [|? ? H4 Hd4]; subst.
  inversion Hd4 as [|? ? H5 _]; subst.
  unfold select_metric. rewrite H1, H2, H3, H4, H5.
  repeat match goal with
         | |- (if ?c then _ else _) = _ -> _ => destruct c
         end;
    intros H; injection H as <-; reflexivity.
Qed.

Lemma safe_save_periodic a name_dict epoch train_loss val_mse_age train_cm val_cm :
  (forall weights path d,
     ok (SaveModel weights path
           (checkpoint_name (name_path_of (str_of_list (dict_values name_dict)))
                            false epoch) d)) ->
  safe ok (fun _ => True)
       (save_checkpoint a name_dict epoch false train_loss val_mse_age train_cm val_cm).
Proof.
  intros Hok. unfold save_checkpoint.
  safe_step; [apply (safe_lift ok (fun _ => True)); trivial|].
  destruct (_ || _); [|safe_step].
  safe_step; [safe_step|]. safe_step; [cbv iota; safe_step|].
  safe_step; [safe_step|]. apply safe_emit, Hok.
Qed.

Lemma safe_save_block_periodic a name_dict epoch
    train_loss val_mse_age train_cm val_cm :
  (forall weights path d,
     ok (SaveModel weights path
           (checkpoint_name (name_path_of (str_of_list (dict_values name_dict)))
                            false epoch) d)) ->
  safe ok (fun _ => True)
       (save_model_block a name_dict epoch (Truth false)
                         train_loss val_mse_age train_cm val_cm).
Proof.
  intros Hok. unfold save_model_block.
  safe_step; [apply (safe_lift ok (fun _ => True)); trivial|].
  apply (safe_bind ok (fun b => b = false)).
  - apply safe_lift. intros b Hb. injection Hb as <-. reflexivity.
  - intros b ->. apply safe_save_periodic, Hok.
Qed.
End TrainInvariant.

Section FreshRecord.
Context {T : Torch}.

Lemma safe_train_epoch a name_dict st epoch :
  safe (not_saved_as (name_path_of (str_of_list (dict_values name_dict))))
       (fun _ => True) (train_epoch a name_dict st epoch).
Proof.
  unfold train_epoch.
  destruct (loader_iter (l_loader_train st)) as [batches loader_train].
  safe_step.
  { safe_step. apply safe_train_batch. intros; exact I. }
  safe_step; [safe_step|].
  destruct (loader_iter (l_loader_valid st)) as [vbatches loader_valid].
  destruct (fold_left _ vbatches _) as [val_cm val_mse_age].
  safe_step; [safe_step|].
  safe_step.
  { apply (safe_lift _ (fun sel => snd sel = Truth false)).
    intros sel Hsel. eapply select_metric_fresh; eassumption. }
  match goal with
  | sel : (option F32.t * truth)%type, Hsel : _ ?s |- _ =>
      constr_eq sel s;
      destruct sel as [met is_better]; cbv beta in Hsel; simpl in Hsel; subst is_better
  end.
  destruct (match met with Some _ => _ | None => _ end) as [scheduler optimizer].
  repeat (safe_step; [safe_step|]).
  safe_step; [apply safe_log_confussion_matrix; intros; exact I|].
  safe_step; [safe_step|].
  safe_step; [apply safe_log_confussion_matrix; intros; exact I|].
  safe_step; [safe_step|].
  safe_step; [|safe_step].
  apply safe_save_block_periodic. intros weights path d. simpl.
  apply periodic_name_differs.
Qed.

Lemma no_best_update (d : dict) (a : train_args) :
  no_best d -> no_best (dict_update d (dict_param a)).
Proof.
  unfold no_best, best_keys. intros H.
  repeat match goal with
         | H : Forall _ (_ :: _) |- _ => inversion H; subst; clear H
         end.
  repeat constructor; unfold dict_get in *; rewrite dict_lookup_update; simpl;
    assumption.
Qed.

(** After the set-up, the rest of [train] for loaders, a record for the
    names and a starting step. *)
Lemma safe_train_rest a name_dict (loaders : Loader * Loader * Loader) :
  safe (not_saved_as (name_path_of (str_of_list (dict_values name_dict))))
       (fun _ => True)
       (let '(loader_train, loader_valid, _) := loaders in
        mbind get_net (fun model =>
        mbind (if String.eqb (optimizer_name a) "sgd" then ret (new_sgd model (lr a))
               else if String.eqb (optimizer_name a) "adam"
                    then ret (new_adam model (lr a))
               else if String.eqb (optimizer_name a) "adamw"
                    then ret (new_adamw model (lr a))
               else raise (Exception "Optimizer not configured"))
          (fun optimizer =>
        mbind (if existsb (String.eqb (scheduler_mode a)) ["min_loss"; "min_mse"]
               then ret (new_scheduler optimizer "min" (scheduler_patience a))
               else if existsb (String.eqb (scheduler_mode a))
                               ["max_acc"; "max_val_acc"; "max_val_mcc"]
               then ret (new_scheduler optimizer "max" (scheduler_patience a))
               else raise (Exception "Optimizer not configured"))
          (fun scheduler =>
        mbind (lift (py_range 0 (n_epochs a) 1)) (fun epochs =>
        mbind (for_fold (train_epoch a name_dict) epochs
                 {| l_optimizer := optimizer; l_scheduler := scheduler;
                    l_loader_train := loader_train; l_loader_valid := loader_valid;
                    l_global_step := 0 |})
              (fun _ => ret tt)))))).
Proof.
  destruct loaders as [[loader_train loader_valid] loader_test].
  safe_step; [safe_step|].
  safe_step; [repeat safe_step|].
  safe_step; [repeat safe_step|].
  safe_step; [safe_step|].
  safe_step; [|safe_step].
  safe_step. apply safe_train_epoch.
Qed.

(** X3: Started on a record that stores no best value, [train] never finds an
    epoch better: when it stops, by returning or by raising, the caller's
    record is the starting record with the training parameters merged in
    and nothing else, and no checkpoint was saved under the canonical
    name. *)
Theorem fresh_record_never_improves a w r w' :
  no_best (w_dict w) ->
  train a w = (r, w') ->
  w_dict w' = dict_update (w_dict w) (dict_param a) /\
  exists t,
    w_trace w' = w_trace w ++ t /\
    Forall (not_saved_as
              (name_path_of
                 (str_of_list (dict_values (dict_update (w_dict w) (dict_param a))))))
           t.
Proof.
  intros Hw Hrun. unfold train in Hrun.
  apply mbind_run in Hrun as [(d & w1 & H1 & Hrun) | (e & H1 & _)];
    [|discriminate H1].
  injection H1 as <- <-.
  apply mbind_run in Hrun as [(u & w1 & H1 & Hrun) | (e & H1 & _)];
    [|discriminate H1].
  injection H1 as <- <-.
  apply mbind_run in Hrun as [(u & w1 & H1 & Hrun) | (e & H1 & _)];
    [|discriminate H1].
  injection H1 as <- <-.
  apply mbind_run in Hrun as [(u & w1 & H1 & Hrun) | (e & H1 & _)];
    [|discriminate H1].
  injection H1 as <- <-.
  cbn [w_dict w_net w_trace] in Hrun.
  match type of Hrun with
  | _ ?w1 = _ =>
      destruct (safe_train_rest a (dict_update (w_dict w) (dict_param a))
                  (load_data (data_path a) (if debug_mode a then 0 else num_workers a)
                             (batch_size a) (use_cache a))
                  w1 (no_best_update _ a Hw) r w' Hrun)
        as (Hd & (t & Ht & Hok) & _)
  end.
  cbn [w_dict w_net w_trace] in Hd, Ht.
  split; [exact Hd|].
  eexists. split.
  - rewrite Ht, <- !app_assoc. reflexivity.
  - repeat (apply Forall_cons; [exact I|]). exact Hok.
Qed.
End FreshRecord.

Lemma fresh_record_never_improves_witness :
  w_dict (snd (@train Stub.frozen_trainer Stub.script_args
                 (Stub.fresh_world [("in_channels", PInt 3)])))
    = dict_update [("in_channels", PInt 3)] (dict_param Stub.script_args) /\
  exists t,
    w_trace (snd (@train Stub.frozen_trainer Stub.script_args
                    (Stub.fresh_world [("in_channels", PInt 3)]))) = [] ++ t /\
    Forall (@not_saved_as Stub.frozen_trainer "3_adamw_1") t.
Proof.
  refine (@fresh_record_never_improves Stub.frozen_trainer Stub.script_args
            (Stub.fresh_world [("in_channels", PInt 3)])
            (fst (@train Stub.frozen_trainer Stub.script_args
                    (Stub.fresh_world [("in_channels", PInt 3)])))
            _ _ _).
  - repeat constructor.
  - apply surjective_pairing.
Defined.

Lemma predict_drops_remainder_witness :
  exists res,
    @predict_age_gender Stub.constant_model (Stub.minus_three, Stub.minus_three)
      Stub.record_400 ["1.jpg"; "2.jpg"; "3.jpg"; "4.jpg"; "5.jpg"] true 2 = Ok res /\
    Z.of_nat (length res) = 5 - 5 mod 2 /\
    (length res < 5)%nat.
Proof.
  apply (@predict_drops_remainder Stub.constant_model
           (Stub.minus_three, Stub.minus_three) Stub.record_400
           ["1.jpg"; "2.jpg"; "3.jpg"; "4.jpg"; "5.jpg"] true 2 (PStr "400") 400).
  - apply constant_model_rows.
  - intros p _. apply constant_model_opens.
  - reflexivity.
  - reflexivity.
  - lia.
  - simpl. discriminate.
  - simpl. lia.
Defined.

(** * Further properties of the driver *)

(** ** The batch predictor: errors, labels and the images left out *)

Lemma for_each_ext {A B : Type} (f g : A -> result B) (l : list A) :
  (forall a, In a l -> f a = g a) -> for_each f l = for_each g l.
Proof.
  induction l as [|a l IH]; intros H; simpl; [reflexivity|].
  rewrite (H a) by (left; reflexivity).
  rewrite IH by (intros; apply H; right; assumption). reflexivity.
Qed.

Lemma for_each_post {A B C : Type} (f : A -> result B) (g : B -> C) (l : list A) :
  for_each (fun a => b <- f a ;; Ok (g b)) l
  = (bs <- for_each f l ;; Ok (map g bs)).
Proof.
  induction l as [|a l IH]; simpl; [reflexivity|].
  destruct (f a) as [b|e]; simpl; [|reflexivity].
  rewrite IH. destruct (for_each f l); reflexivity.
Qed.

Lemma py_slice_app {A : Type} (l rest : list A) (k b : Z) :
  0 <= k -> 0 <= b -> k + b <= Z.of_nat (length l) ->
  py_slice (l ++ rest) k (k + b) = py_slice l k (k + b).
Proof.
  intros Hk Hb Hle. unfold py_slice, clamp_index.
  rewrite length_app, Nat2Z.inj_add.
  destruct (Z.ltb_spec k 0); [lia|].
  destruct (Z.ltb_spec (k + b) 0); [lia|].
  rewrite !Z.min_l by lia.
  rewrite skipn_app, firstn_app.
  replace (Z.to_nat k - length l)%nat with 0%nat by lia.
  rewrite length_skipn.
  replace (Z.to_nat (k + b - k) - (length l - Z.to_nat k))%nat with 0%nat by lia.
  simpl. apply app_nil_r.
Qed.

Section PredictMore.
Context {I : Inference}.

(** X4: A record without the key 'train_suffix' makes the call raise
    KeyError for that key, whatever the images and the batch size; for an
    empty list too, where it comes before the zero stride. *)
Theorem predict_missing_key model model_dict list_imgs return_pr batch_size :
  dict_lookup model_dict "train_suffix" = None ->
  predict_age_gender model model_dict list_imgs return_pr batch_size
  = Raise (KeyError "train_suffix").
Proof.
  intros H. unfold predict_age_gender, dict_getitem. rewrite H. reflexivity.
Qed.

Lemma predict_batch_labels model img_size list_imgs threshold batch_size k :
  predict_batch model img_size list_imgs false threshold batch_size k
  = (pred <- predict_batch model img_size list_imgs true threshold batch_size k ;;
     Ok (map_col0 (to_label threshold) pred)).
Proof.
  unfold predict_batch.
  destruct (for_each _ _) as [ts|e]; simpl; [|reflexivity].
  destruct (torch_stack ts); reflexivity.
Qed.

Lemma torch_cat_map_col0 (h : F32.t -> F32.t) (ps : list tensor2) :
  torch_cat (map (map_col0 h) ps) = (res <- torch_cat ps ;; Ok (map_col0 h res)).
Proof.
  destruct ps as [|p ps]; [reflexivity|].
  unfold torch_cat. cbn [map bind]. f_equal.
  unfold map_col0. rewrite concat_map. reflexivity.
Qed.

Lemma map_col_commute (h g : F32.t -> F32.t) (t : tensor2) :
  map_col1 g (map_col0 h t) = map_col0 h (map_col1 g t).
Proof. unfold map_col0, map_col1. rewrite !map_map. reflexivity. Qed.

(** X5: The call with [return_pr] false raises exactly when the call with
    [return_pr] true does, and otherwise returns the same tensor with
    each probability [p] of column 0 replaced by the label [p > 0.5]:
    the age column and the number of rows do not depend on [return_pr],
    and a probability of exactly 0.5 gets the label 0.0. *)
Theorem predict_labels_from_probabilities model model_dict list_imgs batch_size :
  predict_age_gender model model_dict list_imgs false batch_size
  = (res <- predict_age_gender model model_dict list_imgs true batch_size ;;
     Ok (map_col0 (fun p => F32.of_bool (F32.gtb p F32.half)) res)) /\
  F32.of_bool (F32.gtb F32.half F32.half) = F32.zero.
Proof.
  split; [|reflexivity].
  change (fun p => F32.of_bool (F32.gtb p F32.half)) with (to_label F32.half).
  unfold predict_age_gender.
  destruct (dict_getitem _ _) as [v|e]; cbn [bind]; [|reflexivity].
  destruct (py_int v) as [img_size|e]; cbn [bind]; [|reflexivity].
  destruct (py_range _ _ _) as [ks|e]; cbn [bind]; [|reflexivity].
  rewrite (for_each_ext _ _ ks
             (fun k _ => predict_batch_labels model img_size list_imgs F32.half _ k)).
  rewrite for_each_post.
  destruct (for_each _ ks) as [ps|e]; cbn [bind]; [|reflexivity].
  rewrite torch_cat_map_col0.
  destruct (torch_cat ps) as [res|e]; cbn [bind]; [|reflexivity].
  rewrite map_col_commute. reflexivity.
Qed.

(** X6: The predicted age of a raw age and of its negation are the same
    float32 value: the mapping keeps the magnitude and forgets the sign,
    also for zeros and infinities. *)
Theorem force_positive_opp (x : F32.t) :
  force_positive (SFopp x) = force_positive x.
Proof.
  unfold force_positive, F32.square, F32.mul. f_equal.
  destruct x as [s|s| |s m e]; simpl; try reflexivity; destruct s; reflexivity.
Qed.

(** X7: With a batch size of at least one, images appended after a list
    whose length is a positive multiple of the batch size, fewer than a
    batch of them, change nothing: the call returns or raises exactly as
    for the list without them, so these images are not opened and get no
    row. *)
Theorem predict_ignores_remainder model model_dict list_imgs rest return_pr batch_size :
  1 <= batch_size ->
  list_imgs <> [] ->
  Z.of_nat (length list_imgs) mod batch_size = 0 ->
  Z.of_nat (length rest) < batch_size ->
  predict_age_gender model model_dict (list_imgs ++ rest) return_pr batch_size
  = predict_age_gender model model_dict list_imgs return_pr batch_size.
Proof.
  intros Hbs Hne Hmod Hrest.
  set (n := Z.of_nat (length list_imgs)) in *.
  assert (Hn : 1 <= n) by (subst n; destruct list_imgs; [congruence | simpl; lia]).
  assert (Hq : n = batch_size * (n / batch_size))
    by (apply Z.div_exact; [lia | exact Hmod]).
  assert (Hq1 : 1 <= n / batch_size).
  { destruct (Z_le_gt_dec 1 (n / batch_size)) as [|Hlt]; [assumption|].
    assert (0 <= n / batch_size) by (apply Z.div_pos; lia). nia. }
  assert (Hge : batch_size <= n) by nia.
  unfold predict_age_gender.
  rewrite length_app, Nat2Z.inj_add. fold n.
  set (r := Z.of_nat (length rest)) in *.
  assert (Hr : 0 <= r) by (subst r; lia).
  assert (E1 : effective_batch_size (n + r) batch_size = batch_size).
  { unfold effective_batch_size. destruct (Z.ltb_spec (n + r) batch_size); lia. }
  assert (E2 : effective_batch_size n batch_size = batch_size).
  { unfold effective_batch_size. destruct (Z.ltb_spec n batch_size); lia. }
  rewrite E1, E2.
  destruct (dict_getitem _ _) as [v|e]; cbn [bind]; [|reflexivity].
  destruct (py_int v) as [img_size|e]; cbn [bind]; [|reflexivity].
  unfold py_range. destruct (Z.eqb_spec batch_size 0); [lia|].
  rewrite !range_length_batches by lia.
  assert (Hdiv : (n + r) / batch_size = n / batch_size).
  { rewrite Hq at 1. rewrite Z.mul_comm, Z.add_comm, Z.div_add by lia.
    rewrite Z.div_small by lia. lia. }
  rewrite Hdiv. cbn [bind].
  rewrite (for_each_ext
             (predict_batch model img_size (list_imgs ++ rest) return_pr F32.half batch_size)
             (predict_batch model img_size list_imgs return_pr F32.half batch_size));
    [reflexivity|].
  intros k Hin. apply in_map_iff in Hin as [i [<- Hi]]. apply in_seq in Hi.
  unfold predict_batch. rewrite py_slice_app; [reflexivity | lia | lia |].
  fold n. assert (Z.of_nat i + 1 <= n / batch_size) by lia. nia.
Qed.

(** X8: When the batch size is at least one and divides the number of
    images (at least one image, all readable, one row per image from the
    network, an image size in the record), the call returns exactly one
    row per image. *)
Theorem predict_exact_multiple model model_dict list_imgs return_pr batch_size v img_size :
  (forall imgs, length (forward model imgs) = length imgs) ->
  (forall p, In p list_imgs -> exists im, image_open p = Ok im) ->
  dict_getitem model_dict "train_suffix" = Ok v ->
  py_int v = Ok img_size ->
  list_imgs <> [] ->
  1 <= batch_size ->
  Z.of_nat (length list_imgs) mod batch_size = 0 ->
  exists res,
    predict_age_gender model model_dict list_imgs return_pr batch_size = Ok res /\
    length res = length list_imgs.
Proof.
  intros Hfwd Hopen Hv Hsize Hne Hbs Hmod.
  destruct (predict_row_count model model_dict list_imgs return_pr batch_size v img_size)
    as [res [Hres Hlen]]; try assumption.
  exists res. split; [exact Hres|].
  set (n := Z.of_nat (length list_imgs)) in *.
  assert (Hn : 1 <= n) by (subst n; destruct list_imgs; [congruence | simpl; lia]).
  unfold effective_batch_size in Hlen.
  destruct (Z.ltb_spec n batch_size) as [Hlt|Hge].
  - rewrite Z.div_same, Z.mul_1_r in Hlen by lia. lia.
  - rewrite <- Z.div_exact in Hmod by lia. lia.
Qed.
End PredictMore.

Lemma for_each_In_ok {A B : Type} (f : A -> result B) (l : list A) (bs : list B) (a : A) :
  for_each f l = Ok bs -> In a l -> exists b, f a = Ok b.
Proof.
  revert bs. induction l as [|x l IH]; simpl; intros bs H Hin; [contradiction|].
  destruct (f x) as [b|e] eqn:Hx; simpl in H; [|discriminate].
  destruct (for_each f l) as [bs'|e]; simpl in H; [|discriminate].
  destruct Hin as [->|Hin]; [exists b; exact Hx | eapply IH; [reflexivity | exact Hin]].
Qed.

(** An element among the first [q] full batches of size [b] lies in the
    slice of one of the batch starts 0, b, 2b, ... *)
Lemma in_some_batch {A : Type} (l : list A) (b q : Z) (p : A) :
  1 <= b -> 0 <= q -> b * q <= Z.of_nat (length l) ->
  In p (firstn (Z.to_nat (b * q)) l) ->
  exists i, (i < Z.to_nat q)%nat /\
            In p (py_slice l (Z.of_nat i * b) (Z.of_nat i * b + b)).
Proof.
  intros Hb Hq Hle Hin.
  apply (In_nth _ _ p) in Hin as (j & Hj & Hnth).
  rewrite length_firstn in Hj.
  rewrite nth_firstn in Hnth.
  destruct (Nat.ltb_spec j (Z.to_nat (b * q))) as [Hjq|]; [|lia].
  set (i := Z.of_nat j / b).
  assert (Hi0 : 0 <= i) by (apply Z.div_pos; lia).
  assert (Hdm : Z.of_nat j = b * i + Z.of_nat j mod b) by (apply Z.div_mod; lia).
  pose proof (Z.mod_pos_bound (Z.of_nat j) b ltac:(lia)) as Hmod.
  assert (Hiq : i < q).
  { apply Z.div_lt_upper_bound; lia. }
  exists (Z.to_nat i). split; [lia|].
  rewrite Z2Nat.id by lia.
  unfold py_slice, clamp_index.
  destruct (Z.ltb_spec (i * b) 0); [nia|].
  destruct (Z.ltb_spec (i * b + b) 0); [nia|].
  rewrite !Z.min_l by nia.
  replace (i * b + b - i * b) with b by lia.
  set (jm := Z.to_nat (Z.of_nat j mod b)).
  set (k := Z.to_nat (i * b)).
  assert (E : nth jm (firstn (Z.to_nat b) (skipn k l)) p = nth j l p).
  { rewrite nth_firstn.
    destruct (Nat.ltb_spec jm (Z.to_nat b)); [|subst jm; lia].
    rewrite nth_skipn. f_equal. subst jm k. nia. }
  rewrite <- Hnth at 1. rewrite <- E.
  apply nth_In. rewrite length_firstn, length_skipn. subst jm k. nia.
Qed.

Section PredictUnreadable.
Context {I : Inference}.

(** X9: An image that cannot be opened, anywhere among the images of the
    full batches, makes the whole call raise: no tensor with the rows of
    the other images comes back. *)
Theorem predict_unreadable_image_raises model model_dict list_imgs return_pr
    batch_size p e :
  1 <= batch_size ->
  In p (firstn
          (Z.to_nat
             (effective_batch_size (Z.of_nat (length list_imgs)) batch_size
              * (Z.of_nat (length list_imgs)
                 / effective_batch_size (Z.of_nat (length list_imgs)) batch_size)))
          list_imgs) ->
  image_open p = Raise e ->
  forall res,
    predict_age_gender model model_dict list_imgs return_pr batch_size <> Ok res.
Proof.
  intros Hbs Hin Hopen res Hres.
  set (n := Z.of_nat (length list_imgs)) in *.
  assert (Hn : 1 <= n).
  { subst n. destruct list_imgs; [rewrite firstn_nil in Hin; contradiction | simpl; lia]. }
  pose proof (effective_batch_size_bounds _ _ Hn Hbs) as Hb.
  set (b := effective_batch_size n batch_size) in *.
  unfold predict_age_gender in Hres. fold n in Hres. fold b in Hres.
  destruct (dict_getitem _ _) as [v|e']; cbn [bind] in Hres; [|discriminate].
  destruct (py_int v) as [img_size|e']; cbn [bind] in Hres; [|discriminate].
  unfold py_range in Hres. destruct (Z.eqb_spec b 0); [lia|].
  rewrite range_length_batches in Hres by lia. cbn [bind] in Hres.
  destruct (for_each _ _) as [ps|e'] eqn:Hps; cbn [bind] in Hres; [|discriminate].
  assert (Hq : 0 <= n / b) by (apply Z.div_pos; lia).
  destruct (in_some_batch list_imgs b (n / b) p) as (i & Hi & Hslice);
    [lia | lia | apply Z.mul_div_le; lia | exact Hin |].
  destruct (for_each_In_ok _ _ _ (0 + Z.of_nat i * b) Hps) as [pred Hpred].
  { apply in_map_iff. exists i. split; [reflexivity|]. apply in_seq. lia. }
  unfold predict_batch in Hpred. simpl (0 + _) in Hpred.
  destruct (for_each _ (py_slice _ _ _)) as [ts|e'] eqn:Hts;
    cbn [bind] in Hpred; [|discriminate].
  destruct (for_each_In_ok _ _ _ p Hts Hslice) as [t Ht].
  rewrite Hopen in Ht. discriminate Ht.
Qed.
End PredictUnreadable.

(** ** Names of runs and checkpoints *)

Lemma str_of_int_inj (a b : Z) : str_of_int a = str_of_int b -> a = b.
Proof.
  unfold str_of_int. intros H.
  assert (Hnn : forall z, Z.to_int z <> Decimal.Pos Decimal.Nil /\
                          Z.to_int z <> Decimal.Neg Decimal.Nil).
  { intros [|p|p]; simpl; split; try discriminate;
      intros Hp; injection Hp as Hp;
      exact (DecimalPos.Unsigned.to_uint_nonnil p Hp). }
  apply (f_equal NilZero.int_of_string) in H.
  rewrite !NilZero.isi in H by apply Hnn.
  injection H as H. apply DecimalZ.to_int_inj, H.
Qed.

Lemma string_append_inj (s t1 t2 : string) :
  (s ++ t1)%string = (s ++ t2)%string -> t1 = t2.
Proof.
  induction s as [|c s IH]; simpl; intros H; [exact H|].
  injection H as H. apply IH, H.
Qed.

(** X10: Periodic checkpoints of different epochs of one run go under
    different names, so a periodic save never overwrites the periodic
    save of another epoch. *)
Theorem periodic_names_distinct (name_path : string) (epoch1 epoch2 : Z) :
  epoch1 <> epoch2 ->
  checkpoint_name name_path false epoch1 <> checkpoint_name name_path false epoch2.
Proof.
  unfold checkpoint_name. cbn [negb]. intros Hne H.
  apply string_append_inj, string_append_inj in H.
  apply str_of_int_inj in H. lia.
Qed.

Lemma occurs_append (c : ascii) (s1 s2 : string) :
  occurs c (s1 ++ s2) = occurs c s1 || occurs c s2.
Proof.
  induction s1 as [|a s1 IH]; simpl; [reflexivity|].
  rewrite IH, orb_assoc. reflexivity.
Qed.

Lemma replace_char_removes (c : ascii) (r s : string) :
  occurs c r = false -> occurs c (replace_char c r s) = false.
Proof.
  intros Hr. induction s as [|a s IH]; simpl; [reflexivity|].
  destruct (Ascii.eqb a c) eqn:Ha.
  - rewrite occurs_append, Hr, IH. reflexivity.
  - simpl. rewrite Ha, IH. reflexivity.
Qed.

Lemma replace_char_keeps_out (x c : ascii) (r s : string) :
  occurs x r = false -> occurs x s = false ->
  occurs x (replace_char c r s) = false.
Proof.
  intros Hr. induction s as [|a s IH]; simpl; intros Hs; [reflexivity|].
  apply orb_false_iff in Hs as [Ha Hs].
  destruct (Ascii.eqb a c).
  - rewrite occurs_append, Hr, IH by exact Hs. reflexivity.
  - simpl. rewrite Ha, IH by exact Hs. reflexivity.
Qed.

(** X11: Whatever the text of the naming record, the canonical checkpoint
    name holds no comma, no single quote and no blank, and the run name
    holds none of these and no colon either. *)
Theorem names_are_sanitized (text : string) :
  (occurs "," (name_path_of text) = false /\
   occurs "'" (name_path_of text) = false /\
   occurs " " (name_path_of text) = false) /\
  (occurs "," (name_model_of text) = false /\
   occurs "'" (name_model_of text) = false /\
   occurs " " (name_model_of text) = false /\
   occurs ":" (name_model_of text) = false).
Proof.
  unfold name_path_of, name_model_of.
  repeat split;
    repeat first [ apply replace_char_removes; reflexivity
                 | apply replace_char_keeps_out; [reflexivity|] ].
Qed.

(** The run name keeps a slash for every comma: the log directory of a
    run is nested once per entry of the naming record. *)
Example name_model_nests :
  name_model_of "{'in_channels': 3, 'train_lr': 0.01}" = "in_channels=3/train_lr=0.01".
Proof. reflexivity. Qed.

Section EpochMore.
Context {T : Torch}.

(** X12: The keys a checkpoint save writes are the keys the next
    comparison reads, for every scheduler mode: after an improving save
    with the metrics of one epoch, the record holds that epoch's selected
    metric under the key of the mode, and a later epoch is better exactly
    when its metric compares (<= for a minimized, >= for a maximized
    mode) with that stored value. *)
Theorem improving_save_sets_best mode d epoch
    train_loss val_mse_age train_cm val_cm
    train_loss' val_mse_age' train_cm' val_cm' key minimized met met' :
  metric_of_mode mode train_loss val_mse_age train_cm val_cm
    = Some (key, minimized, met) ->
  metric_of_mode mode train_loss' val_mse_age' train_cm' val_cm'
    = Some (key, minimized, met') ->
  dict_get (with_metrics d epoch train_loss val_mse_age train_cm val_cm) key
    = PFloat met /\
  select_metric mode (with_metrics d epoch train_loss val_mse_age train_cm val_cm)
                train_loss' val_mse_age' train_cm' val_cm'
    = Ok (Some met',
          Truth (if minimized then F32.leb met' met else F32.geb met' met)).
Proof.
  intros H H'.
  destruct (with_metrics_carries d epoch train_loss val_mse_age train_cm val_cm)
    as (_ & H1 & H2 & H3 & H4 & H5).
  unfold metric_of_mode in H, H'. unfold select_metric, dict_get.
  repeat match type of H with
         | (if String.eqb mode ?m then _ else _) = _ =>
             destruct (String.eqb mode m)
         end;
    try discriminate; injection H as <- <- <-; injection H' as <-;
    rewrite ?H1, ?H2, ?H3, ?H4, ?H5; split; reflexivity.
Qed.

Lemma log_classes_run suffix global_step accs :
  forall idx w,
    for_fold
      (fun idx k =>
         mbind (emit (AddScalar ("acc_class_" ++ str_of_int idx ++ "_" ++ suffix)%string
                                k global_step))
               (fun _ => ret (idx + 1)))
      accs idx w
    = (Ok (idx + Z.of_nat (length accs)),
       {| w_dict := w_dict w; w_net := w_net w;
          w_trace := w_trace w ++ class_scalars suffix global_step idx accs |}).
Proof.
  induction accs as [|k accs IH]; intros idx w; cbn [for_fold class_scalars length].
  - unfold ret. rewrite app_nil_r, Z.add_0_r. destruct w; reflexivity.
  - unfold mbind at 1. unfold mbind at 1. unfold emit, ret.
    rewrite IH. cbn [w_dict w_net w_trace]. rewrite <- app_assoc.
    f_equal. f_equal. lia.
Qed.

(** X13: [log_confussion_matrix] never raises and touches neither the
    record nor the network; it writes the global accuracy, the average
    accuracy and the Matthews correlation and then one accuracy per
    class, tagged with the class index from 0 on, all at the same step:
    three scalars plus one per class. *)
Theorem log_confussion_matrix_scalars confussion_matrix global_step suffix w :
  log_confussion_matrix confussion_matrix global_step suffix w
  = (Ok tt,
     {| w_dict := w_dict w; w_net := w_net w;
        w_trace :=
          w_trace w ++
          [AddScalar ("acc_global_" ++ suffix)%string
                     (global_accuracy confussion_matrix) global_step;
           AddScalar ("acc_avg_" ++ suffix)%string
                     (average_accuracy confussion_matrix) global_step;
           AddScalar ("mcc_" ++ suffix)%string
                     (matthews_corrcoef confussion_matrix) global_step]
          ++ class_scalars suffix global_step 0 (class_accuracy confussion_matrix) |}) /\
  length (class_scalars suffix global_step 0 (class_accuracy confussion_matrix))
    = length (class_accuracy confussion_matrix).
Proof.
  split.
  - unfold log_confussion_matrix.
    unfold mbind at 1. unfold emit at 1.
    unfold mbind at 1. unfold emit at 1.
    unfold mbind at 1. unfold emit at 1.
    unfold mbind at 1. rewrite log_classes_run. unfold ret.
    cbn [w_dict w_net w_trace]. rewrite <- !app_assoc. reflexivity.
  - generalize 0. induction (class_accuracy confussion_matrix) as [|k l IH];
      intros idx; simpl; [reflexivity | rewrite IH; reflexivity].
Qed.
End EpochMore.

(** ** Whole runs of [train]: what changes and what is called *)

Lemma py_range_unit (n : Z) : py_range 0 n 1 = Ok (epochs_of n).
Proof.
  unfold py_range, range_length, epochs_of. cbn [Z.eqb Z.ltb Z.compare].
  f_equal.
  replace (Z.to_nat (if 0 <? n then (n - 0 - 1) / 1 + 1 else 0)) with (Z.to_nat n).
  - apply map_ext. intros i. lia.
  - destruct (Z.ltb_spec 0 n); [rewrite Z.div_1_r|]; lia.
Qed.

Lemma epochs_of_bounds (n e : Z) : In e (epochs_of n) -> 0 <= e < n.
Proof.
  unfold epochs_of. intros H. apply in_map_iff in H as [i [<- Hi]].
  apply in_seq in Hi. lia.
Qed.

Section FramedRules.
Context {T : Torch}.
Variable D : dict -> dict -> Prop.
Variable ok : event -> Prop.
Hypothesis D_refl : forall d, D d d.
Hypothesis D_trans : forall d1 d2 d3, D d1 d2 -> D d2 d3 -> D d1 d3.

Lemma framed_still {A : Type} (c : M A) :
  (forall w, exists r, c w = (r, w)) -> framed D ok c.
Proof.
  intros Hc w r w' H. destruct (Hc w) as [r0 H0]. rewrite H0 in H.
  injection H as <- <-. split; [apply D_refl|].
  exists []. rewrite app_nil_r. split; [reflexivity | constructor].
Qed.

Lemma framed_ret {A : Type} (x : A) : framed D ok (ret x).
Proof. apply framed_still. intros w. eexists. reflexivity. Qed.

Lemma framed_raise {A : Type} (e : exn) : framed D ok (@raise T A e).
Proof. apply framed_still. intros w. eexists. reflexivity. Qed.

Lemma framed_lift {A : Type} (r : result A) : framed D ok (lift r).
Proof. apply framed_still. intros w. eexists. reflexivity. Qed.

Lemma framed_get_dict : framed D ok get_dict.
Proof. apply framed_still. intros w. eexists. reflexivity. Qed.

Lemma framed_get_net : framed D ok get_net.
Proof. apply framed_still. intros w. eexists. reflexivity. Qed.

Lemma framed_put_net (n : TNet) : framed D ok (put_net n).
Proof.
  intros w r w' H. injection H as <- <-. split; [apply D_refl|].
  exists []. simpl. rewrite app_nil_r. split; [reflexivity | constructor].
Qed.

Lemma framed_emit (ev : event) : ok ev -> framed D ok (emit ev).
Proof.
  intros Hev w r w' H. injection H as <- <-. split; [apply D_refl|].
  exists [ev]. split; [reflexivity | repeat constructor; exact Hev].
Qed.

Lemma framed_bind {A B : Type} (c : M A) (k : A -> M B) :
  framed D ok c -> (forall x, framed D ok (k x)) -> framed D ok (mbind c k).
Proof.
  intros Hc Hk w r w' H.
  apply mbind_run in H as [(x & w1 & H1 & H2) | (e & H1 & _)].
  - destruct (Hc _ _ _ H1) as (Hd1 & t1 & Ht1 & Hok1).
    destruct (Hk x _ _ _ H2) as (Hd2 & t2 & Ht2 & Hok2).
    split; [eapply D_trans; eassumption|].
    exists (t1 ++ t2). split.
    + rewrite Ht2, Ht1, app_assoc. reflexivity.
    + apply Forall_app. split; assumption.
  - exact (Hc _ _ _ H1).
Qed.

Lemma framed_bind_value {A B : Type} (x : A) (k : A -> M B) :
  framed D ok (k x) -> framed D ok (mbind (lift (Ok x)) k).
Proof. intros H w r w' Hr. exact (H w r w' Hr). Qed.

Lemma framed_for_fold {A B : Type} (f : B -> A -> M B) (l : list A) :
  (forall acc x, In x l -> framed D ok (f acc x)) ->
  forall acc, framed D ok (for_fold f l acc).
Proof.
  induction l as [|x l IH]; intros Hf acc; cbn [for_fold].
  - apply framed_ret.
  - apply framed_bind; [apply Hf; left; reflexivity|].
    intros acc'. apply IH. intros acc0 y Hy. apply Hf. right. exact Hy.
Qed.
End FramedRules.

(** One step of a proof that a computation is [framed]. *)
Ltac framed_step :=
  lazymatch goal with
  | |- framed _ _ (mbind _ _) => apply framed_bind; try assumption; [|intros ?]
  | |- framed _ _ (ret _) => apply framed_ret; assumption
  | |- framed _ _ (raise _) => apply framed_raise; assumption
  | |- framed _ _ (lift _) => apply framed_lift; assumption
  | |- framed _ _ get_dict => apply framed_get_dict; assumption
  | |- framed _ _ get_net => apply framed_get_net; assumption
  | |- framed _ _ (put_net _) => apply framed_put_net; assumption
  | |- framed _ _ (emit _) => apply framed_emit; try assumption
  | |- framed _ _ (if ?c then _ else _) => destruct c
  end.

Section FramedTrain.
Context {T : Torch}.
Variable D : dict -> dict -> Prop.
Variable ok : event -> Prop.
Hypothesis D_refl : forall d, D d d.
Hypothesis D_trans : forall d1 d2 d3, D d1 d2 -> D d2 d3 -> D d1 d3.
Hypothesis ok_backward : forall loss_val, ok (Backward loss_val).
Hypothesis ok_scalar : forall tag value step, ok (AddScalar tag value step).

Lemma framed_train_batch a acc b : framed D ok (train_batch a acc b).
Proof.
  destruct b as [[img age] gender]. unfold train_batch.
  framed_step; [framed_step|]. framed_step; [framed_step; apply ok_backward|].
  destruct (optimizer_update _ _ _ _) as [optimizer model'].
  framed_step; framed_step.
Qed.

Lemma framed_log_confussion_matrix cm global_step suffix :
  framed D ok (log_confussion_matrix cm global_step suffix).
Proof.
  unfold log_confussion_matrix.
  do 3 (framed_step; [framed_step; apply ok_scalar|]).
  framed_step; [|framed_step].
  apply framed_for_fold; try assumption. intros idx k _.
  framed_step; [framed_step; apply ok_scalar | framed_step].
Qed.

Lemma framed_train_epoch a name_dict st epoch :
  (forall is_better train_loss val_mse_age train_cm val_cm,
     framed D ok (save_checkpoint a name_dict epoch is_better
                                  train_loss val_mse_age train_cm val_cm)) ->
  framed D ok (train_epoch a name_dict st epoch).
Proof.
  intros Hsave. unfold train_epoch.
  destruct (loader_iter (l_loader_train st)) as [batches loader_train].
  framed_step.
  { apply framed_for_fold; try assumption. intros acc b _. apply framed_train_batch. }
  framed_step; [framed_step|].
  destruct (loader_iter (l_loader_valid st)) as [vbatches loader_valid].
  destruct (fold_left _ vbatches _) as [val_cm val_mse_age].
  framed_step; [framed_step|].
  framed_step; [framed_step|].
  match goal with sel : (option F32.t * truth)%type |- _ => destruct sel as [met is_better] end.
  destruct (match met with Some _ => _ | None => _ end) as [scheduler optimizer].
  do 3 (framed_step; [framed_step; apply ok_scalar|]).
  framed_step; [apply framed_log_confussion_matrix|].
  framed_step; [framed_step; apply ok_scalar|].
  framed_step; [apply framed_log_confussion_matrix|].
  framed_step; [framed_step; apply ok_scalar|].
  framed_step; [|framed_step].
  unfold save_model_block.
  framed_step; [framed_step|]. framed_step; [framed_step|]. apply Hsave.
Qed.

(** The run of [train] after the set-up, in a world [w1]. *)
Lemma framed_train a w r w' :
  (forall logdir, ok (SummaryWriter logdir)) ->
  (forall data_path num_workers batch_size use_cache,
     ok (LoadData data_path num_workers batch_size use_cache)) ->
  (forall st epoch, 0 <= epoch < n_epochs a ->
     framed D ok (train_epoch a (dict_update (w_dict w) (dict_param a)) st epoch)) ->
  train a w = (r, w') ->
  D (dict_update (w_dict w) (dict_param a)) (w_dict w') /\
  exists t, w_trace w' = w_trace w ++ t /\ Forall ok t.
Proof.
  intros Hsw Hld Hepoch Hrun. unfold train in Hrun.
  apply mbind_run in Hrun as [(d & w1 & H1 & Hrun) | (e & H1 & _)];
    [|discriminate H1].
  injection H1 as <- <-.
  apply mbind_run in Hrun as [(u & w1 & H1 & Hrun) | (e & H1 & _)];
    [|discriminate H1].
  injection H1 as <- <-.
  apply mbind_run in Hrun as [(u & w1 & H1 & Hrun) | (e & H1 & _)];
    [|discriminate H1].
  injection H1 as <- <-.
  apply mbind_run in Hrun as [(u & w1 & H1 & Hrun) | (e & H1 & _)];
    [|discriminate H1].
  injection H1 as <- <-.
  cbn [w_dict w_net w_trace] in Hrun.
  rewrite py_range_unit in Hrun.
  match type of Hrun with
  | ?c ?w1 = _ => assert (Hfr : framed D ok c)
  end.
  { destruct (load_data _ _ _ _) as [[loader_train loader_valid] loader_test].
    framed_step; [framed_step|].
    framed_step; [repeat framed_step|].
    framed_step; [repeat framed_step|].
    apply framed_bind_value.
    framed_step; [|framed_step].
    apply framed_for_fold; try assumption.
    intros st epoch Hin. apply Hepoch, epochs_of_bounds, Hin. }
  destruct (Hfr _ _ _ Hrun) as (Hd & t & Ht & Hok).
  cbn [w_dict w_net w_trace] in Hd, Ht.
  split; [exact Hd|].
  eexists. split.
  - rewrite Ht, <- !app_assoc. reflexivity.
  - repeat (apply Forall_cons; [first [apply Hsw | apply Hld]|]). exact Hok.
Qed.
End FramedTrain.

Section TrainFrame.
Context {T : Torch}.

Lemma save_checkpoint_zero_steps a name_dict epoch is_better
    train_loss val_mse_age train_cm val_cm w :
  steps_save a = 0 ->
  save_checkpoint a name_dict epoch is_better train_loss val_mse_age train_cm val_cm w
  = (Raise ZeroDivisionError, w).
Proof.
  intros H. unfold save_checkpoint, py_mod, lift, mbind. rewrite H. reflexivity.
Qed.

Lemma same_elsewhere_trans (d1 d2 d3 : dict) :
  same_elsewhere d2 d1 -> same_elsewhere d3 d2 -> same_elsewhere d3 d1.
Proof. intros H12 H23 k Hk. rewrite H23, H12 by exact Hk. reflexivity. Qed.

Lemma framed_save_well_formed a name_dict n epoch is_better
    train_loss val_mse_age train_cm val_cm :
  0 <= epoch < n ->
  framed (fun d d' => same_elsewhere d' d)
         (well_formed_save (name_path_of (str_of_list (dict_values name_dict))) n)
         (save_checkpoint a name_dict epoch is_better
                          train_loss val_mse_age train_cm val_cm).
Proof.
  intros He w r w' H.
  destruct (Z.eq_dec (steps_save a) 0) as [Hz|Hnz].
  - rewrite save_checkpoint_zero_steps in H by exact Hz. injection H as <- <-.
    split; [intros k _; reflexivity|].
    exists []. rewrite app_nil_r. split; [reflexivity | constructor].
  - rewrite save_checkpoint_runs in H by exact Hnz.
    destruct (save_due a epoch is_better).
    + cbv zeta in H. injection H as <- <-. cbn [w_dict w_trace]. split.
      * destruct is_better; [apply with_metrics_elsewhere | intros k _; reflexivity].
      * eexists. split; [reflexivity|]. repeat constructor.
        exists (epoch + 1). split; [lia|]. split.
        -- apply with_metrics_carries.
        -- unfold checkpoint_name. destruct is_better; [left | right]; reflexivity.
    + injection H as <- <-. split; [intros k _; reflexivity|].
      exists []. rewrite app_nil_r. split; [reflexivity | constructor].
Qed.

(** Any run of [train]: the record at the end against the record after
    the set-up, and the calls made. *)
Lemma train_run_frame a w r w' :
  train a w = (r, w') ->
  same_elsewhere (w_dict w') (dict_update (w_dict w) (dict_param a)) /\
  exists t,
    w_trace w' = w_trace w ++ t /\
    Forall (well_formed_save
              (name_path_of
                 (str_of_list (dict_values (dict_update (w_dict w) (dict_param a)))))
              (n_epochs a)) t.
Proof.
  intros Hrun.
  apply (framed_train (fun d d' => same_elsewhere d' d)
           (well_formed_save
              (name_path_of
                 (str_of_list (dict_values (dict_update (w_dict w) (dict_param a)))))
              (n_epochs a))) with (r := r).
  - intros d k _. reflexivity.
  - intros d1 d2 d3. apply same_elsewhere_trans.
  - intros; exact I.
  - intros; exact I.
  - intros st epoch He. apply framed_train_epoch.
    + intros d k _. reflexivity.
    + intros d1 d2 d3. apply same_elsewhere_trans.
    + intros; exact I.
    + intros; exact I.
    + intros. apply framed_save_well_formed, He.
  - exact Hrun.
Qed.

(** X14: However a run of [train] ends, by returning or by raising, the
    caller's record then holds each of the six training parameters under
    its [train_] key, and every other key that is not one of the six
    checkpoint keys (epoch and the five metrics) reads as before the
    call. *)
Theorem train_record_frame a w r w' :
  train a w = (r, w') ->
  (forall k v, In (k, v) (dict_param a) -> dict_lookup (w_dict w') k = Some v) /\
  (forall k, ~ In k metric_keys -> ~ In k (map fst (dict_param a)) ->
             dict_lookup (w_dict w') k = dict_lookup (w_dict w) k).
Proof.
  intros Hrun. destruct (train_run_frame a w r w' Hrun) as [Hse _]. split.
  - intros k v Hin. unfold dict_param in Hin. simpl in Hin.
    repeat destruct Hin as [Hin|Hin]; try contradiction;
      injection Hin as <- <-;
      (rewrite Hse by (unfold metric_keys; simpl; intuition discriminate));
      rewrite dict_lookup_update; reflexivity.
  - intros k Hm Hp. rewrite Hse by exact Hm.
    rewrite dict_lookup_update, dict_lookup_absent; [reflexivity|].
    rewrite map_rev. intros Hin. apply Hp, in_rev, Hin.
Qed.

(** X15: However a run of [train] ends, it only adds calls to those made
    before, and every checkpoint it saved carries in its record an epoch
    number between 1 and [n_epochs] and went under the canonical name or
    under the canonical name followed by [_] and that same epoch number. *)
Theorem train_checkpoints_well_formed a w r w' :
  train a w = (r, w') ->
  exists t,
    w_trace w' = w_trace w ++ t /\
    Forall (well_formed_save
              (name_path_of
                 (str_of_list (dict_values (dict_update (w_dict w) (dict_param a)))))
              (n_epochs a)) t.
Proof. intros Hrun. exact (proj2 (train_run_frame a w r w' Hrun)). Qed.
End TrainFrame.

Lemma predict_same_suffix {I : Inference} model d1 d2 list_imgs return_pr batch_size :
  dict_lookup d1 "train_suffix" = dict_lookup d2 "train_suffix" ->
  predict_age_gender model d1 list_imgs return_pr batch_size
  = predict_age_gender model d2 list_imgs return_pr batch_size.
Proof.
  intros H. unfold predict_age_gender, dict_getitem. rewrite H. reflexivity.
Qed.

(** X16: The record a run of [train] leaves behind, however the run ended,
    serves [predict_age_gender]: the predictor finds the key
    'train_suffix' (no KeyError) and behaves exactly as on the record that
    holds only the [suffix] argument of the run under that key. *)
Theorem train_then_predict {T : Torch} {I : Inference} a w r w'
    model list_imgs return_pr batch_size :
  train a w = (r, w') ->
  dict_getitem (w_dict w') "train_suffix" = Ok (PStr (suffix a)) /\
  predict_age_gender model (w_dict w') list_imgs return_pr batch_size
  = predict_age_gender model [("train_suffix", PStr (suffix a))]
                       list_imgs return_pr batch_size.
Proof.
  intros Hrun. destruct (train_run_frame a w r w' Hrun) as [Hse _].
  assert (H : dict_lookup (w_dict w') "train_suffix" = Some (PStr (suffix a))).
  { rewrite Hse by (unfold metric_keys; simpl; intuition discriminate).
    rewrite dict_lookup_update. reflexivity. }
  split.
  - unfold dict_getitem. rewrite H. reflexivity.
  - apply predict_same_suffix. rewrite H. reflexivity.
Qed.

(** ** Runs of [train] from a record without a best value *)

Section RunsRules.
Context {T : Torch}.

Lemma mbind_ok {A B : Type} (c : M A) (k : A -> M B) (w w1 : world) (x : A) :
  c w = (Ok x, w1) -> mbind c k w = k x w1.
Proof. intros H. unfold mbind. rewrite H. reflexivity. Qed.

Lemma mbind_raise {A B : Type} (c : M A) (k : A -> M B) (w w1 : world) (e : exn) :
  c w = (Raise e, w1) -> mbind c k w = (Raise e, w1).
Proof. intros H. unfold mbind. rewrite H. reflexivity. Qed.

Lemma saved_names_app (t1 t2 : list event) :
  saved_names (t1 ++ t2) = saved_names t1 ++ saved_names t2.
Proof. unfold saved_names. rewrite saved_checkpoints_app, map_app. reflexivity. Qed.

Lemma saved_names_no_save (t : list event) :
  Forall no_save t -> saved_checkpoints t = [].
Proof.
  induction 1 as [|ev t Hev _ IH]; [reflexivity|].
  destruct ev; simpl in *; try exact IH. contradiction.
Qed.

Lemma runs_ret {A : Type} (R : A -> Prop) (x : A) : R x -> runs [] R (ret x).
Proof.
  intros HR w _. exists x, w. rewrite app_nil_r. repeat split; trivial.
Qed.

Lemma runs_lift {A : Type} (R : A -> Prop) (x : A) : R x -> runs [] R (lift (Ok x)).
Proof.
  intros HR w _. exists x, w. rewrite app_nil_r. repeat split; trivial.
Qed.

Lemma runs_get_dict : runs [] no_best get_dict.
Proof.
  intros w Hw. exists (w_dict w), w. rewrite app_nil_r. repeat split; trivial.
Qed.

Lemma runs_get_net : runs [] (fun _ => True) get_net.
Proof.
  intros w Hw. exists (w_net w), w. rewrite app_nil_r. repeat split; trivial.
Qed.

Lemma runs_put_net (n : TNet) : runs [] (fun _ => True) (put_net n).
Proof.
  intros w Hw. eexists tt, _. split; [reflexivity|]. cbn [w_dict w_trace].
  rewrite app_nil_r. repeat split; trivial.
Qed.

Lemma runs_emit (ev : event) : no_save ev -> runs [] (fun _ => True) (emit ev).
Proof.
  intros Hev w Hw. eexists tt, _. split; [reflexivity|]. cbn [w_dict w_trace].
  rewrite saved_names_app, app_nil_r. unfold saved_names at 2.
  rewrite (saved_names_no_save [ev]) by (repeat constructor; exact Hev).
  simpl. rewrite app_nil_r. repeat split; trivial.
Qed.

Lemma runs_bind {A B : Type} (n1 n2 : list string) (R1 : A -> Prop) (R : B -> Prop)
    (c : M A) (k : A -> M B) :
  runs n1 R1 c -> (forall x, R1 x -> runs n2 R (k x)) -> runs (n1 ++ n2) R (mbind c k).
Proof.
  intros Hc Hk w Hw.
  destruct (Hc w Hw) as (x & w1 & Hcw & Hd1 & Hn1 & HR1).
  assert (Hw1 : no_best (w_dict w1)) by (rewrite Hd1; exact Hw).
  destruct (Hk x HR1 w1 Hw1) as (y & w2 & Hkw & Hd2 & Hn2 & HR).
  exists y, w2. rewrite (mbind_ok _ _ _ _ _ Hcw).
  split; [exact Hkw|]. split; [congruence|]. split; [|exact HR].
  rewrite Hn2, Hn1, app_assoc. reflexivity.
Qed.

Lemma runs_bind_quiet {A B : Type} (names : list string) (R1 : A -> Prop)
    (R : B -> Prop) (c : M A) (k : A -> M B) :
  runs [] R1 c -> (forall x, R1 x -> runs names R (k x)) -> runs names R (mbind c k).
Proof. intros Hc Hk. exact (runs_bind [] names R1 R c k Hc Hk). Qed.

Lemma runs_bind_last {A B : Type} (names : list string) (R1 : A -> Prop)
    (R : B -> Prop) (c : M A) (k : A -> M B) :
  runs names R1 c -> (forall x, R1 x -> runs [] R (k x)) -> runs names R (mbind c k).
Proof.
  intros Hc Hk. rewrite <- (app_nil_r names). exact (runs_bind names [] R1 R c k Hc Hk).
Qed.

Lemma runs_for_fold {A B : Type} (g : A -> list string) (f : B -> A -> M B)
    (l : list A) :
  (forall acc x, In x l -> runs (g x) (fun _ => True) (f acc x)) ->
  forall acc, runs (concat (map g l)) (fun _ => True) (for_fold f l acc).
Proof.
  induction l as [|x l IH]; intros Hf acc; cbn [for_fold map concat].
  - apply runs_ret. trivial.
  - apply runs_bind with (R1 := fun _ => True); [apply Hf; left; reflexivity|].
    intros acc' _. apply IH. intros acc0 y Hy. apply Hf. right. exact Hy.
Qed.

Lemma runs_for_fold_quiet {A B : Type} (f : B -> A -> M B) (l : list A) :
  (forall acc x, runs [] (fun _ => True) (f acc x)) ->
  forall acc, runs [] (fun _ => True) (for_fold f l acc).
Proof.
  intros Hf acc.
  replace (@nil string) with (concat (map (fun _ : A => @nil string) l)).
  - apply runs_for_fold. intros acc0 x _. apply Hf.
  - induction l as [|x l IH]; [reflexivity | exact IH].
Qed.

Lemma raises_bind_left {A B : Type} (e : exn) (c : M A) (k : A -> M B) :
  raises e c -> raises e (mbind c k).
Proof.
  intros Hc w Hw. destruct (Hc w Hw) as (w1 & Hcw & Hd & Hn).
  exists w1. rewrite (mbind_raise _ _ _ _ _ Hcw). repeat split; assumption.
Qed.

Lemma raises_bind_right {A B : Type} (e : exn) (R1 : A -> Prop)
    (c : M A) (k : A -> M B) :
  runs [] R1 c -> (forall x, R1 x -> raises e (k x)) -> raises e (mbind c k).
Proof.
  intros Hc Hk w Hw.
  destruct (Hc w Hw) as (x & w1 & Hcw & Hd1 & Hn1 & HR1).
  assert (Hw1 : no_best (w_dict w1)) by (rewrite Hd1; exact Hw).
  destruct (Hk x HR1 w1 Hw1) as (w2 & Hkw & Hd2 & Hn2).
  exists w2. rewrite (mbind_ok _ _ _ _ _ Hcw).
  split; [exact Hkw|]. split; [congruence|].
  rewrite Hn2, Hn1, app_nil_r. reflexivity.
Qed.
End RunsRules.

(** One step through a part of a sequence that saves nothing. *)
Ltac quiet_step :=
  lazymatch goal with
  | |- runs _ _ (mbind _ _) => eapply runs_bind_quiet; [|intros ? ?; cbv beta in *]
  | |- raises _ (mbind _ _) => eapply raises_bind_right; [|intros ? ?; cbv beta in *]
  end.

(** A part of a sequence that saves nothing. *)
Ltac quiet :=
  lazymatch goal with
  | |- runs _ _ (ret _) => first [exact (runs_ret (fun _ => True) _ I) | apply runs_ret; trivial]
  | |- runs _ _ get_dict => apply runs_get_dict
  | |- runs _ _ get_net => apply runs_get_net
  | |- runs _ _ (put_net _) => apply runs_put_net
  | |- runs _ _ (emit _) => apply runs_emit; exact I
  end.

Section FreshRuns.
Context {T : Torch}.

Lemma runs_train_batch a acc b : runs [] (fun _ => True) (train_batch a acc b).
Proof.
  destruct b as [[img age] gender]. unfold train_batch.
  quiet_step; [quiet|]. quiet_step; [quiet|].
  destruct (optimizer_update _ _ _ _) as [optimizer model'].
  quiet_step; [quiet|]. quiet.
Qed.

Lemma runs_log_confussion_matrix cm global_step suffix :
  runs [] (fun _ => True) (log_confussion_matrix cm global_step suffix).
Proof.
  unfold log_confussion_matrix.
  do 3 (quiet_step; [quiet|]).
  quiet_step; [|quiet].
  apply runs_for_fold_quiet. intros idx k.
  quiet_step; [quiet | quiet].
Qed.

Lemma select_metric_fresh_ok mode d train_loss val_mse_age train_cm val_cm :
  no_best d ->
  exists met,
    select_metric mode d train_loss val_mse_age train_cm val_cm
    = Ok (met, Truth false).
Proof.
  unfold no_best, best_keys. intros Hd.
  inversion Hd as [|? ? H1 Hd1]; subst. inversion Hd1 as [|? ? H2 Hd2]; subst.
  inversion Hd2 as [|? ? H3 Hd3]; subst. inversion Hd3 as [|? ? H4 Hd4]; subst.
  inversion Hd4 as [|? ? H5 _]; subst.
  unfold select_metric. rewrite H1, H2, H3, H4, H5.
  repeat match goal with
         | |- exists _, (if ?c then _ else _) = _ => destruct c
         end;
    eexists; reflexivity.
Qed.

Lemma runs_select_metric mode d train_loss val_mse_age train_cm val_cm :
  no_best d ->
  runs [] (fun sel => snd sel = Truth false)
       (lift (select_metric mode d train_loss val_mse_age train_cm val_cm)).
Proof.
  intros Hd.
  destruct (select_metric_fresh_ok mode d train_loss val_mse_age train_cm val_cm Hd)
    as [met ->].
  apply runs_lift. reflexivity.
Qed.

Lemma runs_save_periodic a name_dict epoch train_loss val_mse_age train_cm val_cm :
  steps_save a <> 0 ->
  runs (periodic_names a (name_path_of (str_of_list (dict_values name_dict))) epoch)
       (fun _ => True)
       (save_checkpoint a name_dict epoch false train_loss val_mse_age train_cm val_cm).
Proof.
  intros Hs w Hw. rewrite save_checkpoint_runs by exact Hs.
  unfold save_due, periodic_names. rewrite orb_false_r.
  destruct (epoch mod steps_save a =? steps_save a - 1).
  - eexists tt, _. split; [reflexivity|]. cbn [w_dict w_trace].
    rewrite saved_names_app. repeat split; trivial.
  - exists tt, w. rewrite app_nil_r. repeat split; trivial.
Qed.

Lemma runs_save_block_periodic a name_dict epoch
    train_loss val_mse_age train_cm val_cm :
  steps_save a <> 0 ->
  runs (periodic_names a (name_path_of (str_of_list (dict_values name_dict))) epoch)
       (fun _ => True)
       (save_model_block a name_dict epoch (Truth false)
                         train_loss val_mse_age train_cm val_cm).
Proof.
  intros Hs. unfold save_model_block.
  apply runs_bind_quiet with (R1 := fun _ => True).
  { unfold py_mod. destruct (Z.eqb_spec (steps_save a) 0); [contradiction|].
    apply runs_lift. trivial. }
  intros _ _.
  apply runs_bind_quiet with (R1 := fun b => b = false).
  { apply runs_lift. reflexivity. }
  intros b ->. apply runs_save_periodic, Hs.
Qed.

Lemma raises_save_block_zero_steps a name_dict epoch is_better
    train_loss val_mse_age train_cm val_cm :
  steps_save a = 0 ->
  raises ZeroDivisionError
         (save_model_block a name_dict epoch is_better
                           train_loss val_mse_age train_cm val_cm).
Proof.
  intros Hs w Hw. exists w.
  unfold save_model_block, mbind, lift, py_mod. rewrite Hs. repeat split.
Qed.

(** The part of an epoch before the "Save the model" block saves
    nothing; a tactic walks through it for both ways an epoch can end. *)
Ltac epoch_prefix :=
  unfold train_epoch;
  destruct (loader_iter (l_loader_train _)) as [? ?];
  quiet_step; [apply runs_for_fold_quiet; intros; apply runs_train_batch|];
  quiet_step; [quiet|];
  destruct (loader_iter (l_loader_valid _)) as [? ?];
  destruct (fold_left _ _ _) as [? ?];
  quiet_step; [quiet|];
  quiet_step; [apply runs_select_metric; cbv beta in *; assumption|];
  cbv beta in *;
  match goal with
  | Hsel : snd ?s = Truth false |- _ =>
      destruct s as [? ?]; simpl in Hsel; subst
  end;
  match goal with
  | |- context [scheduler_step ?s ?o] =>
      match goal with
      | |- context [match ?m with Some x => scheduler_step s o x | None => _ end] =>
          destruct (match m with Some x => scheduler_step s o x | None => (s, o) end)
            as [? ?]
      end
  end;
  do 3 (quiet_step; [quiet|]);
  (quiet_step; [apply runs_log_confussion_matrix|]);
  (quiet_step; [quiet|]);
  (quiet_step; [apply runs_log_confussion_matrix|]);
  (quiet_step; [quiet|]).

Lemma runs_train_epoch a name_dict st epoch :
  steps_save a <> 0 ->
  runs (periodic_names a (name_path_of (str_of_list (dict_values name_dict))) epoch)
       (fun _ => True) (train_epoch a name_dict st epoch).
Proof.
  intros Hs. epoch_prefix.
  eapply runs_bind_last; [apply runs_save_block_periodic; exact Hs|].
  intros ? _. quiet.
Qed.

Lemma raises_train_epoch a name_dict st epoch :
  steps_save a = 0 ->
  raises ZeroDivisionError (train_epoch a name_dict st epoch).
Proof.
  intros Hs. epoch_prefix.
  apply raises_bind_left, raises_save_block_zero_steps, Hs.
Qed.
End FreshRuns.

Section FreshTrain.
Context {T : Torch}.

Lemma epochs_of_first (n : Z) : 1 <= n -> exists l, epochs_of n = 0 :: l.
Proof.
  intros Hn. unfold epochs_of.
  destruct (Z.to_nat n) as [|k] eqn:E; [lia|].
  eexists. reflexivity.
Qed.

Lemma epochs_of_none (n : Z) : n <= 0 -> epochs_of n = [].
Proof.
  intros Hn. unfold epochs_of. replace (Z.to_nat n) with 0%nat by lia. reflexivity.
Qed.

(** The optimizer and the scheduler of a run with names the driver
    knows. *)
Ltac known_names Hopt Hmode :=
  unfold known_optimizer in Hopt; unfold known_mode in Hmode;
  cbn [existsb] in Hopt, Hmode |- *;
  quiet_step;
  [ repeat match goal with
           | |- context [String.eqb (optimizer_name ?a) ?s] =>
               destruct (String.eqb (optimizer_name a) s)
           end; cbn [orb] in Hopt; first [discriminate Hopt | quiet]
  | quiet_step;
    [ repeat match goal with
             | |- context [String.eqb (scheduler_mode ?a) ?s] =>
                 destruct (String.eqb (scheduler_mode a) s)
             end; cbn [orb] in Hmode |- *; first [discriminate Hmode | quiet]
    | ] ].

(** The run of [train] after the set-up, with names the driver knows and
    epochs that all return. *)
Lemma runs_train_rest a name_dict (g : Z -> list string) :
  known_optimizer (optimizer_name a) = true ->
  known_mode (scheduler_mode a) = true ->
  (forall st epoch, In epoch (epochs_of (n_epochs a)) ->
     runs (g epoch) (fun _ => True) (train_epoch a name_dict st epoch)) ->
  runs (concat (map g (epochs_of (n_epochs a))))
       (fun _ => True)
       (let '(loader_train, loader_valid, _) :=
          load_data (data_path a) (if debug_mode a then 0 else num_workers a)
                    (batch_size a) (use_cache a) in
        mbind get_net (fun model =>
        mbind (if String.eqb (optimizer_name a) "sgd" then ret (new_sgd model (lr a))
               else if String.eqb (optimizer_name a) "adam"
                    then ret (new_adam model (lr a))
               else if String.eqb (optimizer_name a) "adamw"
                    then ret (new_adamw model (lr a))
               else raise (Exception "Optimizer not configured")) (fun optimizer =>
        mbind (if existsb (String.eqb (scheduler_mode a)) ["min_loss"; "min_mse"]
               then ret (new_scheduler optimizer "min" (scheduler_patience a))
               else if existsb (String.eqb (scheduler_mode a))
                               ["max_acc"; "max_val_acc"; "max_val_mcc"]
               then ret (new_scheduler optimizer "max" (scheduler_patience a))
               else raise (Exception "Optimizer not configured")) (fun scheduler =>
        mbind (lift (py_range 0 (n_epochs a) 1)) (fun epochs =>
        mbind (for_fold (train_epoch a name_dict) epochs
                 {| l_optimizer := optimizer; l_scheduler := scheduler;
                    l_loader_train := loader_train; l_loader_valid := loader_valid;
                    l_global_step := 0 |}) (fun _ => ret tt)))))).
Proof.
  intros Hopt Hmode Hs.
  destruct (load_data _ _ _ _) as [[loader_train loader_valid] loader_test].
  quiet_step; [quiet|].
  known_names Hopt Hmode.
  rewrite py_range_unit.
  eapply runs_bind_quiet with (R1 := fun l => l = epochs_of (n_epochs a));
    [apply runs_lift; reflexivity | intros ? ->].
  eapply runs_bind_last; [|intros ? _; quiet].
  apply (runs_for_fold g). exact Hs.
Qed.

(** The same with a save period of zero and at least one epoch. *)
Lemma raises_train_rest a name_dict :
  known_optimizer (optimizer_name a) = true ->
  known_mode (scheduler_mode a) = true ->
  steps_save a = 0 ->
  1 <= n_epochs a ->
  raises ZeroDivisionError
       (let '(loader_train, loader_valid, _) :=
          load_data (data_path a) (if debug_mode a then 0 else num_workers a)
                    (batch_size a) (use_cache a) in
        mbind get_net (fun model =>
        mbind (if String.eqb (optimizer_name a) "sgd" then ret (new_sgd model (lr a))
               else if String.eqb (optimizer_name a) "adam"
                    then ret (new_adam model (lr a))
               else if String.eqb (optimizer_name a) "adamw"
                    then ret (new_adamw model (lr a))
               else raise (Exception "Optimizer not configured")) (fun optimizer =>
        mbind (if existsb (String.eqb (scheduler_mode a)) ["min_loss"; "min_mse"]
               then ret (new_scheduler optimizer "min" (scheduler_patience a))
               else if existsb (String.eqb (scheduler_mode a))
                               ["max_acc"; "max_val_acc"; "max_val_mcc"]
               then ret (new_scheduler optimizer "max" (scheduler_patience a))
               else raise (Exception "Optimizer not configured")) (fun scheduler =>
        mbind (lift (py_range 0 (n_epochs a) 1)) (fun epochs =>
        mbind (for_fold (train_epoch a name_dict) epochs
                 {| l_optimizer := optimizer; l_scheduler := scheduler;
                    l_loader_train := loader_train; l_loader_valid := loader_valid;
                    l_global_step := 0 |}) (fun _ => ret tt)))))).
Proof.
  intros Hopt Hmode Hs Hn.
  destruct (load_data _ _ _ _) as [[loader_train loader_valid] loader_test].
  quiet_step; [quiet|].
  known_names Hopt Hmode.
  rewrite py_range_unit.
  destruct (epochs_of_first (n_epochs a) Hn) as [l ->].
  eapply raises_bind_right with (R1 := fun es => es = 0 :: l);
    [apply runs_lift; reflexivity | intros ? ->].
  apply raises_bind_left. cbn [for_fold].
  apply raises_bind_left, raises_train_epoch, Hs.
Qed.

(** The world in which the set-up of [train] leaves the run. *)
Lemma train_after_set_up a w :
  exists w1,
    w_dict w1 = dict_update (w_dict w) (dict_param a) /\
    saved_names (w_trace w1) = saved_names (w_trace w) /\
    train a w =
    (let '(loader_train, loader_valid, _) :=
          load_data (data_path a) (if debug_mode a then 0 else num_workers a)
                    (batch_size a) (use_cache a) in
        mbind get_net (fun model =>
        mbind (if String.eqb (optimizer_name a) "sgd" then ret (new_sgd model (lr a))
               else if String.eqb (optimizer_name a) "adam"
                    then ret (new_adam model (lr a))
               else if String.eqb (optimizer_name a) "adamw"
                    then ret (new_adamw model (lr a))
               else raise (Exception "Optimizer not configured")) (fun optimizer =>
        mbind (if existsb (String.eqb (scheduler_mode a)) ["min_loss"; "min_mse"]
               then ret (new_scheduler optimizer "min" (scheduler_patience a))
               else if existsb (String.eqb (scheduler_mode a))
                               ["max_acc"; "max_val_acc"; "max_val_mcc"]
               then ret (new_scheduler optimizer "max" (scheduler_patience a))
               else raise (Exception "Optimizer not configured")) (fun scheduler =>
        mbind (lift (py_range 0 (n_epochs a) 1)) (fun epochs =>
        mbind (for_fold (train_epoch a (dict_update (w_dict w) (dict_param a))) epochs
                 {| l_optimizer := optimizer; l_scheduler := scheduler;
                    l_loader_train := loader_train; l_loader_valid := loader_valid;
                    l_global_step := 0 |}) (fun _ => ret tt)))))) w1.
Proof.
  eexists. split; [|split].
  3: { unfold train.
       erewrite mbind_ok by reflexivity. cbv zeta.
       erewrite mbind_ok by reflexivity.
       erewrite mbind_ok by reflexivity.
       erewrite mbind_ok by reflexivity.
       cbn [w_dict]. reflexivity. }
  - reflexivity.
  - cbn [w_trace]. rewrite !saved_names_app. cbn. rewrite !app_nil_r. reflexivity.
Qed.
End FreshTrain.

Section FreshTrainRuns.
Context {T : Torch}.

(** X17: Started on a record without a best value, with an optimizer and
    a scheduler mode the driver knows and a save period other than zero,
    [train] returns; the record then is the caller's record updated with
    the six training parameters, and the checkpoints saved by the run are
    exactly the periodic ones, in the order of the epochs: one for each
    epoch index [e] with [e mod steps_save = steps_save - 1], under the
    canonical name followed by [_] and [e + 1]. The canonical name
    itself is never written. *)
Theorem train_fresh_run a w :
  no_best (w_dict w) ->
  known_optimizer (optimizer_name a) = true ->
  known_mode (scheduler_mode a) = true ->
  steps_save a <> 0 ->
  exists w',
    train a w = (Ok tt, w') /\
    w_dict w' = dict_update (w_dict w) (dict_param a) /\
    saved_names (w_trace w') =
    saved_names (w_trace w) ++
    concat (map (periodic_names a
                   (name_path_of
                      (str_of_list
                         (dict_values (dict_update (w_dict w) (dict_param a))))))
                (epochs_of (n_epochs a))).
Proof.
  intros Hw Hopt Hmode Hs.
  destruct (train_after_set_up a w) as (w1 & Hd1 & Hn1 & ->).
  assert (Hw1 : no_best (w_dict w1)) by (rewrite Hd1; apply no_best_update, Hw).
  destruct (runs_train_rest a (dict_update (w_dict w) (dict_param a))
              (periodic_names a
                 (name_path_of
                    (str_of_list
                       (dict_values (dict_update (w_dict w) (dict_param a))))))
              Hopt Hmode
              (fun st epoch _ => runs_train_epoch a _ st epoch Hs) w1 Hw1)
    as ([] & w' & Hrun & Hd & Hn & _).
  exists w'. split; [exact Hrun|]. split; [congruence|].
  rewrite Hn, Hn1. reflexivity.
Qed.

(** X18: With a save period of zero, [train] saves no checkpoint and
    leaves in the record only the six training parameters, whatever the
    record and the names; from a record without a best value and with
    names the driver knows, it raises ZeroDivisionError (at the end of
    the first epoch) when there is at least one epoch, and returns when
    there is none. *)
Theorem train_zero_save_period a w r w' :
  steps_save a = 0 ->
  train a w = (r, w') ->
  w_dict w' = dict_update (w_dict w) (dict_param a) /\
  saved_checkpoints (w_trace w') = saved_checkpoints (w_trace w) /\
  (no_best (w_dict w) ->
   known_optimizer (optimizer_name a) = true ->
   known_mode (scheduler_mode a) = true ->
   (1 <= n_epochs a -> r = Raise ZeroDivisionError) /\
   (n_epochs a <= 0 -> r = Ok tt)).
Proof.
  intros Hs Hrun.
  assert (Hfr : w_dict w' = dict_update (w_dict w) (dict_param a) /\
                exists t, w_trace w' = w_trace w ++ t /\ Forall no_save t).
  { apply (framed_train (fun d d' => d' = d) no_save) with (r := r).
    - reflexivity.
    - intros d1 d2 d3 H12 H23. congruence.
    - intros; exact I.
    - intros; exact I.
    - intros st epoch _. apply framed_train_epoch.
      + reflexivity.
      + intros d1 d2 d3 H12 H23. congruence.
      + intros; exact I.
      + intros; exact I.
      + intros is_better train_loss val_mse_age train_cm val_cm w0 r0 w0' H0.
        rewrite save_checkpoint_zero_steps in H0 by exact Hs.
        injection H0 as <- <-. split; [reflexivity|].
        exists []. rewrite app_nil_r. split; [reflexivity | constructor].
    - exact Hrun. }
  destruct Hfr as (Hd & t & Ht & Hok).
  split; [exact Hd|]. split.
  { rewrite Ht, saved_checkpoints_app, (saved_names_no_save t Hok), app_nil_r.
    reflexivity. }
  intros Hw Hopt Hmode.
  destruct (train_after_set_up a w) as (w1 & Hd1 & Hn1 & Heq).
  assert (Hw1 : no_best (w_dict w1)) by (rewrite Hd1; apply no_best_update, Hw).
  rewrite Heq in Hrun. split.
  - intros Hn.
    destruct (raises_train_rest a (dict_update (w_dict w) (dict_param a))
                Hopt Hmode Hs Hn w1 Hw1) as (w2 & H2 & _).
    rewrite H2 in Hrun. congruence.
  - intros Hn.
    destruct (runs_train_rest a (dict_update (w_dict w) (dict_param a))
                (fun _ => []) Hopt Hmode) with (w := w1)
      as ([] & w2 & H2 & _).
    + rewrite (epochs_of_none _ Hn). intros st epoch [].
    + exact Hw1.
    + rewrite H2 in Hrun. congruence.
Qed.
End FreshTrainRuns.

(** ** Further properties of the evaluation loop *)

Section EvalMore.
Context {T : Torch} {E : Evaluation}.

Lemma for_fold_result_app {A B : Type} (f : B -> A -> result B) (l1 l2 : list A)
    (acc : B) :
  for_fold_result f (l1 ++ l2) acc
  = bind (for_fold_result f l1 acc) (for_fold_result f l2).
Proof.
  revert acc. induction l1 as [|x l1 IH]; intros acc; cbn [for_fold_result app].
  - reflexivity.
  - destruct (f acc x) as [acc'|e]; cbn [bind]; [apply IH | reflexivity].
Qed.

(** What the body of the loop over the checkpoint folders appends and
    writes. *)
Lemma test_checkpoint_step data_path n_runs batch_size num_workers save use_cache
    acc folder_path md :
  load_model folder_path = Ok md ->
  exists b,
    checkpoint_bundle data_path n_runs batch_size num_workers use_cache folder_path
    = Some b /\
    test_checkpoint data_path n_runs batch_size num_workers save use_cache acc folder_path
    = Ok (fst acc ++ [b],
          snd acc ++ (if save then [SaveDict (b_dict b) (record_file folder_path)]
                      else [])).
Proof.
  intros Hload. destruct md as [model d0].
  unfold checkpoint_bundle, test_checkpoint. rewrite Hload. cbn [bind].
  destruct (py_range_count n_runs) as [ks [Hks Hlen]]. rewrite Hks. cbn [bind].
  assert (Hst : fold_left (test_run model) ks
                  {| s_loaders := load_data data_path num_workers batch_size use_cache;
                     s_train := no_runs; s_val := no_runs; s_test := no_runs |}
                = runs_of model
                    (load_data data_path num_workers batch_size use_cache) n_runs).
  { apply runs_ignore_index. rewrite Hlen, length_map, length_seq. reflexivity. }
  rewrite Hst. eexists. split; [reflexivity|].
  destruct save; [reflexivity | rewrite app_nil_r; reflexivity].
Qed.

(** The loop over folders that all load. *)
Lemma test_loop_result data_path n_runs batch_size num_workers save use_cache paths :
  (forall p, In p paths -> exists md, load_model p = Ok md) ->
  forall acc,
  exists new,
    Forall2 (fun p b =>
               checkpoint_bundle data_path n_runs batch_size num_workers use_cache p
               = Some b) paths new /\
    for_fold_result
      (test_checkpoint data_path n_runs batch_size num_workers save use_cache) paths acc
    = Ok (fst acc ++ new,
          snd acc ++ (if save then record_files paths new else [])).
Proof.
  induction paths as [|p paths IH]; intros Hload acc.
  - exists []. split; [constructor|]. cbn [for_fold_result].
    unfold record_files. simpl. destruct save; rewrite !app_nil_r; destruct acc; reflexivity.
  - destruct (Hload p (or_introl eq_refl)) as [md Hp].
    destruct (test_checkpoint_step data_path n_runs batch_size num_workers save
                use_cache acc p md Hp) as (b & Hb & Hstep).
    cbn [for_fold_result]. rewrite Hstep. cbn [bind].
    destruct (IH (fun q Hq => Hload q (or_intror Hq))
                 (fst acc ++ [b],
                  snd acc ++ (if save then [SaveDict (b_dict b) (record_file p)]
                              else [])))
      as (new & Hnew & Hrest).
    exists (b :: new). split; [constructor; assumption|].
    rewrite Hrest. cbn [fst snd]. rewrite <- !app_assoc.
    destruct save; reflexivity.
Qed.

Lemma checkpoint_bundle_some data_path n_runs batch_size num_workers use_cache p b :
  checkpoint_bundle data_path n_runs batch_size num_workers use_cache p = Some b ->
  exists model d0,
    load_model p = Ok (model, d0) /\
    b_dict b
    = dict_update d0
        (dict_result
           (runs_of model (load_data data_path num_workers batch_size use_cache)
                    n_runs)) /\
    b_train_cm b
    = r_cm (s_train (runs_of model
                       (load_data data_path num_workers batch_size use_cache) n_runs)) /\
    b_val_cm b
    = r_cm (s_val (runs_of model
                     (load_data data_path num_workers batch_size use_cache) n_runs)) /\
    b_test_cm b
    = r_cm (s_test (runs_of model
                      (load_data data_path num_workers batch_size use_cache) n_runs)).
Proof.
  unfold checkpoint_bundle. intros Hb.
  destruct (load_model p) as [[model d0]|e]; [|discriminate].
  exists model, d0. split; [reflexivity|].
  assert (Hb' : b = {| b_dict := dict_update d0
                          (dict_result
                             (runs_of model
                                (load_data data_path num_workers batch_size use_cache)
                                n_runs));
                       b_train_cm := r_cm (s_train (runs_of model
                          (load_data data_path num_workers batch_size use_cache) n_runs));
                       b_val_cm := r_cm (s_val (runs_of model
                          (load_data data_path num_workers batch_size use_cache) n_runs));
                       b_test_cm := r_cm (s_test (runs_of model
                          (load_data data_path num_workers batch_size use_cache) n_runs))
                    |}) by congruence.
  rewrite Hb'. repeat split.
Qed.

(** X19: [test] has no isolation between checkpoints: when the folders
    before [p] load and [p] does not, the whole call raises what
    [load_model] raised for [p], whatever folders come after, and returns
    no bundle for the folders already evaluated. *)
Theorem test_load_failure_aborts data_path save_path n_runs batch_size num_workers
    debug_mode save use_cache before p after e :
  glob_all save_path = before ++ p :: after ->
  (forall q, In q before -> exists md, load_model q = Ok md) ->
  load_model p = Raise e ->
  test data_path save_path n_runs batch_size num_workers debug_mode save use_cache
  = Raise e.
Proof.
  intros Hpaths Hbefore Hp. unfold test. rewrite Hpaths, for_fold_result_app.
  destruct (test_loop_result data_path n_runs batch_size
              (if debug_mode then 0 else num_workers) save use_cache before
              Hbefore ([], [])) as (new & _ & ->).
  cbn [bind for_fold_result]. unfold test_checkpoint. rewrite Hp. reflexivity.
Qed.

(** X20: When every folder loads, [test] returns one bundle per folder,
    in the order of the folders; with [save] off it writes no file, and
    with [save] on it writes exactly one record file per folder, in the
    same order, named after the folder inside the folder and holding the
    very record of the bundle returned for it. *)
Theorem test_record_files data_path save_path n_runs batch_size num_workers
    debug_mode save use_cache :
  (forall p, In p (glob_all save_path) -> exists md, load_model p = Ok md) ->
  exists bundles,
    test data_path save_path n_runs batch_size num_workers debug_mode save use_cache
    = Ok (bundles,
          if save then record_files (glob_all save_path) bundles else []) /\
    length bundles = length (glob_all save_path).
Proof.
  intros Hload. unfold test.
  destruct (test_loop_result data_path n_runs batch_size
              (if debug_mode then 0 else num_workers) save use_cache
              (glob_all save_path) Hload ([], [])) as (new & Hnew & ->).
  exists new. split; [reflexivity|].
  symmetry. exact (Forall2_length Hnew).
Qed.

(** X21: The record of every bundle [test] returns reads, under every
    key other than the twelve result keys (MAE, MSE, MCC and accuracy of
    the three splits), as the record loaded from the folder: what training
    stored there, the epoch, the losses and the training parameters, is
    kept. *)
Theorem test_keeps_other_keys data_path save_path n_runs batch_size num_workers
    debug_mode save use_cache :
  (forall p, In p (glob_all save_path) -> exists md, load_model p = Ok md) ->
  exists bundles files,
    test data_path save_path n_runs batch_size num_workers debug_mode save use_cache
    = Ok (bundles, files) /\
    Forall2 (fun p b =>
               exists model d0,
                 load_model p = Ok (model, d0) /\
                 forall k, ~ In k result_keys ->
                           dict_lookup (b_dict b) k = dict_lookup d0 k)
            (glob_all save_path) bundles.
Proof.
  intros Hload. unfold test.
  destruct (test_loop_result data_path n_runs batch_size
              (if debug_mode then 0 else num_workers) save use_cache
              (glob_all save_path) Hload ([], [])) as (new & Hnew & ->).
  exists new. eexists. split; [reflexivity|].
  eapply Forall2_impl; [|exact Hnew].
  intros p b Hb. cbv beta in Hb.
  apply checkpoint_bundle_some in Hb as (model & d0 & Hp & Hd & _).
  exists model, d0. split; [exact Hp|].
  intros k Hk. rewrite Hd. apply dict_lookup_update_other. exact Hk.
Qed.

Lemma runs_of_none model loaders n_runs :
  n_runs <= 0 ->
  runs_of model loaders n_runs
  = {| s_loaders := loaders; s_train := no_runs; s_val := no_runs; s_test := no_runs |}.
Proof.
  intros Hn. unfold runs_of. replace (Z.to_nat n_runs) with 0%nat by lia. reflexivity.
Qed.

(** X22: With [n_runs] zero or negative and every folder loading, [test]
    still returns one bundle per folder; each carries no confusion matrix
    for any split, and its record holds under each of the twelve result
    keys the mean of an empty list. *)
Theorem test_without_runs data_path save_path n_runs batch_size num_workers
    debug_mode save use_cache :
  n_runs <= 0 ->
  (forall p, In p (glob_all save_path) -> exists md, load_model p = Ok md) ->
  exists bundles files,
    test data_path save_path n_runs batch_size num_workers debug_mode save use_cache
    = Ok (bundles, files) /\
    length bundles = length (glob_all save_path) /\
    Forall (fun b =>
              b_train_cm b = [] /\ b_val_cm b = [] /\ b_test_cm b = [] /\
              Forall (fun k => dict_lookup (b_dict b) k = Some (PFloat (np_mean [])))
                     result_keys)
           bundles.
Proof.
  intros Hn Hload. unfold test.
  destruct (test_loop_result data_path n_runs batch_size
              (if debug_mode then 0 else num_workers) save use_cache
              (glob_all save_path) Hload ([], [])) as (new & Hnew & ->).
  exists new. eexists. split; [reflexivity|].
  split; [symmetry; exact (Forall2_length Hnew)|].
  clear Hload. induction Hnew as [|p b paths new Hb _ IH]; [constructor|].
  constructor; [|exact IH].
  apply checkpoint_bundle_some in Hb as (model & d0 & _ & Hd & Ht & Hv & Hs).
  rewrite runs_of_none in Hd, Ht, Hv, Hs by exact Hn.
  rewrite Hd, Ht, Hv, Hs. repeat split.
  unfold result_keys. repeat constructor; rewrite dict_lookup_update; reflexivity.
Qed.
End EvalMore.

(** ** The further properties on the stand-in collaborators *)

Lemma predict_missing_key_witness :
  @predict_age_gender Stub.constant_model (Stub.minus_three, Stub.minus_three)
    [("in_channels", PInt 3)] ["1.jpg"] true 32
  = Raise (KeyError "train_suffix").
Proof.
  apply (@predict_missing_key Stub.constant_model
           (Stub.minus_three, Stub.minus_three) [("in_channels", PInt 3)]
           ["1.jpg"] true 32).
  reflexivity.
Defined.

Lemma predict_ignores_remainder_witness :
  @predict_age_gender Stub.constant_model (Stub.minus_three, Stub.minus_three)
    Stub.record_400 (["1.jpg"; "2.jpg"; "3.jpg"; "4.jpg"] ++ ["5.jpg"]) true 2
  = @predict_age_gender Stub.constant_model (Stub.minus_three, Stub.minus_three)
      Stub.record_400 ["1.jpg"; "2.jpg"; "3.jpg"; "4.jpg"] true 2.
Proof.
  apply (@predict_ignores_remainder Stub.constant_model
           (Stub.minus_three, Stub.minus_three) Stub.record_400
           ["1.jpg"; "2.jpg"; "3.jpg"; "4.jpg"] ["5.jpg"] true 2).
  - lia.
  - discriminate.
  - reflexivity.
  - simpl. lia.
Defined.

Lemma predict_exact_multiple_witness :
  exists res,
    @predict_age_gender Stub.constant_model (Stub.minus_three, Stub.minus_three)
      Stub.record_400 ["1.jpg"; "2.jpg"; "3.jpg"; "4.jpg"] true 2 = Ok res /\
    length res = 4%nat.
Proof.
  apply (@predict_exact_multiple Stub.constant_model
           (Stub.minus_three, Stub.minus_three) Stub.record_400
           ["1.jpg"; "2.jpg"; "3.jpg"; "4.jpg"] true 2 (PStr "400") 400).
  - apply constant_model_rows.
  - intros p _. apply constant_model_opens.
  - reflexivity.
  - reflexivity.
  - discriminate.
  - lia.
  - reflexivity.
Defined.

Lemma predict_unreadable_image_raises_witness :
  ~ exists res,
      @predict_age_gender Stub.picky_model (Stub.minus_three, Stub.minus_three)
        Stub.record_400 ["1.jpg"; "missing.jpg"; "3.jpg"] true 2 = Ok res.
Proof.
  intros [res Hres]. revert res Hres.
  apply (@predict_unreadable_image_raises Stub.picky_model
           (Stub.minus_three, Stub.minus_three) Stub.record_400
           ["1.jpg"; "missing.jpg"; "3.jpg"] true 2 "missing.jpg"
           (OSError "missing.jpg")).
  - lia.
  - right. left. reflexivity.
  - reflexivity.
Defined.

Lemma periodic_names_distinct_witness :
  checkpoint_name "3_adamw_1" false 4 <> checkpoint_name "3_adamw_1" false 5.
Proof.
  apply (periodic_names_distinct "3_adamw_1" 4 5). lia.
Defined.

Lemma improving_save_sets_best_witness :
  dict_get (@with_metrics Stub.frozen_trainer [("in_channels", PInt 3)] 1
              F32.one Stub.three [] []) "val_mse_age"
    = PFloat Stub.three /\
  @select_metric Stub.frozen_trainer "min_mse"
    (@with_metrics Stub.frozen_trainer [("in_channels", PInt 3)] 1
       F32.one Stub.three [] [])
    F32.one F32.half [] []
    = Ok (Some F32.half, Truth (F32.leb F32.half Stub.three)).
Proof.
  apply (@improving_save_sets_best Stub.frozen_trainer "min_mse"
           [("in_channels", PInt 3)] 1 F32.one Stub.three [] []
           F32.one F32.half [] [] "val_mse_age" true Stub.three F32.half).
  - reflexivity.
  - reflexivity.
Defined.

Lemma train_record_frame_witness :
  (forall k v,
      In (k, v) (dict_param Stub.script_args) ->
      dict_lookup
        (w_dict (snd (@train Stub.frozen_trainer Stub.script_args
                        (Stub.fresh_world [("in_channels", PInt 3)])))) k
      = Some v) /\
  (forall k,
      ~ In k metric_keys -> ~ In k (map fst (dict_param Stub.script_args)) ->
      dict_lookup
        (w_dict (snd (@train Stub.frozen_trainer Stub.script_args
                        (Stub.fresh_world [("in_channels", PInt 3)])))) k
      = dict_lookup [("in_channels", PInt 3)] k).
Proof.
  refine (@train_record_frame Stub.frozen_trainer Stub.script_args
            (Stub.fresh_world [("in_channels", PInt 3)])
            (fst (@train Stub.frozen_trainer Stub.script_args
                    (Stub.fresh_world [("in_channels", PInt 3)])))
            _ _).
  apply surjective_pairing.
Defined.

Lemma train_checkpoints_well_formed_witness :
  exists t,
    w_trace (snd (@train Stub.frozen_trainer Stub.script_args
                    (Stub.fresh_world [("in_channels", PInt 3)]))) = [] ++ t /\
    Forall (@well_formed_save Stub.frozen_trainer "3_adamw_1" 3) t.
Proof.
  refine (@train_checkpoints_well_formed Stub.frozen_trainer Stub.script_args
            (Stub.fresh_world [("in_channels", PInt 3)])
            (fst (@train Stub.frozen_trainer Stub.script_args
                    (Stub.fresh_world [("in_channels", PInt 3)])))
            _ _).
  apply surjective_pairing.
Defined.

Lemma train_then_predict_witness :
  dict_getitem
    (w_dict (snd (@train Stub.frozen_trainer Stub.script_args
                    (Stub.fresh_world [("in_channels", PInt 3)]))))
    "train_suffix" = Ok (PStr "1") /\
  @predict_age_gender Stub.constant_model (Stub.minus_three, Stub.minus_three)
    (w_dict (snd (@train Stub.frozen_trainer Stub.script_args
                    (Stub.fresh_world [("in_channels", PInt 3)]))))
    ["1.jpg"; "2.jpg"] true 2
  = @predict_age_gender Stub.constant_model (Stub.minus_three, Stub.minus_three)
      [("train_suffix", PStr "1")] ["1.jpg"; "2.jpg"] true 2.
Proof.
  refine (@train_then_predict Stub.frozen_trainer Stub.constant_model
            Stub.script_args (Stub.fresh_world [("in_channels", PInt 3)])
            (fst (@train Stub.frozen_trainer Stub.script_args
                    (Stub.fresh_world [("in_channels", PInt 3)])))
            _ (Stub.minus_three, Stub.minus_three) ["1.jpg"; "2.jpg"] true 2 _).
  apply surjective_pairing.
Defined.

Lemma train_fresh_run_witness :
  exists w',
    @train Stub.frozen_trainer Stub.script_args
      (Stub.fresh_world [("in_channels", PInt 3)]) = (Ok tt, w') /\
    w_dict w' = dict_update [("in_channels", PInt 3)] (dict_param Stub.script_args) /\
    saved_names (w_trace w') = ["3_adamw_1_1"; "3_adamw_1_2"; "3_adamw_1_3"].
Proof.
  refine (@train_fresh_run Stub.frozen_trainer Stub.script_args
            (Stub.fresh_world [("in_channels", PInt 3)]) _ _ _ _).
  - repeat constructor.
  - reflexivity.
  - reflexivity.
  - cbn. lia.
Defined.

Lemma train_zero_save_period_witness :
  w_dict (snd (@train Stub.frozen_trainer Stub.zero_period_args
                 (Stub.fresh_world [("in_channels", PInt 3)])))
  = dict_update [("in_channels", PInt 3)] (dict_param Stub.zero_period_args) /\
  saved_checkpoints
    (w_trace (snd (@train Stub.frozen_trainer Stub.zero_period_args
                     (Stub.fresh_world [("in_channels", PInt 3)])))) = [] /\
  (no_best [("in_channels", PInt 3)] ->
   known_optimizer "adamw" = true ->
   known_mode "min_mse" = true ->
   (1 <= 3 ->
    fst (@train Stub.frozen_trainer Stub.zero_period_args
           (Stub.fresh_world [("in_channels", PInt 3)])) = Raise ZeroDivisionError) /\
   (3 <= 0 ->
    fst (@train Stub.frozen_trainer Stub.zero_period_args
           (Stub.fresh_world [("in_channels", PInt 3)])) = Ok tt)).
Proof.
  refine (@train_zero_save_period Stub.frozen_trainer Stub.zero_period_args
            (Stub.fresh_world [("in_channels", PInt 3)])
            (fst (@train Stub.frozen_trainer Stub.zero_period_args
                    (Stub.fresh_world [("in_channels", PInt 3)])))
            _ _ _).
  - reflexivity.
  - apply surjective_pairing.
Defined.

Lemma test_load_failure_aborts_witness :
  @test Stub.frozen_trainer Stub.broken_checkpoint "data" "saved" 2 8 0 false true false
  = Raise (OSError "saved/b").
Proof.
  apply (@test_load_failure_aborts Stub.frozen_trainer Stub.broken_checkpoint
           "data" "saved" 2 8 0 false true false
           ["saved/a"] "saved/b" ["saved/c"] (OSError "saved/b")).
  - reflexivity.
  - intros q [<-|[]]. eexists. reflexivity.
  - reflexivity.
Defined.

Lemma test_record_files_witness :
  exists bundles,
    @test Stub.frozen_trainer Stub.two_checkpoints "data" "saved" 2 8 0 false true false
    = Ok (bundles,
          @record_files Stub.frozen_trainer Stub.two_checkpoints
            ["saved/a"; "saved/b"] bundles) /\
    length bundles = 2%nat.
Proof.
  refine (@test_record_files Stub.frozen_trainer Stub.two_checkpoints
            "data" "saved" 2 8 0 false true false _).
  intros p _. eexists. reflexivity.
Defined.

Lemma test_keeps_other_keys_witness :
  exists bundles files,
    @test Stub.frozen_trainer Stub.two_checkpoints "data" "saved" 2 8 0 false true false
    = Ok (bundles, files) /\
    Forall2 (fun p b =>
               exists model d0,
                 @load_model _ Stub.two_checkpoints p = Ok (model, d0) /\
                 forall k, ~ In k result_keys ->
                           dict_lookup (b_dict b) k = dict_lookup d0 k)
            ["saved/a"; "saved/b"] bundles.
Proof.
  refine (@test_keeps_other_keys Stub.frozen_trainer Stub.two_checkpoints
            "data" "saved" 2 8 0 false true false _).
  intros p _. eexists. reflexivity.
Defined.

Lemma test_without_runs_witness :
  exists bundles files,
    @test Stub.frozen_trainer Stub.two_checkpoints "data" "saved" 0 8 0 false true false
    = Ok (bundles, files) /\
    length bundles = 2%nat /\
    Forall (fun b =>
              b_train_cm b = [] /\ b_val_cm b = [] /\ b_test_cm b = [] /\
              Forall (fun k =>
                        dict_lookup (b_dict b) k
                        = Some (PFloat (@np_mean Stub.frozen_trainer [])))
                     result_keys)
           bundles.
Proof.
  refine (@test_without_runs Stub.frozen_trainer Stub.two_checkpoints
            "data" "saved" 0 8 0 false true false _ _).
  - lia.
  - intros p _. eexists. reflexivity.
Defined.
